(** * SmartPort command decoder (Yellow Hamr, phase 2): model and properties

    Shallow embedding of
    [gateware/yellow_hamr/firmware/phase2_command_decoder/main/command_decoder.c].

    The firmware talks to the outside world through ESP-IDF calls
    ([gpio_get_level], [esp_timer_get_time], [esp_rom_delay_us], [printf])
    and keeps its capture in two globals ([capture_buffer], [capture_len]).
    The model is a state monad over the two globals that also collects the
    effects a computation performs, in program order: hardware calls, reads
    and writes of the array, printed lines.  What the pins and the clock
    answer is a parameter of the model: a [hardware] tells, for the n-th
    hardware call of a run, the level of every pin and the value of the
    microsecond timer.  C leaves open the order in which the arguments of a
    call are evaluated; where the arguments of a [printf] read pins, the
    order the compiled program takes is the third thing the [hardware]
    tells, and it may be any order.

    Modelled: [get_command_name], [read_wrdata], [drive_enabled],
    [read_byte_raw], [check_wrdata_activity], [wait_for_write_mode],
    [capture_packet], [find_sync_pattern], [analyze_capture], and, over a
    second layer of effects (pin configuration and writes, scheduler delays,
    the lines of the main loop), [configure_gpio], [read_phases] and
    [app_main].  [ack_assert] and [ack_deassert] are not. *)

From Stdlib Require Import ZArith String Lia Sorted.
From stdpp Require Import base list strings.

Local Open Scope Z_scope.

(** ** Constants of the source *)

Definition BIT_TIME_US : Z := 4.
Definition HALF_BIT_US : Z := 2.
Definition CAPTURE_TIMEOUT_US : Z := 10000.
Definition CAPTURE_SIZE : Z := 128.
Definition SYNC_PATTERN : list Z := [0xFF; 0x3F; 0xCF; 0xF3; 0xFC; 0xFF].
Definition sizeof_SYNC_PATTERN : Z := 6.

Definition INT_MAX : Z := 2 ^ 31 - 1.

(** [int] and [size_t] are 32 bits wide on the target; an [int] operand that
    meets a [size_t] one is converted to [size_t] first. *)
Definition to_size_t (x : Z) : Z := x mod 2 ^ 32.
Definition to_int (x : Z) : Z := (x + 2 ^ 31) mod 2 ^ 32 - 2 ^ 31.
Definition to_uint8 (x : Z) : Z := x mod 2 ^ 8.

Inductive pin :=
| PIN_PHI0 | PIN_PHI1 | PIN_PHI2 | PIN_PHI3
| PIN_WRDATA | PIN_RDDATA | PIN_ACK
| PIN_ENBL1 | PIN_WREQ | PIN_ENBL2 | PIN_DBG_Q7.

#[global] Instance pin_eq_dec : EqDecision pin.
Proof. solve_decision. Defined.

(** ** Command names *)

Definition get_command_name (cmd : Z) : string :=
  match cmd with
  | 0x00 => "STATUS"
  | 0x01 => "READBLOCK"
  | 0x02 => "WRITEBLOCK"
  | 0x03 => "FORMAT"
  | 0x04 => "CONTROL"
  | 0x05 => "INIT"
  | 0x06 => "OPEN"
  | 0x07 => "CLOSE"
  | 0x08 => "READ"
  | 0x09 => "WRITE"
  | _ => "UNKNOWN"
  end%string.

(** ** Effects *)

(** One constructor per [printf] of the two modelled functions, carrying the
    values that are formatted.  The percentage printed by
    [check_wrdata_activity] is a [float] derived from the two counters next
    to it and is left out. *)
Inductive line :=
| DbgWaiting
| DbgTimeout
| DbgLevels (wrdata enbl1 enbl2 wrreq : Z)
| DbgActive
| DbgWrdata (samples high_count transitions : Z)
| DbgNoTransitions
| LCapture (len : Z)
| LHex (b : Z)
| LEllipsis
| LNewline
| LSync (sync_offset : Z)
| LPktStart (pkt_start : Z)
| LPkt (dest src type : Z)
| LCmd (cmd : Z) (name : string)
| WarnAllZero
| WarnAllOne
| InfoNoSync.

Inductive event :=
| EvDelay (us : Z)
| EvGpio (p : pin) (v : Z)
| EvTimer (t : Z)
| EvLoad (i : Z)
| EvStore (i v : Z)
| EvPrintf (l : line).

Definition prints (evs : list event) : list line :=
  omap (fun e => match e with EvPrintf l => Some l | _ => None end) evs.
Definition loads (evs : list event) : list Z :=
  omap (fun e => match e with EvLoad i => Some i | _ => None end) evs.
Definition stores (evs : list event) : list (Z * Z) :=
  omap (fun e => match e with EvStore i v => Some (i, v) | _ => None end) evs.
Definition samples_of (p : pin) (evs : list event) : list Z :=
  omap (fun e => match e with
                 | EvGpio q v => if decide (q = p) then Some v else None
                 | _ => None
                 end) evs.

(** ** State and monad *)

(** [tick] counts the hardware calls made so far; it is the index into the
    [hardware] oracle and is not a variable of the program. *)
Record state := mkState {
  tick : nat;
  capture_buffer : list Z;
  capture_len : Z
}.

(** A computation either runs out of loop fuel ([None]) or yields a value,
    the next state and the effects it performed. *)
Definition M (A : Type) : Type := state -> option (A * state * list event).

#[global] Instance M_ret : MRet M := fun A a s => Some (a, s, []).
#[global] Instance M_bind : MBind M := fun A B f m s =>
  match m s with
  | Some (a, s1, e1) =>
      match f a s1 with
      | Some (b, s2, e2) => Some (b, s2, e1 ++ e2)
      | None => None
      end
  | None => None
  end.

Definition out_of_fuel {A} : M A := fun _ => None.

Definition printf (l : line) : M unit := fun s => Some (tt, s, [EvPrintf l]).

Definition get_capture_len : M Z := fun s => Some (capture_len s, s, []).
Definition set_capture_len (n : Z) : M unit := fun s =>
  Some (tt, mkState (tick s) (capture_buffer s) n, []).

(** [capture_buffer[i]] as an rvalue.  Outside the array the C read is
    undefined; the model answers 0 there and the [EvLoad] event keeps the
    index, so that bounds are a property of the event list. *)
Definition load (i : Z) : M Z := fun s =>
  Some (if 0 <=? i then default 0 (capture_buffer s !! Z.to_nat i) else 0,
        s, [EvLoad i]).

(** [capture_buffer[i] = v].  Outside the array the model leaves the array as
    it is (stdpp's insert does nothing past the end). *)
Definition store (i v : Z) : M unit := fun s =>
  Some (tt,
        mkState (tick s)
                (if 0 <=? i then <[Z.to_nat i := v]> (capture_buffer s)
                 else capture_buffer s)
                (capture_len s),
        [EvStore i v]).

(** [for (int i = i0; ...; i++) body(i)] with a known trip count. *)
Fixpoint for_ (n : nat) (i : Z) (body : Z -> M unit) : M unit :=
  match n with
  | O => mret tt
  | S n' => body i;; for_ n' (i + 1) body
  end.

(** ** Analysis of a capture: [find_sync_pattern] and [analyze_capture] *)

(** Inner loop of [find_sync_pattern], from pattern index [j] on, [pat]
    being the bytes of [SYNC_PATTERN] still to compare: the first mismatch
    clears [match] and breaks. *)
Fixpoint sync_match (pat : list Z) (i j : Z) : M bool :=
  match pat with
  | [] => mret true
  | p :: pat' =>
      b ← load (i + j);
      if negb (b =? p) then mret false else sync_match pat' i (j + 1)
  end.

(** Outer loop of [find_sync_pattern]; [n] is the number of values of [i]
    still to try, [sync_offset] of the loop bound being
    [capture_len - sizeof(SYNC_PATTERN)] in [size_t]. *)
Fixpoint find_sync_from (n : nat) (i : Z) : M Z :=
  match n with
  | O => mret (-1)
  | S n' =>
      m ← sync_match SYNC_PATTERN i 0;
      if m : bool then mret i else find_sync_from n' (i + 1)
  end.

Definition find_sync_pattern : M Z :=
  len ← get_capture_len;
  if to_size_t len <? sizeof_SYNC_PATTERN then mret (-1)
  else
    find_sync_from
      (Z.to_nat (to_size_t (len - sizeof_SYNC_PATTERN) + 1)) 0.

(** The branch of [analyze_capture] taken when a sync pattern was found
    (source lines 322 to 352). *)
Definition analyze_packet (sync_offset : Z) : M unit :=
  printf (LSync sync_offset);;
  let pkt_start := to_int (to_size_t sync_offset + sizeof_SYNC_PATTERN) in
  len ← get_capture_len;
  is_start ← (if pkt_start <? len
              then b ← load pkt_start; mret (b =? 0xC3)
              else mret false);
  if is_start : bool then
    printf (LPktStart pkt_start);;
    if pkt_start + 8 <? len then
      dest ← load (pkt_start + 1);
      src ← load (pkt_start + 2);
      type ← load (pkt_start + 3);
      cmd ← load (pkt_start + 8);
      printf (LPkt dest src type);;
      if (type =? 0x80) || (type =? 0x85)
      then printf (LCmd cmd (get_command_name cmd))
      else mret tt
    else mret tt
  else mret tt.

(** The scan of the no-sync branch: both flags are updated for every
    captured byte, each test reading the byte again. *)
Fixpoint scan_uniform (n : nat) (i : Z) (all_zero all_one : bool)
  : M (bool * bool) :=
  match n with
  | O => mret (all_zero, all_one)
  | S n' =>
      b0 ← load i;
      let all_zero := if negb (b0 =? 0x00) then false else all_zero in
      b1 ← load i;
      let all_one := if negb (b1 =? 0xFF) then false else all_one in
      scan_uniform n' (i + 1) all_zero all_one
  end.

(** The branch of [analyze_capture] taken when no sync pattern was found
    (source lines 354 to 368). *)
Definition analyze_no_sync : M unit :=
  len ← get_capture_len;
  '(all_zero, all_one) ← scan_uniform (Z.to_nat len) 0 true true;
  if all_zero : bool then printf WarnAllZero
  else if all_one : bool then printf WarnAllOne
  else printf InfoNoSync.

Definition analyze_capture : M unit :=
  len ← get_capture_len;
  printf (LCapture len);;
  let print_len := if len >? 32 then 32 else len in
  for_ (Z.to_nat print_len) 0 (fun i => b ← load i; printf (LHex b));;
  (if len >? 32 then printf LEllipsis else mret tt);;
  printf LNewline;;
  sync_offset ← find_sync_pattern;
  if sync_offset >=? 0 then analyze_packet sync_offset
  else analyze_no_sync.

(** ** Hardware and capture *)

(** The [printf] calls whose arguments read pins: the levels printed after a
    wait timeout (source lines 238 to 242), the levels printed when the
    write-data line showed no transition (lines 252 to 256), and the state
    line of [app_main] (lines 450 to 455). *)
Inductive printf_site :=
| SiteTimeout
| SiteNoTransitions
| SiteState.

(** Orders of evaluation.  [arrange code l] puts the elements of [l] in an
    order picked by [code]: the last element comes first, and each element
    before it is put into the arrangement of those after it at the position
    [code] gives for it (at the end, if the position is beyond the end; at
    the front, if [code] is used up).  Every code gives a permutation of [l]
    and every permutation has a code. *)
Fixpoint insert_at {A} (n : nat) (x : A) (l : list A) : list A :=
  match n, l with
  | O, _ => x :: l
  | S n', y :: l' => y :: insert_at n' x l'
  | S _, [] => [x]
  end.

Fixpoint arrange {A} (code : list nat) (l : list A) : list A :=
  match l with
  | [] => []
  | x :: l' => insert_at (hd 0%nat code) x (arrange (tl code) l')
  end.

(** [level p n] is the level of pin [p] and [timer_us n] the value of
    [esp_timer_get_time()] (an [int64_t] count of microseconds, taken as an
    integer) at the [n]-th hardware call of the run.  [arg_order site] is
    the code of the order in which the program, as compiled for this
    hardware, evaluates the arguments of the [printf] at [site]. *)
Record hardware := mkHardware {
  level : pin -> nat -> bool;
  timer_us : nat -> Z;
  arg_order : printf_site -> list nat
}.

(** What ended [capture_packet]: the early [return] after the wait for write
    mode, one of the two [break]s of the capture loop, or its loop
    condition.  The C function returns nothing; the model returns the exit
    it took. *)
Inductive capture_exit :=
| ExitWaitTimeout
| ExitCaptureTimeout
| ExitDeselected
| ExitFull.

(** The level read for the argument that reads pin [p], among the levels
    [vs] read for the arguments of a call (0 if no argument reads [p]). *)
Fixpoint arg_value (vs : list (pin * Z)) (p : pin) : Z :=
  match vs with
  | [] => 0
  | (q, v) :: rest => if decide (p = q) then v else arg_value rest p
  end.

Section Firmware.

Variable hw : hardware.

Definition next_tick (s : state) : state :=
  mkState (S (tick s)) (capture_buffer s) (capture_len s).

Definition gpio_get_level (p : pin) : M Z := fun s =>
  let v := Z.b2z (level hw p (tick s)) in
  Some (v, next_tick s, [EvGpio p v]).

Definition esp_timer_get_time : M Z := fun s =>
  let t := timer_us hw (tick s) in
  Some (t, next_tick s, [EvTimer t]).

Definition esp_rom_delay_us (us : Z) : M unit := fun s =>
  Some (tt, next_tick s, [EvDelay us]).

Definition read_wrdata : M bool :=
  v ← gpio_get_level PIN_WRDATA;
  mret (negb (v =? 0)).

(** [!gpio_get_level(PIN_ENBL1) || !gpio_get_level(PIN_ENBL2)]: the second
    pin is read only when the first one is high. *)
Definition drive_enabled : M bool :=
  e1 ← gpio_get_level PIN_ENBL1;
  if e1 =? 0 then mret true
  else e2 ← gpio_get_level PIN_ENBL2; mret (e2 =? 0).

Fixpoint read_byte_loop (n : nat) (byte : Z) : M Z :=
  match n with
  | O => mret byte
  | S n' =>
      esp_rom_delay_us HALF_BIT_US;;
      b ← read_wrdata;
      let byte := to_uint8 (Z.lor (Z.shiftl byte 1) (if b : bool then 1 else 0)) in
      esp_rom_delay_us HALF_BIT_US;;
      read_byte_loop n' byte
  end.

Definition read_byte_raw : M Z := read_byte_loop 8 0.

(** The polling loops end when the clock says so; the model runs them on
    fuel and yields [None] when the fuel is used up before the loop ends.
    Times are [int64_t] and the counters [int] in the source; their values
    stay far from the bounds of these types and are taken as integers. *)
Fixpoint activity_loop (fuel : nat) (start_time timeout_us : Z)
    (last_state : bool) (high_count samples transitions : Z)
  : M (Z * Z * Z) :=
  match fuel with
  | O => out_of_fuel
  | S fuel' =>
      now ← esp_timer_get_time;
      if now - start_time <? timeout_us then
        st ← read_wrdata;
        let samples := samples + 1 in
        let high_count := if st : bool then high_count + 1 else high_count in
        if negb (Bool.eqb st last_state)
        then activity_loop fuel' start_time timeout_us st
                           high_count samples (transitions + 1)
        else activity_loop fuel' start_time timeout_us last_state
                           high_count samples transitions
      else mret (samples, high_count, transitions)
  end.

Definition check_wrdata_activity (fuel : nat) (timeout_us : Z) : M Z :=
  start_time ← esp_timer_get_time;
  last_state ← read_wrdata;
  '(samples, high_count, transitions) ←
    activity_loop fuel start_time timeout_us last_state
                  (if last_state : bool then 1 else 0) 1 0;
  printf (DbgWrdata samples high_count transitions);;
  mret transitions.

Fixpoint wait_loop (fuel : nat) (start timeout_us : Z) : M bool :=
  match fuel with
  | O => out_of_fuel
  | S fuel' =>
      now ← esp_timer_get_time;
      if now - start <? timeout_us then
        v ← gpio_get_level PIN_WREQ;
        if v =? 0 then mret true else wait_loop fuel' start timeout_us
      else mret false
  end.

Definition wait_for_write_mode (fuel : nat) (timeout_us : Z) : M bool :=
  start ← esp_timer_get_time;
  wait_loop fuel start timeout_us.

(** The evaluation of arguments [gpio_get_level(p)], one for each of
    [pins], in the order of [pins]: the levels read, each with its pin. *)
Fixpoint read_pins (pins : list pin) : M (list (pin * Z)) :=
  match pins with
  | [] => mret []
  | p :: rest =>
      v ← gpio_get_level p;
      vs ← read_pins rest;
      mret ((p, v) :: vs)
  end.

(** The four levels printed by the two diagnostic [printf]s of
    [capture_packet]: the four arguments are evaluated in the order the
    hardware gives for the call, and each level is printed in its place. *)
Definition print_levels (site : printf_site) : M unit :=
  vs ← read_pins (arrange (arg_order hw site)
                    [PIN_WRDATA; PIN_ENBL1; PIN_ENBL2; PIN_WREQ]);
  printf (DbgLevels (arg_value vs PIN_WRDATA) (arg_value vs PIN_ENBL1)
                    (arg_value vs PIN_ENBL2) (arg_value vs PIN_WREQ)).

(** One pass through [while (capture_len < CAPTURE_SIZE) { ... }], loop
    condition included: [Some e] when the loop is left by exit [e], [None]
    when the body ran to its end. *)
Definition capture_iter (start_time : Z) : M (option capture_exit) :=
  len ← get_capture_len;
  if len <? CAPTURE_SIZE then
    now ← esp_timer_get_time;
    if now - start_time >? CAPTURE_TIMEOUT_US then mret (Some ExitCaptureTimeout)
    else
      b ← read_byte_raw;
      i ← get_capture_len;
      set_capture_len (i + 1);;
      store i b;;
      en ← drive_enabled;
      if negb en then mret (Some ExitDeselected) else mret None
  else mret (Some ExitFull).

Fixpoint capture_loop (fuel : nat) (start_time : Z) : M capture_exit :=
  match fuel with
  | O => out_of_fuel
  | S fuel' =>
      r ← capture_iter start_time;
      match r with
      | Some e => mret e
      | None => capture_loop fuel' start_time
      end
  end.

Definition capture_packet (fuel : nat) : M capture_exit :=
  _ ← esp_timer_get_time;
  set_capture_len 0;;
  printf DbgWaiting;;
  ok ← wait_for_write_mode fuel 50000;
  if negb ok then
    printf DbgTimeout;;
    print_levels SiteTimeout;;
    mret ExitWaitTimeout
  else
    printf DbgActive;;
    transitions ← check_wrdata_activity fuel 2000;
    (if transitions =? 0
     then printf DbgNoTransitions;; print_levels SiteNoTransitions
     else mret tt);;
    start_time ← esp_timer_get_time;
    capture_loop fuel start_time.

End Firmware.

(** ** Reading of the state used in the statements *)

(** The captured bytes: the first [capture_len] cells of the array. *)
Definition captured (s : state) : list Z :=
  take (Z.to_nat (capture_len s)) (capture_buffer s).

(** The array has its declared size and the length is within it. *)
Definition wf_state (s : state) : Prop :=
  length (capture_buffer s) = Z.to_nat CAPTURE_SIZE /\
  0 <= capture_len s <= CAPTURE_SIZE.

(** A state holding exactly the bytes [bs], the rest of the array zeroed. *)
Definition state_of (bs : list Z) : state :=
  mkState 0 (bs ++ replicate (Z.to_nat CAPTURE_SIZE - length bs) 0)
          (Z.of_nat (length bs)).

(** ** Reference readings of the specification *)

(** The names of the wire protocol, in the order of their codes. *)
Definition command_table : list string :=
  ["STATUS"; "READBLOCK"; "WRITEBLOCK"; "FORMAT"; "CONTROL";
   "INIT"; "OPEN"; "CLOSE"; "READ"; "WRITE"]%string.

Definition table_name (cmd : Z) : string :=
  if (0 <=? cmd) && (cmd <=? 9)
  then default "UNKNOWN"%string (command_table !! Z.to_nat cmd)
  else "UNKNOWN"%string.

(** The byte values that have a name of their own, and the names the lookup
    can return over all byte values. *)
Definition named_codes : list Z :=
  filter (fun c => get_command_name c <> "UNKNOWN"%string) (seqZ 0 256).
Definition command_names : list string :=
  remove_dups (get_command_name <$> seqZ 0 256).

(** Value of a sequence of bits, the first one being the most significant. *)
Definition msb_first (bits : list bool) : Z :=
  fold_left (fun acc (b : bool) => 2 * acc + Z.b2z b) bits 0.

(** The level [read_byte_raw] finds at its [k]-th sample when it starts in
    state [s]: every bit cell makes three hardware calls (delay, sample,
    delay). *)
Definition sampled_bit (hw : hardware) (s : state) (k : nat) : bool :=
  level hw PIN_WRDATA (3 * k + 1 + tick s).

(** What one call of [read_byte_raw] does to the hardware: per bit cell a
    half-cell delay, one sample of the write-data line, a half-cell delay. *)
Definition byte_events (hw : hardware) (s : state) : list event :=
  flat_map (fun k => [EvDelay HALF_BIT_US;
                      EvGpio PIN_WRDATA (Z.b2z (sampled_bit hw s k));
                      EvDelay HALF_BIT_US]) (seq 0 8).

Definition after_ticks (n : nat) (s : state) : state :=
  mkState (n + tick s) (capture_buffer s) (capture_len s).

(** An occurrence of the sync marker at offset [k] of the bytes [bs]. *)
Definition sync_at (bs : list Z) (k : nat) : Prop :=
  take (length SYNC_PATTERN) (drop k bs) = SYNC_PATTERN.

#[global] Instance sync_at_dec bs k : Decision (sync_at bs k).
Proof. unfold sync_at. apply _. Defined.

(** The cell of the array at index [i]. *)
Definition byte_at (s : state) (i : Z) : Z :=
  default 0 (capture_buffer s !! Z.to_nat i).

(** Every read of the array falls inside the captured bytes. *)
Definition safe_loads (s : state) (evs : list event) : Prop :=
  Forall (fun i => 0 <= i < capture_len s) (loads evs).

(** The hex dump [analyze_capture] starts with. *)
Definition dump_lines (s : state) : list line :=
  LCapture (capture_len s) :: (LHex <$> take 32 (captured s)) ++
  (if capture_len s >? 32 then [LEllipsis] else []) ++ [LNewline].

(** The three outcomes of the no-sync branch, by what the captured bytes
    are. *)
Definition uniform_class (bs : list Z) : line :=
  if forallb (fun b => b =? 0x00) bs then WarnAllZero
  else if forallb (fun b => b =? 0xFF) bs then WarnAllOne
  else InfoNoSync.

(** ** Auxiliary notions, sample captures and sample hardware *)

(** Events that are all reads of the array at indices in [lo, hi). *)
Definition only_loads (lo hi : Z) (evs : list event) : Prop :=
  Forall (fun e => exists i, e = EvLoad i /\ lo <= i < hi) evs.

(** Sample captures: a READBLOCK command packet, a packet cut after its
    type byte, an empty capture, and a capture whose marker comes after the
    first three bytes of one. *)
Definition command_capture : state :=
  state_of (SYNC_PATTERN ++ [0xC3; 0x81; 0x80; 0x80; 0x80; 0x82; 0x80; 0x81; 0x01]
              ++ [0xC8]).

Definition short_header_capture : state :=
  state_of (SYNC_PATTERN ++ [0xC3; 0x81; 0x80; 0x80]).

Definition empty_capture : state := state_of [].

Definition late_sync_capture : state :=
  state_of ([0xFF; 0x3F; 0xCF] ++ SYNC_PATTERN ++ [0xC3; 0x81]).

(** A computation that leaves the capture alone: it neither changes the two
    globals nor accesses the array. *)
Definition keeps_capture {A} (m : M A) : Prop :=
  forall s a s' evs,
    m s = Some (a, s', evs) ->
    capture_len s' = capture_len s /\
    capture_buffer s' = capture_buffer s /\
    stores evs = [] /\ loads evs = [].

(** The enable condition as [drive_enabled] finds it when called at hardware
    call [t]: one of the two active-low enable lines is low. *)
Definition enable_condition (hw : hardware) (t : nat) : bool :=
  negb (level hw PIN_ENBL1 t) || negb (level hw PIN_ENBL2 (S t)).

Definition enable_ticks (hw : hardware) (t : nat) : nat :=
  if level hw PIN_ENBL1 t then 2 else 1.

Definition enable_events (hw : hardware) (t : nat) : list event :=
  if level hw PIN_ENBL1 t
  then [EvGpio PIN_ENBL1 1; EvGpio PIN_ENBL2 (Z.b2z (level hw PIN_ENBL2 (S t)))]
  else [EvGpio PIN_ENBL1 0].

(** [passes hw start_time n s s' evs]: starting in [s], [n] passes through
    the capture loop that each run to the end of the loop body lead to [s'],
    with the effects [evs]. *)
Inductive passes (hw : hardware) (start_time : Z)
  : nat -> state -> state -> list event -> Prop :=
| passes_O s : passes hw start_time 0 s s []
| passes_S n s s1 s2 e1 e2 :
    capture_iter hw start_time s = Some (None, s1, e1) ->
    passes hw start_time n s1 s2 e2 ->
    passes hw start_time (S n) s s2 (e1 ++ e2).

(** The levels that [read_pins] reads for [pins] when called at hardware
    call [t], and the effects of the reads. *)
Fixpoint pin_reads (hw : hardware) (t : nat) (pins : list pin)
  : list (pin * Z) :=
  match pins with
  | [] => []
  | p :: rest => (p, Z.b2z (level hw p t)) :: pin_reads hw (S t) rest
  end.

Definition read_events (vs : list (pin * Z)) : list event :=
  (fun x => EvGpio x.1 x.2) <$> vs.

(** Two codes: the arguments in the order they are written, and from the
    last to the first (for calls of up to five arguments). *)
Definition left_to_right : list nat := [].
Definition right_to_left : list nat := [4; 4; 4; 4; 4]%nat.

(** The byte [read_byte_raw] assembles when called at hardware call [t]. *)
Definition byte_read (hw : hardware) (t : nat) : Z :=
  msb_first ((fun k => level hw PIN_WRDATA (3 * k + 1 + t)) <$> seq 0 8).

(** Hardware on which every call takes a millisecond: write mode is there at
    once, the drive stays selected, the write-data line is stuck high. *)
Definition slow_hw : hardware :=
  mkHardware (fun p _ => match p with
                         | PIN_WREQ | PIN_ENBL1 => false
                         | _ => true
                         end)
             (fun n => 1000 * Z.of_nat n)
             (fun _ => right_to_left).

(** Hardware on which every call takes a microsecond and the drive is
    deselected from hardware call [t] on: write mode is there at once, the
    write-data line is stuck high. *)
Definition deselect_hw (t : nat) : hardware :=
  mkHardware (fun p n => match p with
                         | PIN_WREQ => false
                         | PIN_ENBL1 => bool_decide (t <= n)%nat
                         | _ => true
                         end)
             Z.of_nat
             (fun _ => right_to_left).

(** Hardware on which every call takes a millisecond and the write-request
    line is never asserted. *)
Definition idle_hw : hardware :=
  mkHardware (fun _ _ => true) (fun n => 1000 * Z.of_nat n)
             (fun _ => right_to_left).

(** Hardware whose write-data line carries the bits 1 0 1 1 0 0 1 0, one per
    bit cell of three hardware calls. *)
Definition pattern_hw : hardware :=
  mkHardware (fun p n => match p with
                         | PIN_WRDATA =>
                             default false
                               ([true; false; true; true;
                                 false; false; true; false] !! (n / 3)%nat)
                         | _ => true
                         end)
             Z.of_nat
             (fun _ => right_to_left).

Create HintDb capture discriminated.

(** ** Notions used for the further properties *)

(** [n] bytes out of a sequence of bits, eight bits a byte, the first bit of
    a byte being its most significant one. *)
Fixpoint bytes_of_bits (n : nat) (bits : list bool) : list Z :=
  match n with
  | O => []
  | S n' => msb_first (take 8 bits) :: bytes_of_bits n' (drop 8 bits)
  end.

(** The bytes that the samples of a line make, a sample other than 0 being a
    1 bit: one byte for every full group of eight samples. *)
Definition bytes_of_samples (samples : list Z) : list Z :=
  bytes_of_bits (length samples / 8) ((fun v => negb (v =? 0)) <$> samples).

(** Number of elements of a sequence that differ from the element before. *)
Fixpoint changes (l : list Z) : Z :=
  match l with
  | a :: t => match t with
              | b :: _ => (if a =? b then 0 else 1) + changes t
              | [] => 0
              end
  | [] => 0
  end.

(** Number of samples other than 0. *)
Definition high_samples (l : list Z) : Z :=
  Z.of_nat (length (filter (fun v => v <> 0) l)).

(** Hardware on which every call takes a microsecond and the write-request
    line is asserted (low) from hardware call [t] on; the other lines are
    high. *)
Definition request_hw (t : nat) : hardware :=
  mkHardware (fun p n => match p with
                         | PIN_WREQ => bool_decide (n < t)%nat
                         | _ => true
                         end)
             Z.of_nat
             (fun _ => right_to_left).

(** Hardware on which every call takes 100 microseconds and the write-data
    line changes level every four hardware calls, starting high. *)
Definition toggle_hw : hardware :=
  mkHardware (fun p n => match p with
                         | PIN_WRDATA => Nat.even (n / 4)
                         | _ => true
                         end)
             (fun n => 100 * Z.of_nat n)
             (fun _ => right_to_left).

(** The hardware calls among the effects of a computation. *)
Definition calls (evs : list event) : list event :=
  omap (fun e => match e with
                 | EvDelay _ | EvGpio _ _ | EvTimer _ => Some e
                 | _ => None
                 end) evs.

(** A computation that only looks at the capture: it changes nothing, stores
    nothing and makes no hardware call. *)
Definition observes {A} (m : M A) : Prop :=
  forall s a s' evs,
    m s = Some (a, s', evs) -> s' = s /\ stores evs = [] /\ calls evs = [].

(** A capture whose sync marker is followed by a byte other than 0xC3. *)
Definition no_start_capture : state :=
  state_of (SYNC_PATTERN ++ [0xC8; 0x81]).

(** ** The main loop: [configure_gpio], [read_phases] and [app_main] *)

Inductive gpio_mode :=
| GPIO_MODE_INPUT
| GPIO_MODE_OUTPUT
| GPIO_MODE_INPUT_OUTPUT.

(** The GPIO number behind each pin name. *)
Definition gpio_num (p : pin) : Z :=
  match p with
  | PIN_PHI0 => 14
  | PIN_PHI1 => 27
  | PIN_PHI2 => 26
  | PIN_PHI3 => 4
  | PIN_WRDATA => 23
  | PIN_RDDATA => 21
  | PIN_ACK => 13
  | PIN_ENBL1 => 35
  | PIN_WREQ => 32
  | PIN_ENBL2 => 33
  | PIN_DBG_Q7 => 25
  end.

(** [1ULL << pin]. *)
Definition pin_bit (p : pin) : Z := Z.shiftl 1 (gpio_num p).

Definition FAST_SAMPLES : Z := 2000.

(** One constructor per [printf] and log call of [app_main], carrying the
    values that are formatted; the eight [printf]s of the banner, which
    format nothing, are one constructor together.  [LogPhase] is the [ESP_LOGD] of a phase change;
    whether it reaches the console depends on the log level. *)
Inductive report :=
| Banner
| LogConfigured
| SpEnable (phases : Z)
| FastCaptured (samples elapsed : Z)
| SigAt (i wrdata wrreq enbl1 enbl2 : Z)
| SigStats (wreq_low wrdata_high transitions : Z)
| WrdataHead
| WrdataBit (b : Z)
| WrdataTail
| SigState (wrdata enbl1 enbl2 wrreq ack : Z)
| SpComplete
| SpReady
| LogPhase (phases : Z).

(** The effects of the main loop: those of the sampling code ([AHw]), the
    configuration and the driving of pins, the scheduler delays (in
    milliseconds where the source goes through [pdMS_TO_TICKS], in ticks
    otherwise) and the lines of [app_main].  [ack_assert] and
    [ack_deassert], the only callers of [gpio_set_direction], are called
    from nowhere in the file and are not modelled. *)
Inductive app_event :=
| AHw (e : event)
| AConfig (pin_bit_mask : Z) (mode : gpio_mode)
| ASetLevel (p : pin) (v : Z)
| ATaskDelayMs (ms : Z)
| ATaskDelay (ticks : Z)
| AReport (r : report).

Definition reports (evs : list app_event) : list report :=
  omap (fun e => match e with AReport r => Some r | _ => None end) evs.
Definition hw_events (evs : list app_event) : list event :=
  omap (fun e => match e with AHw e => Some e | _ => None end) evs.
(** The pin writes and (re)configurations: everything the program does to
    the bus. *)
Definition outputs (evs : list app_event) : list app_event :=
  omap (fun e => match e with
                 | AConfig _ _ | ASetLevel _ _ => Some e
                 | _ => None
                 end) evs.
Definition task_delays (evs : list app_event) : list app_event :=
  omap (fun e => match e with
                 | ATaskDelayMs _ | ATaskDelay _ => Some e
                 | _ => None
                 end) evs.

Definition App (A : Type) : Type :=
  state -> option (A * state * list app_event).

#[global] Instance App_ret : MRet App := fun A a s => Some (a, s, []).
#[global] Instance App_bind : MBind App := fun A B f m s =>
  match m s with
  | Some (a, s1, e1) =>
      match f a s1 with
      | Some (b, s2, e2) => Some (b, s2, e1 ++ e2)
      | None => None
      end
  | None => None
  end.

Definition app_out_of_fuel {A} : App A := fun _ => None.

(** Code of the sampling layer run from the main loop. *)
Definition lift {A} (m : M A) : App A := fun s =>
  match m s with
  | Some (a, s', evs) => Some (a, s', AHw <$> evs)
  | None => None
  end.

Definition report_line (r : report) : App unit := fun s =>
  Some (tt, s, [AReport r]).
Definition gpio_config (pin_bit_mask : Z) (mode : gpio_mode) : App unit :=
  fun s => Some (tt, s, [AConfig pin_bit_mask mode]).
Definition gpio_set_level (p : pin) (v : Z) : App unit := fun s =>
  Some (tt, s, [ASetLevel p v]).
(** [vTaskDelay(pdMS_TO_TICKS(ms))] and [vTaskDelay(ticks)]; like the other
    calls that let time pass they advance the index of the oracle. *)
Definition vTaskDelay_ms (ms : Z) : App unit := fun s =>
  Some (tt, next_tick s, [ATaskDelayMs ms]).
Definition vTaskDelay (ticks : Z) : App unit := fun s =>
  Some (tt, next_tick s, [ATaskDelay ticks]).

Definition input_pins : list pin :=
  [PIN_PHI0; PIN_PHI1; PIN_PHI2; PIN_PHI3;
   PIN_WRDATA; PIN_ENBL1; PIN_WREQ; PIN_ENBL2].

(** The [pin_bit_mask] of the input configuration. *)
Definition input_pin_mask : Z :=
  foldr (fun p m => Z.lor (pin_bit p) m) 0 input_pins.

(** The three [gpio_config] calls differ in mask and mode only: pulls and
    interrupts are disabled in each of them. *)
Definition configure_gpio : App unit :=
  gpio_config input_pin_mask GPIO_MODE_INPUT;;
  gpio_config (pin_bit PIN_ACK) GPIO_MODE_INPUT_OUTPUT;;
  gpio_set_level PIN_ACK 1;;
  gpio_config (pin_bit PIN_RDDATA) GPIO_MODE_OUTPUT;;
  gpio_set_level PIN_RDDATA 1.

(** The variables of [app_main] that live across iterations, the two
    [static] logs included. *)
Record app_state := mkApp {
  last_phases : Z;
  command_active : bool;
  sig_log : list Z;
  wrdata_log : list Z
}.

(** The variables when the loop of [app_main] is entered; the two logs are
    [static] and start zeroed. *)
Definition app_init : app_state :=
  mkApp 0xFF false (replicate (Z.to_nat FAST_SAMPLES) 0)
                   (replicate (Z.to_nat FAST_SAMPLES) 0).

Section MainLoop.

Variable hw : hardware.

(** The operands of [|] are read from left to right. *)
Definition read_phases : M Z :=
  p3 ← gpio_get_level hw PIN_PHI3;
  p2 ← gpio_get_level hw PIN_PHI2;
  p1 ← gpio_get_level hw PIN_PHI1;
  p0 ← gpio_get_level hw PIN_PHI0;
  mret (to_uint8 (Z.lor (Z.lor (Z.lor (Z.shiftl p3 3) (Z.shiftl p2 2))
                               (Z.shiftl p1 1)) p0)).

(** The value stored in [sig_log[i]]. *)
Definition sample_signals : M Z :=
  wrdata ← gpio_get_level hw PIN_WRDATA;
  wreq ← gpio_get_level hw PIN_WREQ;
  enbl1 ← gpio_get_level hw PIN_ENBL1;
  enbl2 ← gpio_get_level hw PIN_ENBL2;
  mret (to_uint8 (Z.lor (Z.lor (Z.lor (Z.shiftl wrdata 3) (Z.shiftl wreq 2))
                               (Z.shiftl enbl1 1)) enbl2)).

(** [for (int i = 0; i < FAST_SAMPLES; i++)] of the sampling, [n] passes
    from index [i] on. *)
Fixpoint fast_sample_loop (n : nat) (i : Z) (sl wl : list Z)
  : M (list Z * list Z) :=
  match n with
  | O => mret (sl, wl)
  | S n' =>
      g ← sample_signals;
      w ← read_wrdata hw;
      esp_rom_delay_us 2;;
      fast_sample_loop n' (i + 1)
        (<[Z.to_nat i := g]> sl) (<[Z.to_nat i := Z.b2z w]> wl)
  end.

(** The loop over [sig_log] that counts and prints the signal changes. *)
Fixpoint sig_scan (n : nat) (sl : list Z)
    (i wreq_low wrdata_high transitions last_sig : Z) : App (Z * Z * Z) :=
  match n with
  | O => mret (wreq_low, wrdata_high, transitions)
  | S n' =>
      let g := default 0 (sl !! Z.to_nat i) in
      let wreq_low := if Z.land g 0x04 =? 0 then wreq_low + 1 else wreq_low in
      let wrdata_high :=
        if Z.land g 0x08 =? 0 then wrdata_high else wrdata_high + 1 in
      if negb (g =? last_sig) then
        let transitions := transitions + 1 in
        (if transitions <=? 10
         then report_line (SigAt i (Z.land (Z.shiftr g 3) 1)
                                   (Z.land (Z.shiftr g 2) 1)
                                   (Z.land (Z.shiftr g 1) 1)
                                   (Z.land g 1))
         else mret tt);;
        sig_scan n' sl (i + 1) wreq_low wrdata_high transitions g
      else
        sig_scan n' sl (i + 1) wreq_low wrdata_high transitions last_sig
  end.

(** [for (int i = 0; i < 32 && i < FAST_SAMPLES; i++)]. *)
Fixpoint wrdata_dump (n : nat) (wl : list Z) (i : Z) : App unit :=
  match n with
  | O => mret tt
  | S n' =>
      report_line
        (WrdataBit (if default 0 (wl !! Z.to_nat i) =? 0 then 0 else 1));;
      wrdata_dump n' wl (i + 1)
  end.

(** [while (drive_enabled() && (esp_timer_get_time() - wait_start) < 3000000)]:
    the clock is read only when the drive is enabled. *)
Fixpoint rearm_loop (fuel : nat) (wait_start : Z) : App unit :=
  match fuel with
  | O => app_out_of_fuel
  | S fuel' =>
      enabled ← lift (drive_enabled hw);
      if enabled : bool then
        now ← lift (esp_timer_get_time hw);
        if now - wait_start <? 3000000 then
          vTaskDelay_ms 10;;
          rearm_loop fuel' wait_start
        else mret tt
      else mret tt
  end.

(** The body of [if (!command_active)]: fast sampling, then the report,
    then the wait for the drive to be released. *)
Definition fast_capture (fuel : nat) (phases : Z) (a : app_state)
  : App app_state :=
  start ← lift (esp_timer_get_time hw);
  '(sl, wl) ← lift (fast_sample_loop (Z.to_nat FAST_SAMPLES) 0
                      (sig_log a) (wrdata_log a));
  t ← lift (esp_timer_get_time hw);
  let elapsed := t - start in
  report_line (SpEnable phases);;
  report_line (FastCaptured FAST_SAMPLES elapsed);;
  '(wreq_low, wrdata_high, transitions) ←
    sig_scan (Z.to_nat FAST_SAMPLES) sl 0 0 0 0 (default 0 (sl !! 0%nat));
  report_line (SigStats wreq_low wrdata_high transitions);;
  report_line WrdataHead;;
  wrdata_dump (Z.to_nat (Z.min 32 FAST_SAMPLES)) wl 0;;
  report_line WrdataTail;;
  vs ← lift (read_pins hw (arrange (arg_order hw SiteState)
                [PIN_WRDATA; PIN_ENBL1; PIN_ENBL2; PIN_WREQ; PIN_ACK]));
  report_line (SigState (arg_value vs PIN_WRDATA) (arg_value vs PIN_ENBL1)
                        (arg_value vs PIN_ENBL2) (arg_value vs PIN_WREQ)
                        (arg_value vs PIN_ACK));;
  report_line SpComplete;;
  wait_start ← lift (esp_timer_get_time hw);
  rearm_loop fuel wait_start;;
  report_line SpReady;;
  vTaskDelay_ms 500;;
  mret (mkApp (last_phases a) false sl wl).

(** One pass through [while (1)]. *)
Definition app_iter (fuel : nat) (a : app_state) : App app_state :=
  phases ← lift read_phases;
  enabled ← lift (drive_enabled hw);
  a1 ← (if (enabled : bool) && ((phases =? 0x0A) || (phases =? 0x0B)) then
          if negb (command_active a) then fast_capture fuel phases a
          else mret a
        else
          if command_active a && negb enabled then
            vTaskDelay_ms 100;;
            mret (mkApp (last_phases a) false (sig_log a) (wrdata_log a))
          else mret a);
  a2 ← (if negb (phases =? last_phases a1) then
          (if negb (phases =? 0x0A) && negb (phases =? 0x0B)
           then report_line (LogPhase phases)
           else mret tt);;
          mret (mkApp phases (command_active a1) (sig_log a1) (wrdata_log a1))
        else mret a1);
  vTaskDelay 1;;
  mret a2.

(** The first [n] passes of the endless loop. *)
Fixpoint app_loop (n fuel : nat) (a : app_state) : App app_state :=
  match n with
  | O => mret a
  | S n' => a' ← app_iter fuel a; app_loop n' fuel a'
  end.

(** [app_main], stopped after [n] passes of its loop. *)
Definition app_main (n fuel : nat) : App app_state :=
  report_line Banner;;
  configure_gpio;;
  report_line LogConfigured;;
  app_loop n fuel app_init.

End MainLoop.

(** ** Reading of the signal log used in the statements *)

(** Bit [k] of a packed log entry, as the [SIG] lines unpack it. *)
Definition sig_bit (k : Z) (g : Z) : Z := Z.land (Z.shiftr g k) 1.

(** The indices, from [i] on, of the entries of [l] that differ from the
    entry before them ([last] for the first one), each with its entry. *)
Fixpoint change_points (last i : Z) (l : list Z) : list (Z * Z) :=
  match l with
  | [] => []
  | g :: t =>
      (if g =? last then [] else [(i, g)]) ++ change_points g (i + 1) t
  end.

Definition sig_line (c : Z * Z) : report :=
  SigAt c.1 (sig_bit 3 c.2) (sig_bit 2 c.2) (sig_bit 1 c.2) (sig_bit 0 c.2).

(** The number of entries of [l] equal to [v]. *)
Definition count_of (v : Z) (l : list Z) : Z :=
  Z.of_nat (length (filter (fun x => x = v) l)).

(** The entry of the signal log made by a pass of the fast sampling that
    starts at hardware call [t], the entry of the write-data log of the
    same pass, and the effects of the pass. *)
Definition sig_sample (hw : hardware) (t : nat) : Z :=
  to_uint8 (Z.lor (Z.lor (Z.lor (Z.shiftl (Z.b2z (level hw PIN_WRDATA t)) 3)
                                (Z.shiftl (Z.b2z (level hw PIN_WREQ (1 + t))) 2))
                         (Z.shiftl (Z.b2z (level hw PIN_ENBL1 (2 + t))) 1))
                  (Z.b2z (level hw PIN_ENBL2 (3 + t)))).

Definition wrdata_sample (hw : hardware) (t : nat) : Z :=
  Z.b2z (level hw PIN_WRDATA (4 + t)).

Definition sample_events (hw : hardware) (t : nat) : list event :=
  [EvGpio PIN_WRDATA (Z.b2z (level hw PIN_WRDATA t));
   EvGpio PIN_WREQ (Z.b2z (level hw PIN_WREQ (1 + t)));
   EvGpio PIN_ENBL1 (Z.b2z (level hw PIN_ENBL1 (2 + t)));
   EvGpio PIN_ENBL2 (Z.b2z (level hw PIN_ENBL2 (3 + t)));
   EvGpio PIN_WRDATA (Z.b2z (level hw PIN_WRDATA (4 + t)));
   EvDelay 2].

(** The hardware calls at which [n] passes begin, the first one at [t]. *)
Definition pass_ticks (n t : nat) : list nat :=
  (fun k => 6 * k + t)%nat <$> seq 0 n.

Definition delays (evs : list event) : list Z :=
  omap (fun e => match e with EvDelay us => Some us | _ => None end) evs.

Definition timers (evs : list event) : list Z :=
  omap (fun e => match e with EvTimer t => Some t | _ => None end) evs.

(** The drive reads as released at every hardware call from [t] on. *)
Definition released_from (hw : hardware) (t : nat) : Prop :=
  forall n, (t <= n)%nat ->
    level hw PIN_ENBL1 n = true /\ level hw PIN_ENBL2 n = true.

(** Hardware that shows the enable pattern on the phase lines all the time
    and the drive enabled up to hardware call [t], released from then on. *)
Definition release_hw (t : nat) : hardware :=
  mkHardware (fun p n => match p with
                         | PIN_PHI2 => false
                         | PIN_ENBL1 => bool_decide (t <= n)%nat
                         | _ => true
                         end) Z.of_nat (fun _ => left_to_right).

(** The levels read for the [STATE] line, its five arguments being
    evaluated from hardware call [t] on in the order the hardware gives. *)
Definition state_reads (hw : hardware) (t : nat) : list (pin * Z) :=
  pin_reads hw t
    (arrange (arg_order hw SiteState)
       [PIN_WRDATA; PIN_ENBL1; PIN_ENBL2; PIN_WREQ; PIN_ACK]).

(** What [read_phases] returns, and the reads it makes, when called at
    hardware call [t]. *)
Definition phases_at (hw : hardware) (t : nat) : Z :=
  to_uint8 (Z.lor (Z.lor (Z.lor (Z.shiftl (Z.b2z (level hw PIN_PHI3 t)) 3)
                                (Z.shiftl (Z.b2z (level hw PIN_PHI2 (1 + t))) 2))
                         (Z.shiftl (Z.b2z (level hw PIN_PHI1 (2 + t))) 1))
                  (Z.b2z (level hw PIN_PHI0 (3 + t)))).

Definition phase_events (hw : hardware) (t : nat) : list event :=
  [EvGpio PIN_PHI3 (Z.b2z (level hw PIN_PHI3 t));
   EvGpio PIN_PHI2 (Z.b2z (level hw PIN_PHI2 (1 + t)));
   EvGpio PIN_PHI1 (Z.b2z (level hw PIN_PHI1 (2 + t)));
   EvGpio PIN_PHI0 (Z.b2z (level hw PIN_PHI0 (3 + t)))].

(** A pass of the main loop that begins at hardware call [t] finds the
    enable pattern on the phase lines and the drive enabled. *)
Definition detects (hw : hardware) (t : nat) : bool :=
  enable_condition hw (4 + t) &&
  (level hw PIN_PHI3 t && negb (level hw PIN_PHI2 (1 + t))
   && level hw PIN_PHI1 (2 + t)).

(** The phase-change log at the end of a pass, and its update of
    [last_phases]. *)
Definition phase_log (phases : Z) (a : app_state) : list app_event :=
  if negb (phases =? last_phases a) &&
     (negb (phases =? 0x0A) && negb (phases =? 0x0B))
  then [AReport (LogPhase phases)] else [].

Definition with_phases (phases : Z) (a : app_state) : app_state :=
  mkApp phases (command_active a) (sig_log a) (wrdata_log a).

(** The scheduler delays of the main loop when no command is cut short:
    the 10 ms polls of the re-arm wait, the 500 ms debounce and the
    one-tick yield of each pass. *)
Definition regular_delay (e : app_event) : Prop :=
  e = ATaskDelayMs 10 \/ e = ATaskDelayMs 500 \/ e = ATaskDelay 1.

(** The logs have their declared size. *)
Definition wf_app (a : app_state) : Prop :=
  length (sig_log a) = Z.to_nat FAST_SAMPLES /\
  length (wrdata_log a) = Z.to_nat FAST_SAMPLES.

(** Effects that stay within what the main loop is meant to do: no pin is
    driven or reconfigured, the scheduler delays are the regular ones, and
    the sampling layer neither prints nor touches the capture array. *)
Definition observing (evs : list app_event) : Prop :=
  outputs evs = [] /\
  Forall regular_delay (task_delays evs) /\
  prints (hw_events evs) = [] /\
  stores (hw_events evs) = [] /\
  loads (hw_events evs) = [].

(** The one-tick yields among the scheduler delays. *)
Definition yields (evs : list app_event) : list Z :=
  omap (fun e => match e with ATaskDelay k => Some k | _ => None end)
       (task_delays evs).

(** What [app_main] does before it enters its loop. *)
Definition startup_events : list app_event :=
  [AReport Banner;
   AConfig input_pin_mask GPIO_MODE_INPUT;
   AConfig (pin_bit PIN_ACK) GPIO_MODE_INPUT_OUTPUT;
   ASetLevel PIN_ACK 1;
   AConfig (pin_bit PIN_RDDATA) GPIO_MODE_OUTPUT;
   ASetLevel PIN_RDDATA 1;
   AReport LogConfigured].

(** * Properties *)

(** ** The sample captures *)

Lemma command_capture_wf : wf_state command_capture.
Proof. split; [reflexivity|]. vm_compute. split; discriminate. Qed.

Lemma short_header_capture_wf : wf_state short_header_capture.
Proof. split; [reflexivity|]. vm_compute. split; discriminate. Qed.

Lemma empty_capture_wf : wf_state empty_capture.
Proof. split; [reflexivity|]. vm_compute. split; discriminate. Qed.

Lemma late_sync_capture_wf : wf_state late_sync_capture.
Proof. split; [reflexivity|]. vm_compute. split; discriminate. Qed.

(** ** Concrete runs *)

Example get_command_name_readblock : get_command_name 0x01 = "READBLOCK"%string.
Proof. reflexivity. Qed.

Example get_command_name_0x20 : get_command_name 0x20 = "UNKNOWN"%string.
Proof. reflexivity. Qed.

Example find_sync_pattern_five_bytes :
  fst <$> find_sync_pattern (state_of [0xFF; 0x3F; 0xCF; 0xF3; 0xFC])
  = Some (-1, state_of [0xFF; 0x3F; 0xCF; 0xF3; 0xFC]).
Proof. reflexivity. Qed.

Example find_sync_pattern_late_sync :
  (fun r => r.1.1) <$> find_sync_pattern late_sync_capture = Some 3.
Proof. reflexivity. Qed.

Example analyze_capture_command_lines :
  (fun r => drop 18 (prints r.2)) <$> analyze_capture command_capture
  = Some [LSync 0; LPktStart 6; LPkt 0x81 0x80 0x80; LCmd 0x01 "READBLOCK"].
Proof. reflexivity. Qed.

Example analyze_capture_short_header_lines :
  (fun r => drop 12 (prints r.2)) <$> analyze_capture short_header_capture
  = Some [LSync 0; LPktStart 6].
Proof. reflexivity. Qed.

Example analyze_capture_empty_lines :
  (fun r => prints r.2) <$> analyze_capture empty_capture
  = Some [LCapture 0; LNewline; WarnAllZero].
Proof. reflexivity. Qed.

Example read_byte_raw_pattern :
  (fun r => r.1.1) <$> read_byte_raw pattern_hw empty_capture = Some 0xB2.
Proof. reflexivity. Qed.

Example capture_packet_idle :
  (fun r => (r.1.1, capture_len r.1.2, prints r.2))
    <$> capture_packet idle_hw 30 late_sync_capture
  = Some (ExitWaitTimeout, 0, [DbgWaiting; DbgTimeout; DbgLevels 1 1 1 1]).
Proof. reflexivity. Qed.

(** ** Command names *)

Lemma get_command_name_table (cmd : Z) : get_command_name cmd = table_name cmd.
Proof.
  destruct cmd as [|p|p]; try reflexivity.
  do 4 (try destruct p as [p|p|]; try reflexivity).
Qed.

(** C3, as the code has it: the lookup is total; codes 0x00 to 0x09 map, in
    order, to STATUS, READBLOCK, WRITEBLOCK, FORMAT, CONTROL, INIT, OPEN,
    CLOSE, READ, WRITE and every other value maps to UNKNOWN; ten byte values
    have a name of their own, which makes eleven names with the UNKNOWN
    catch-all. *)
Theorem get_command_name_mapping :
  (forall cmd, get_command_name cmd = table_name cmd) /\
  (get_command_name <$> seqZ 0 10) = command_table /\
  named_codes = seqZ 0 10 /\
  length named_codes = 10%nat /\
  length command_names = 11%nat.
Proof.
  split; [exact get_command_name_table|].
  repeat split; vm_compute; reflexivity.
Qed.

(** C3 as stated fails on the count: the table does not consist of nine
    named entries and a catch-all. *)
Lemma command_table_not_nine_named :
  ~ ((forall cmd, 0 <= cmd < 256 -> get_command_name cmd = table_name cmd) /\
     length named_codes = 9%nat /\
     length command_names = 10%nat).
Proof.
  intros (_ & H & _). vm_compute in H. discriminate H.
Qed.

(** ** The byte assembler *)

Lemma assemble_msb_first (b0 b1 b2 b3 b4 b5 b6 b7 : bool) :
  let shift_in (byte : Z) (b : bool) :=
    to_uint8 (Z.lor (Z.shiftl byte 1) (if negb (Z.b2z b =? 0) then 1 else 0)) in
  fold_left shift_in [b0; b1; b2; b3; b4; b5; b6; b7] 0 =
  msb_first [b0; b1; b2; b3; b4; b5; b6; b7].
Proof.
  destruct b0, b1, b2, b3, b4, b5, b6, b7; vm_compute; reflexivity.
Qed.

Lemma read_byte_raw_run hw s :
  read_byte_raw hw s =
  Some (msb_first (sampled_bit hw s <$> seq 0 8), after_ticks 24 s,
        byte_events hw s).
Proof.
  destruct s as [t buf len].
  cbv [fmap list_fmap seq].
  rewrite <- assemble_msb_first.
  cbv [read_byte_raw read_byte_loop read_wrdata esp_rom_delay_us
       gpio_get_level next_tick mbind M_bind mret M_ret
       tick capture_buffer capture_len app
       byte_events after_ticks sampled_bit flat_map seq fmap list_fmap
       fold_left Nat.add Nat.mul].
  reflexivity.
Qed.

(** C7: [read_byte_raw] samples the write-data line exactly eight times, once
    per bit cell between two half-cell delays, and assembles the samples most
    significant bit first; a line that is high during the whole byte window
    gives 0xFF, a line that is low gives 0x00, and the bit pattern 10110010,
    one bit per bit cell, gives 0xB2. *)
Theorem read_byte_raw_msb_first hw s :
  exists v evs,
    read_byte_raw hw s = Some (v, after_ticks 24 s, evs) /\
    evs = byte_events hw s /\
    samples_of PIN_WRDATA evs = (fun k => Z.b2z (sampled_bit hw s k)) <$> seq 0 8 /\
    length (samples_of PIN_WRDATA evs) = 8%nat /\
    v = msb_first (sampled_bit hw s <$> seq 0 8) /\
    ((forall n, (tick s <= n < 24 + tick s)%nat -> level hw PIN_WRDATA n = true) ->
     v = 0xFF) /\
    ((forall n, (tick s <= n < 24 + tick s)%nat -> level hw PIN_WRDATA n = false) ->
     v = 0x00) /\
    (sampled_bit hw s <$> seq 0 8 =
       [true; false; true; true; false; false; true; false] ->
     v = 0xB2).
Proof.
  eexists _, _. split; [apply read_byte_raw_run|].
  split; [reflexivity|]. split; [reflexivity|]. split; [reflexivity|].
  split; [reflexivity|].
  assert (Hall : forall b,
    (forall n, (tick s <= n < 24 + tick s)%nat -> level hw PIN_WRDATA n = b) ->
    sampled_bit hw s <$> seq 0 8 = replicate 8 b).
  { intros b Hb. unfold sampled_bit. cbn.
    repeat (rewrite Hb by lia). reflexivity. }
  split; [|split].
  - intros H. rewrite (Hall true H). reflexivity.
  - intros H. rewrite (Hall false H). reflexivity.
  - intros ->. reflexivity.
Qed.

Lemma read_byte_raw_msb_first_witness :
  exists evs,
    read_byte_raw pattern_hw empty_capture
      = Some (0xB2, after_ticks 24 empty_capture, evs) /\
    length (samples_of PIN_WRDATA evs) = 8%nat.
Proof.
  destruct (read_byte_raw_msb_first pattern_hw empty_capture)
    as (v & evs & Hrun & _ & _ & Hn & _ & _ & _ & Hpat).
  exists evs. rewrite (Hpat eq_refl) in Hrun.
  split; [exact Hrun|exact Hn].
Defined.

(** ** Running monadic code *)

Lemma bind_run {A B} (m : M A) (f : A -> M B) s a s1 e1 b s2 e2 :
  m s = Some (a, s1, e1) ->
  f a s1 = Some (b, s2, e2) ->
  (m ≫= f) s = Some (b, s2, e1 ++ e2).
Proof. intros H1 H2. unfold mbind, M_bind. rewrite H1, H2. reflexivity. Qed.

Lemma bind_inv {A B} (m : M A) (f : A -> M B) s b s2 e :
  (m ≫= f) s = Some (b, s2, e) ->
  exists a s1 e1 e2,
    m s = Some (a, s1, e1) /\ f a s1 = Some (b, s2, e2) /\ e = e1 ++ e2.
Proof.
  unfold mbind, M_bind. intros H.
  destruct (m s) as [[[a s1] e1]|]; [|discriminate].
  destruct (f a s1) as [[[b' s2'] e2]|] eqn:Hf; [|discriminate].
  injection H as -> -> <-. eauto 8.
Qed.

Lemma samples_of_app p e1 e2 :
  samples_of p (e1 ++ e2) = samples_of p e1 ++ samples_of p e2.
Proof. apply omap_app. Qed.

Lemma prints_app e1 e2 : prints (e1 ++ e2) = prints e1 ++ prints e2.
Proof. apply omap_app. Qed.

Lemma loads_app e1 e2 : loads (e1 ++ e2) = loads e1 ++ loads e2.
Proof. apply omap_app. Qed.

Lemma stores_app e1 e2 : stores (e1 ++ e2) = stores e1 ++ stores e2.
Proof. apply omap_app. Qed.

Lemma safe_loads_app s e1 e2 :
  safe_loads s e1 -> safe_loads s e2 -> safe_loads s (e1 ++ e2).
Proof.
  unfold safe_loads. rewrite loads_app. intros. apply Forall_app. auto.
Qed.

Lemma only_loads_prints lo hi evs : only_loads lo hi evs -> prints evs = [].
Proof.
  induction 1 as [|e evs (i & -> & _) _ IH]; [reflexivity|exact IH].
Qed.

Lemma only_loads_safe s lo hi evs :
  only_loads lo hi evs -> 0 <= lo -> hi <= capture_len s -> safe_loads s evs.
Proof.
  unfold safe_loads.
  induction 1 as [|e evs (i & -> & Hi) _ IH]; intros; cbn.
  - constructor.
  - constructor; [lia|auto].
Qed.

Lemma only_loads_weaken lo hi lo' hi' evs :
  only_loads lo hi evs -> lo' <= lo -> hi <= hi' -> only_loads lo' hi' evs.
Proof.
  intros H ? ?. eapply Forall_impl; [exact H|].
  intros e (i & -> & ?). exists i. split; [reflexivity|lia].
Qed.

Lemma load_run i s :
  0 <= i -> load i s = Some (byte_at s i, s, [EvLoad i]).
Proof.
  intros Hi. unfold load, byte_at.
  destruct (0 <=? i) eqn:E; [reflexivity|lia].
Qed.

(** ** The sync matcher *)

Lemma sync_match_run pat : forall i j s,
  0 <= i + j ->
  (Z.to_nat (i + j) + length pat <= length (capture_buffer s))%nat ->
  exists evs,
    sync_match pat i j s =
      Some (bool_decide (take (length pat)
                              (drop (Z.to_nat (i + j)) (capture_buffer s)) = pat),
            s, evs) /\
    only_loads (i + j) (i + j + Z.of_nat (length pat)) evs.
Proof.
  induction pat as [|p pat IH]; intros i j s Hij Hlen.
  - exists []. split; [|constructor]. cbn. reflexivity.
  - cbn [length] in Hlen.
    destruct (lookup_lt_is_Some_2 (capture_buffer s) (Z.to_nat (i + j)))
      as [x Hx]; [lia|].
    assert (Hb : byte_at s (i + j) = x) by (unfold byte_at; rewrite Hx; reflexivity).
    rewrite (drop_S _ _ _ Hx). cbn [length take].
    cbn [sync_match].
    destruct (Z.eqb_spec x p) as [->|Hne].
    + destruct (IH i (j + 1) s) as (evs & Hrun & Hev); [lia|..].
      { replace (Z.to_nat (i + (j + 1))) with (S (Z.to_nat (i + j))) by lia. lia. }
      replace (Z.to_nat (i + (j + 1))) with (S (Z.to_nat (i + j))) in Hrun by lia.
      exists ([EvLoad (i + j)] ++ evs). split.
      * eapply bind_run; [apply load_run; lia|].
        rewrite Hb, Z.eqb_refl. cbn [negb]. rewrite Hrun.
        f_equal. f_equal. f_equal.
        apply bool_decide_ext. split; [intros ->; reflexivity|].
        intros H. injection H. auto.
      * constructor.
        -- exists (i + j). split; [reflexivity|]. cbn [length]. lia.
        -- eapply only_loads_weaken; [exact Hev|lia|cbn [length]; lia].
    + exists ([EvLoad (i + j)] ++ []). split.
      * eapply bind_run; [apply load_run; lia|].
        rewrite Hb. destruct (Z.eqb_spec x p); [contradiction|]. cbn [negb].
        rewrite bool_decide_eq_false_2; [reflexivity|].
        intros H. injection H. auto.
      * constructor; [|constructor].
        exists (i + j). split; [reflexivity|]. cbn [length]. lia.
Qed.

Lemma sync_at_length bs k : sync_at bs k -> (k + 6 <= length bs)%nat.
Proof.
  unfold sync_at. change (length SYNC_PATTERN) with 6%nat.
  intros H. apply (f_equal length) in H.
  rewrite length_take, length_drop in H.
  change (length SYNC_PATTERN) with 6%nat in H. lia.
Qed.

Lemma sync_at_captured s k :
  (k + 6 <= Z.to_nat (capture_len s))%nat ->
  sync_at (captured s) k <-> sync_at (capture_buffer s) k.
Proof.
  intros Hk. unfold sync_at, captured.
  change (length SYNC_PATTERN) with 6%nat.
  rewrite !take_drop_commute, take_take.
  replace ((k + 6) `min` Z.to_nat (capture_len s))%nat with (k + 6)%nat by lia.
  reflexivity.
Qed.

Lemma find_sync_from_run n : forall i s,
  0 <= i ->
  (Z.to_nat i + n + 5 <= length (capture_buffer s))%nat ->
  exists r evs,
    find_sync_from n i s = Some (r, s, evs) /\
    only_loads 0 (i + Z.of_nat n + 5) evs /\
    ((r = -1 /\
      forall k, (Z.to_nat i <= k < Z.to_nat i + n)%nat ->
                ~ sync_at (capture_buffer s) k) \/
     (i <= r < i + Z.of_nat n /\
      sync_at (capture_buffer s) (Z.to_nat r) /\
      forall k, (Z.to_nat i <= k < Z.to_nat r)%nat ->
                ~ sync_at (capture_buffer s) k)).
Proof.
  induction n as [|n IH]; intros i s Hi Hlen.
  - exists (-1), []. split; [reflexivity|]. split; [constructor|].
    left. split; [reflexivity|]. intros k Hk. lia.
  - destruct (sync_match_run SYNC_PATTERN i 0 s) as (e1 & Hm & He1).
    { lia. }
    { rewrite Z.add_0_r. cbn [length SYNC_PATTERN]. lia. }
    rewrite Z.add_0_r in Hm, He1. cbn [find_sync_from].
    change (Z.of_nat (length SYNC_PATTERN)) with 6 in He1.
    fold (sync_at (capture_buffer s) (Z.to_nat i)) in Hm.
    destruct (decide (sync_at (capture_buffer s) (Z.to_nat i))) as [Hs|Hs].
    + rewrite bool_decide_eq_true_2 in Hm by exact Hs.
      exists i, (e1 ++ []). split; [eapply bind_run; [exact Hm|reflexivity]|].
      split.
      * rewrite app_nil_r. eapply only_loads_weaken; [exact He1|lia|lia].
      * right. split; [lia|]. split; [exact Hs|]. intros k Hk. lia.
    + rewrite bool_decide_eq_false_2 in Hm by exact Hs.
      destruct (IH (i + 1) s) as (r & e2 & Hrun & He2 & Hr); [lia|lia|].
      exists r, (e1 ++ e2). split; [eapply bind_run; [exact Hm|exact Hrun]|].
      split.
      * apply Forall_app. split.
        -- eapply only_loads_weaken; [exact He1|lia|lia].
        -- eapply only_loads_weaken; [exact He2|lia|lia].
      * replace (Z.to_nat (i + 1)) with (S (Z.to_nat i)) in Hr by lia.
        destruct Hr as [[-> Hno]|(Hr1 & Hr2 & Hno)].
        -- left. split; [reflexivity|]. intros k Hk.
           destruct (decide (k = Z.to_nat i)) as [->|]; [exact Hs|].
           apply Hno. lia.
        -- right. split; [lia|]. split; [exact Hr2|]. intros k Hk.
           destruct (decide (k = Z.to_nat i)) as [->|]; [exact Hs|].
           apply Hno. lia.
Qed.

(** What [find_sync_pattern] returns on a well-formed state: -1 when no
    occurrence of the marker lies within the captured bytes, the offset of
    the leftmost one otherwise; it reads captured bytes only. *)
Lemma find_sync_pattern_run s :
  wf_state s ->
  exists r evs,
    find_sync_pattern s = Some (r, s, evs) /\
    only_loads 0 (capture_len s) evs /\
    ((r = -1 /\ forall k, ~ sync_at (captured s) k) \/
     (0 <= r /\ r + 6 <= capture_len s /\
      sync_at (captured s) (Z.to_nat r) /\
      forall k, (k < Z.to_nat r)%nat -> ~ sync_at (captured s) k)).
Proof.
  intros [Hbuf Hlen]. unfold CAPTURE_SIZE in *.
  assert (Hcap : length (captured s) = Z.to_nat (capture_len s)).
  { unfold captured. rewrite length_take. lia. }
  unfold find_sync_pattern, sizeof_SYNC_PATTERN.
  assert (Hsz : to_size_t (capture_len s) = capture_len s).
  { unfold to_size_t. apply Z.mod_small. lia. }
  destruct (Z.ltb_spec (capture_len s) 6) as [Hshort|Hlong].
  - exists (-1), []. split.
    + cbv [mbind M_bind get_capture_len]. rewrite Hsz.
      destruct (Z.ltb_spec (capture_len s) 6); [reflexivity|lia].
    + split; [constructor|]. left. split; [reflexivity|].
      intros k Hk. apply sync_at_length in Hk. lia.
  - assert (Hsz' : to_size_t (capture_len s - 6) = capture_len s - 6).
    { unfold to_size_t. apply Z.mod_small. lia. }
    destruct (find_sync_from_run (Z.to_nat (capture_len s - 6 + 1)) 0 s)
      as (r & evs & Hrun & Hev & Hr); [lia|lia|].
    exists r, evs. split.
    + cbv [mbind M_bind get_capture_len]. rewrite Hsz.
      destruct (Z.ltb_spec (capture_len s) 6); [lia|].
      rewrite Hsz', Hrun. reflexivity.
    + split; [eapply only_loads_weaken; [exact Hev|lia|lia]|].
      destruct Hr as [[-> Hno]|(Hr1 & Hr2 & Hno)].
      * left. split; [reflexivity|]. intros k Hk.
        pose proof (sync_at_length _ _ Hk) as Hl.
        apply sync_at_captured in Hk; [|lia].
        apply (Hno k); [lia|exact Hk].
      * right. split; [lia|]. split; [lia|]. split.
        -- apply sync_at_captured; [lia|exact Hr2].
        -- intros k Hk Hs. apply sync_at_captured in Hs; [|lia].
           apply (Hno k); [lia|exact Hs].
Qed.

(** C2: [find_sync_pattern] is an exact-match search for the six-byte
    marker FF 3F CF F3 FC FF in the captured bytes: it returns -1 when fewer
    than six bytes were captured or when the marker does not occur, and the
    offset of the leftmost occurrence otherwise, whatever precedes it. *)
Theorem find_sync_pattern_leftmost s :
  wf_state s ->
  exists r evs,
    find_sync_pattern s = Some (r, s, evs) /\
    (capture_len s < 6 -> r = -1) /\
    ((forall k, ~ sync_at (captured s) k) -> r = -1) /\
    (forall k, sync_at (captured s) k ->
               (forall j, (j < k)%nat -> ~ sync_at (captured s) j) ->
               r = Z.of_nat k) /\
    (r = -1 \/ 0 <= r /\ sync_at (captured s) (Z.to_nat r)).
Proof.
  intros Hwf.
  destruct (find_sync_pattern_run s Hwf) as (r & evs & Hrun & _ & Hr).
  assert (Hcap : length (captured s) = Z.to_nat (capture_len s)).
  { destruct Hwf as [Hbuf Hlen]. unfold captured, CAPTURE_SIZE in *.
    rewrite length_take. lia. }
  exists r, evs. split; [exact Hrun|].
  destruct Hr as [[-> Hno]|(Hr0 & Hr1 & Hat & Hleft)].
  - split; [reflexivity|]. split; [reflexivity|]. split; [|left; reflexivity].
    intros k Hk. destruct (Hno k Hk).
  - split.
    { intros Hshort. lia. }
    split.
    { intros Hno. destruct (Hno _ Hat). }
    split; [|right; split; [exact Hr0|exact Hat]].
    intros k Hk Hmin.
    destruct (lt_eq_lt_dec k (Z.to_nat r)) as [[Hlt|Heq]|Hgt].
    + destruct (Hleft k Hlt Hk).
    + lia.
    + destruct (Hmin _ Hgt Hat).
Qed.

Lemma find_sync_pattern_leftmost_witness :
  wf_state late_sync_capture /\
  exists r evs,
    find_sync_pattern late_sync_capture = Some (r, late_sync_capture, evs) /\
    r = 3.
Proof.
  split; [exact late_sync_capture_wf|].
  destruct (find_sync_pattern_leftmost late_sync_capture late_sync_capture_wf)
    as (r & evs & Hrun & _ & _ & Hleft & _).
  exists r, evs. split; [exact Hrun|].
  apply (Hleft 3%nat); [reflexivity|].
  intros j Hj H.
  destruct j as [|[|[|j]]]; [discriminate H|discriminate H|discriminate H|lia].
Defined.

(** ** The packet decoder *)

Lemma pkt_start_eq so :
  0 <= so <= INT_MAX - 6 ->
  to_int (to_size_t so + sizeof_SYNC_PATTERN) = so + 6.
Proof.
  unfold INT_MAX, to_int, to_size_t, sizeof_SYNC_PATTERN. intros H.
  rewrite (Z.mod_small so) by lia.
  rewrite Z.mod_small by lia. lia.
Qed.

Lemma analyze_packet_run s so :
  0 <= so <= INT_MAX - 6 ->
  exists evs,
    analyze_packet so s = Some (tt, s, evs) /\
    loads evs =
      (if so + 6 <? capture_len s then
         so + 6 ::
         (if (byte_at s (so + 6) =? 0xC3) && (so + 14 <? capture_len s)
          then [so + 7; so + 8; so + 9; so + 14] else [])
       else []) /\
    prints evs =
      LSync so ::
      (if (so + 6 <? capture_len s) && (byte_at s (so + 6) =? 0xC3) then
         LPktStart (so + 6) ::
         (if so + 14 <? capture_len s then
            LPkt (byte_at s (so + 7)) (byte_at s (so + 8)) (byte_at s (so + 9)) ::
            (if (byte_at s (so + 9) =? 0x80) || (byte_at s (so + 9) =? 0x85)
             then [LCmd (byte_at s (so + 14))
                        (get_command_name (byte_at s (so + 14)))]
             else [])
          else [])
       else []).
Proof.
  intros Hso. unfold analyze_packet.
  rewrite (pkt_start_eq so Hso). cbv zeta.
  replace (so + 6 + 1) with (so + 7) by lia.
  replace (so + 6 + 2) with (so + 8) by lia.
  replace (so + 6 + 3) with (so + 9) by lia.
  replace (so + 6 + 8) with (so + 14) by lia.
  cbv [mbind M_bind mret M_ret printf get_capture_len].
  destruct (so + 6 <? capture_len s) eqn:E1; cbv beta iota.
  - rewrite (load_run (so + 6)) by lia.
    destruct (byte_at s (so + 6) =? 195) eqn:E2; cbv beta iota.
    + destruct (so + 14 <? capture_len s) eqn:E3; cbv beta iota.
      * rewrite !load_run by lia. cbv beta iota.
        destruct ((byte_at s (so + 9) =? 128) || (byte_at s (so + 9) =? 133));
          eexists; (split; [reflexivity|split; reflexivity]).
      * eexists; (split; [reflexivity|split; reflexivity]).
    + eexists; (split; [reflexivity|split; reflexivity]).
  - eexists; (split; [reflexivity|split; reflexivity]).
Qed.

Lemma scan_uniform_run n : forall i s az ao,
  0 <= i ->
  (Z.to_nat i + n <= length (capture_buffer s))%nat ->
  exists evs,
    scan_uniform n i az ao s =
      Some ((az && forallb (fun b => b =? 0x00)
                           (take n (drop (Z.to_nat i) (capture_buffer s))),
             ao && forallb (fun b => b =? 0xFF)
                           (take n (drop (Z.to_nat i) (capture_buffer s)))),
            s, evs) /\
    only_loads i (i + Z.of_nat n) evs.
Proof.
  induction n as [|n IH]; intros i s az ao Hi Hlen.
  - exists []. split; [|constructor]. cbn. rewrite !andb_true_r. reflexivity.
  - destruct (lookup_lt_is_Some_2 (capture_buffer s) (Z.to_nat i))
      as [x Hx]; [lia|].
    assert (Hb : byte_at s i = x) by (unfold byte_at; rewrite Hx; reflexivity).
    rewrite (drop_S _ _ _ Hx). cbn [take forallb scan_uniform].
    destruct (IH (i + 1) s (if negb (x =? 0) then false else az)
                 (if negb (x =? 255) then false else ao))
      as (evs & Hrun & Hev); [lia|lia|].
    replace (Z.to_nat (i + 1)) with (S (Z.to_nat i)) in Hrun by lia.
    exists ([EvLoad i] ++ [EvLoad i] ++ evs). split.
    + eapply bind_run; [apply load_run; lia|]. rewrite Hb.
      eapply bind_run; [apply load_run; lia|]. rewrite Hb.
      rewrite Hrun. f_equal. f_equal. f_equal.
      destruct (x =? 0), (x =? 255), az, ao; reflexivity.
    + constructor; [exists i; split; [reflexivity|lia]|].
      constructor; [exists i; split; [reflexivity|lia]|].
      eapply only_loads_weaken; [exact Hev|lia|lia].
Qed.

Lemma analyze_no_sync_run s :
  wf_state s ->
  exists evs,
    analyze_no_sync s = Some (tt, s, evs) /\
    safe_loads s evs /\
    prints evs = [uniform_class (captured s)].
Proof.
  intros [Hbuf Hlen]. unfold CAPTURE_SIZE in *.
  destruct (scan_uniform_run (Z.to_nat (capture_len s)) 0 s true true)
    as (evs & Hrun & Hev); [lia|lia|].
  change (Z.to_nat 0) with 0%nat in Hrun. rewrite drop_0 in Hrun.
  cbn [andb] in Hrun.
  fold (captured s) in Hrun.
  unfold analyze_no_sync, uniform_class.
  cbv [mbind M_bind get_capture_len]. rewrite Hrun.
  assert (Hsafe : safe_loads s evs).
  { eapply only_loads_safe; [exact Hev|lia|lia]. }
  pose proof (only_loads_prints _ _ _ Hev) as Hp.
  destruct (forallb (fun b => b =? 0) (captured s));
    [|destruct (forallb (fun b => b =? 255) (captured s))];
    (eexists; split; [reflexivity|]; split;
     [cbn [app]; apply safe_loads_app; [exact Hsafe|constructor]
     |cbn [app]; rewrite prints_app, Hp; reflexivity]).
Qed.

Lemma dump_loop_run n : forall i s,
  0 <= i ->
  (Z.to_nat i + n <= length (capture_buffer s))%nat ->
  exists evs,
    for_ n i (fun i => b ← load i; printf (LHex b)) s = Some (tt, s, evs) /\
    prints evs = LHex <$> take n (drop (Z.to_nat i) (capture_buffer s)) /\
    Forall (fun x => i <= x < i + Z.of_nat n) (loads evs).
Proof.
  induction n as [|n IH]; intros i s Hi Hlen.
  - exists []. split; [reflexivity|]. split; [reflexivity|constructor].
  - destruct (lookup_lt_is_Some_2 (capture_buffer s) (Z.to_nat i))
      as [x Hx]; [lia|].
    assert (Hb : byte_at s i = x) by (unfold byte_at; rewrite Hx; reflexivity).
    rewrite (drop_S _ _ _ Hx). cbn [take for_ fmap list_fmap].
    destruct (IH (i + 1) s) as (evs & Hrun & Hp & Hl); [lia|lia|].
    replace (Z.to_nat (i + 1)) with (S (Z.to_nat i)) in Hp by lia.
    exists (([EvLoad i] ++ [EvPrintf (LHex x)]) ++ evs). split; [|split].
    + eapply bind_run; [|exact Hrun].
      eapply bind_run; [apply load_run; lia|]. rewrite Hb. reflexivity.
    + rewrite prints_app, Hp. reflexivity.
    + rewrite loads_app. apply Forall_app. split.
      * cbn. constructor; [lia|constructor].
      * eapply Forall_impl; [exact Hl|]. cbn. intros; lia.
Qed.

(** [analyze_capture] on a well-formed state: the dump, then the search,
    then one of the two branches, all without change of state. *)
Lemma analyze_capture_run s :
  wf_state s ->
  exists r e_dump e_sync e_rest,
    find_sync_pattern s = Some (r, s, e_sync) /\
    analyze_capture s = Some (tt, s, e_dump ++ e_sync ++ e_rest) /\
    prints e_dump = dump_lines s /\ safe_loads s e_dump /\
    prints e_sync = [] /\ safe_loads s e_sync /\
    (if r >=? 0 then analyze_packet r s else analyze_no_sync s)
      = Some (tt, s, e_rest) /\
    ((r = -1 /\ forall k, ~ sync_at (captured s) k) \/
     (0 <= r /\ r + 6 <= capture_len s /\
      sync_at (captured s) (Z.to_nat r) /\
      forall k, (k < Z.to_nat r)%nat -> ~ sync_at (captured s) k)).
Proof.
  intros Hwf.
  destruct (find_sync_pattern_run s Hwf) as (r & e_sync & Hfind & Hev & Hr).
  pose proof Hwf as [Hbuf Hlen]. unfold CAPTURE_SIZE in *.
  set (print_len := if capture_len s >? 32 then 32 else capture_len s).
  assert (Hpl : print_len = Z.min 32 (capture_len s)).
  { unfold print_len. destruct (Z.gtb_spec (capture_len s) 32); lia. }
  destruct (dump_loop_run (Z.to_nat print_len) 0 s) as (e1 & Hdump & Hp1 & Hl1);
    [lia|lia|].
  change (Z.to_nat 0) with 0%nat in Hp1. rewrite drop_0 in Hp1.
  assert (Hrest : exists e_rest,
    (if r >=? 0 then analyze_packet r s else analyze_no_sync s)
      = Some (tt, s, e_rest)).
  { destruct Hr as [[-> _]|(Hr0 & Hr1 & _)].
    - destruct (analyze_no_sync_run s Hwf) as (e & He & _). exists e. exact He.
    - destruct (analyze_packet_run s r) as (e & He & _).
      { unfold INT_MAX. lia. }
      exists e. destruct (Z.geb_spec r 0); [exact He|lia]. }
  destruct Hrest as (e_rest & Hrest).
  exists r,
    ([] ++ [EvPrintf (LCapture (capture_len s))] ++ e1 ++
     (if capture_len s >? 32 then [EvPrintf LEllipsis] else []) ++
     [EvPrintf LNewline]),
    e_sync, e_rest.
  split; [exact Hfind|]. split; [|split; [|split; [|split; [|split; [|split]]]]].
  - unfold analyze_capture.
    replace (([] ++ [EvPrintf (LCapture (capture_len s))] ++ e1 ++
              (if capture_len s >? 32 then [EvPrintf LEllipsis] else []) ++
              [EvPrintf LNewline]) ++ e_sync ++ e_rest)
      with ([] ++ [EvPrintf (LCapture (capture_len s))] ++ e1 ++
            (if capture_len s >? 32 then [EvPrintf LEllipsis] else []) ++
            [EvPrintf LNewline] ++ e_sync ++ e_rest)
      by (cbn [app]; rewrite <- !app_assoc; reflexivity).
    eapply (bind_run _ _ _ _ _ []); [reflexivity|].
    eapply (bind_run _ _ _ _ _ [EvPrintf (LCapture (capture_len s))]);
      [reflexivity|].
    fold print_len.
    eapply bind_run; [exact Hdump|].
    eapply (bind_run _ _ _ tt s
              (if capture_len s >? 32 then [EvPrintf LEllipsis] else []));
      [destruct (capture_len s >? 32); reflexivity|].
    eapply (bind_run _ _ _ _ _ [EvPrintf LNewline]); [reflexivity|].
    eapply bind_run; [exact Hfind|].
    destruct (r >=? 0); exact Hrest.
  - rewrite !prints_app, Hp1. unfold dump_lines, captured.
    rewrite take_take.
    replace (Z.to_nat print_len) with (32 `min` Z.to_nat (capture_len s))%nat
      by lia.
    destruct (capture_len s >? 32); reflexivity.
  - cbn [app]. unfold safe_loads.
    change (loads (EvPrintf (LCapture (capture_len s)) :: ?x)) with (loads x).
    rewrite !loads_app.
    apply Forall_app. split.
    + eapply Forall_impl; [exact Hl1|]. cbn. intros; lia.
    + destruct (capture_len s >? 32); constructor.
  - eapply only_loads_prints; exact Hev.
  - eapply only_loads_safe; [exact Hev|lia|lia].
  - exact Hrest.
  - exact Hr.
Qed.

Lemma captured_length s :
  wf_state s -> length (captured s) = Z.to_nat (capture_len s).
Proof.
  intros [Hbuf Hlen]. unfold captured, CAPTURE_SIZE in *.
  rewrite length_take. lia.
Qed.

Lemma captured_lookup s (i : nat) x :
  captured s !! i = Some x ->
  byte_at s (Z.of_nat i) = x /\ Z.of_nat i < capture_len s.
Proof.
  unfold captured, byte_at. intros H.
  apply lookup_take_Some in H as [H Hi].
  rewrite Nat2Z.id, H. split; [reflexivity|lia].
Qed.

(** When the marker occurs in the captured bytes, the search returns the
    offset of its leftmost occurrence. *)
Lemma leftmost_found s r (k : nat) :
  (r = -1 /\ (forall k, ~ sync_at (captured s) k)) \/
  (0 <= r /\ r + 6 <= capture_len s /\
   sync_at (captured s) (Z.to_nat r) /\
   forall k, (k < Z.to_nat r)%nat -> ~ sync_at (captured s) k) ->
  sync_at (captured s) k ->
  (forall j, (j < k)%nat -> ~ sync_at (captured s) j) ->
  r = Z.of_nat k /\ Z.of_nat k + 6 <= capture_len s.
Proof.
  intros [[_ Hno]|(Hr0 & Hr1 & Hat & Hleft)] Hk Hmin.
  - destruct (Hno k Hk).
  - destruct (lt_eq_lt_dec k (Z.to_nat r)) as [[Hlt|Heq]|Hgt].
    + destruct (Hleft k Hlt Hk).
    + lia.
    + destruct (Hmin _ Hgt Hat).
Qed.

(** C1: on a capture that starts with the sync marker, the packet-start
    byte 0xC3 and a header of type 0x80 with at least the command byte, the
    decoder reports dest, src, type 0x80 and the name of the command: the
    name of the table for the codes 0x00 to 0x09, UNKNOWN for any other
    byte. *)
Theorem analyze_capture_command_packet s dest src aux status odd grp cmd rest :
  wf_state s ->
  captured s =
    SYNC_PATTERN ++ [0xC3; dest; src; 0x80; aux; status; odd; grp; cmd] ++ rest ->
  exists evs,
    analyze_capture s = Some (tt, s, evs) /\
    prints evs =
      dump_lines s ++
      [LSync 0; LPktStart 6; LPkt dest src 0x80; LCmd cmd (table_name cmd)].
Proof.
  intros Hwf Hcap.
  destruct (analyze_capture_run s Hwf)
    as (r & e1 & e2 & e3 & _ & Hrun & Hp1 & _ & Hp2 & _ & Hrest & Hr).
  assert (Hat : forall (i : nat) x,
            (SYNC_PATTERN ++ [0xC3; dest; src; 0x80; aux; status; odd; grp; cmd]
               ++ rest) !! i = Some x ->
            byte_at s (Z.of_nat i) = x /\ Z.of_nat i < capture_len s).
  { intros i x Hi. apply captured_lookup. rewrite Hcap. exact Hi. }
  destruct (leftmost_found s r 0 Hr) as [-> _].
  { unfold sync_at. rewrite Hcap. reflexivity. }
  { intros j Hj. lia. }
  change (Z.of_nat 0 >=? 0) with true in Hrest. cbv iota in Hrest.
  destruct (analyze_packet_run s 0) as (e3' & Hrun3 & _ & Hp3).
  { unfold INT_MAX. lia. }
  change (Z.of_nat 0) with 0 in Hrest. rewrite Hrest in Hrun3.
  injection Hrun3 as <-.
  exists (e1 ++ e2 ++ e3). split; [exact Hrun|].
  rewrite !prints_app, Hp1, Hp2, Hp3. cbn [app Z.add].
  destruct (Hat 6%nat 0xC3 eq_refl) as [H6 _].
  destruct (Hat 7%nat dest eq_refl) as [H7 _].
  destruct (Hat 8%nat src eq_refl) as [H8 _].
  destruct (Hat 9%nat 0x80 eq_refl) as [H9 _].
  destruct (Hat 14%nat cmd eq_refl) as [H14 Hlen].
  change (Z.of_nat 6) with 6 in H6. change (Z.of_nat 7) with 7 in H7.
  change (Z.of_nat 8) with 8 in H8. change (Z.of_nat 9) with 9 in H9.
  change (Z.of_nat 14) with 14 in H14, Hlen.
  rewrite !Z.add_0_l.
  rewrite H6, H7, H8, H9, H14, <- get_command_name_table.
  destruct (Z.ltb_spec 6 (capture_len s)); [|lia].
  destruct (Z.ltb_spec 14 (capture_len s)); [|lia].
  reflexivity.
Qed.

Lemma analyze_capture_command_packet_witness :
  wf_state command_capture /\
  exists evs,
    analyze_capture command_capture = Some (tt, command_capture, evs) /\
    prints evs =
      dump_lines command_capture ++
      [LSync 0; LPktStart 6; LPkt 0x81 0x80 0x80; LCmd 0x01 "READBLOCK"].
Proof.
  split; [exact command_capture_wf|].
  apply (analyze_capture_command_packet command_capture
           0x81 0x80 0x80 0x82 0x80 0x81 0x01 [0xC8]).
  - exact command_capture_wf.
  - reflexivity.
Defined.

(** C4: the packet decoder never reads outside the captured bytes.  Every
    array read of [analyze_capture] has an index below [capture_len]; for
    every sync offset the decoder branch checks the packet-start byte only
    when its index is below [capture_len], and when the capture ends before
    the command byte (packet start + 8) it reads no header field and reports
    none: the outcome is the sync line, followed by the packet-start line
    when the 0xC3 byte is there. *)
Theorem analyze_capture_reads_in_bounds s sync_offset :
  wf_state s ->
  0 <= sync_offset <= INT_MAX - 6 ->
  (exists evs, analyze_capture s = Some (tt, s, evs) /\ safe_loads s evs) /\
  (exists evs,
     analyze_packet sync_offset s = Some (tt, s, evs) /\
     safe_loads s evs /\
     (capture_len s <= sync_offset + 6 ->
      loads evs = [] /\ prints evs = [LSync sync_offset]) /\
     (capture_len s <= sync_offset + 6 + 8 ->
      Forall (fun i => i = sync_offset + 6) (loads evs) /\
      (prints evs = [LSync sync_offset] \/
       prints evs = [LSync sync_offset; LPktStart (sync_offset + 6)]))).
Proof.
  intros Hwf Hso. split.
  - destruct (analyze_capture_run s Hwf)
      as (r & e1 & e2 & e3 & _ & Hrun & _ & Hs1 & _ & Hs2 & Hrest & Hr).
    exists (e1 ++ e2 ++ e3). split; [exact Hrun|].
    apply safe_loads_app; [exact Hs1|]. apply safe_loads_app; [exact Hs2|].
    destruct Hr as [[-> _]|(Hr0 & Hr1 & _)].
    + destruct (analyze_no_sync_run s Hwf) as (e & He & Hsafe & _).
      change (-1 >=? 0) with false in Hrest. cbv iota in Hrest.
      rewrite Hrest in He. injection He as <-. exact Hsafe.
    + destruct (analyze_packet_run s r) as (e & He & Hl & _).
      { destruct Hwf as [_ Hlen]. unfold INT_MAX, CAPTURE_SIZE in *. lia. }
      destruct (Z.geb_spec r 0); [|lia].
      rewrite Hrest in He. injection He as <-.
      unfold safe_loads. rewrite Hl.
      destruct (Z.ltb_spec (r + 6) (capture_len s)); [|constructor].
      constructor; [lia|].
      destruct (byte_at s (r + 6) =? 195); [|constructor].
      destruct (Z.ltb_spec (r + 14) (capture_len s)); [|constructor].
      repeat (constructor; [lia|]). constructor.
  - destruct (analyze_packet_run s sync_offset Hso) as (e & He & Hl & Hp).
    exists e. split; [exact He|]. split; [|split].
    + unfold safe_loads. rewrite Hl.
      destruct (Z.ltb_spec (sync_offset + 6) (capture_len s)); [|constructor].
      constructor; [lia|].
      destruct (byte_at s (sync_offset + 6) =? 195); [|constructor].
      destruct (Z.ltb_spec (sync_offset + 14) (capture_len s)); [|constructor].
      repeat (constructor; [lia|]). constructor.
    + intros Hshort. rewrite Hl, Hp.
      destruct (Z.ltb_spec (sync_offset + 6) (capture_len s)); [lia|].
      split; reflexivity.
    + intros Hshort. rewrite Hl, Hp.
      destruct (Z.ltb_spec (sync_offset + 14) (capture_len s)); [lia|].
      rewrite andb_false_r.
      destruct (sync_offset + 6 <? capture_len s);
        [|split; [constructor|left; reflexivity]].
      split; [repeat constructor|].
      destruct (byte_at s (sync_offset + 6) =? 195);
        [right|left]; reflexivity.
Qed.

Lemma analyze_capture_reads_in_bounds_witness :
  wf_state short_header_capture /\ 0 <= 0 <= INT_MAX - 6 /\
  exists evs,
    analyze_packet 0 short_header_capture
      = Some (tt, short_header_capture, evs) /\
    safe_loads short_header_capture evs /\
    Forall (fun i => i = 6) (loads evs).
Proof.
  split; [exact short_header_capture_wf|].
  assert (H0 : 0 <= 0 <= INT_MAX - 6) by (vm_compute; split; discriminate).
  split; [exact H0|].
  destruct (analyze_capture_reads_in_bounds short_header_capture 0
              short_header_capture_wf H0)
    as (_ & evs & Hrun & Hsafe & _ & Hshort).
  exists evs. split; [exact Hrun|]. split; [exact Hsafe|].
  apply Hshort. vm_compute. discriminate.
Defined.

(** C5 as stated fails: with the sync marker, the packet-start byte and the
    first three header bytes captured, dest, src and type lie within the
    captured length and none of them is reported. *)
Lemma partial_header_not_reported :
  captured short_header_capture = SYNC_PATTERN ++ [0xC3; 0x81; 0x80; 0x80] /\
  exists evs,
    analyze_capture short_header_capture
      = Some (tt, short_header_capture, evs) /\
    prints evs = dump_lines short_header_capture ++ [LSync 0; LPktStart 6] /\
    forall dest src type, ~ In (LPkt dest src type) (prints evs).
Proof.
  split; [reflexivity|].
  eexists. split; [vm_compute; reflexivity|]. split; [reflexivity|].
  intros dest src type H. cbn in H.
  repeat (destruct H as [H|H]; [discriminate H|]). exact H.
Qed.

(** C5, as the code has it: one guard covers the whole header.  On a capture
    whose leftmost sync marker is followed by 0xC3, dest (+1), src (+2) and
    type (+3) are reported, with the command (+8) and its name when the type
    is 0x80 or 0x85, if the command byte lies within the captured length;
    if it does not, no header field is reported.  The fields at +4 to +7 are
    not reported in either case. *)
Theorem analyze_capture_header_all_or_nothing s (k : nat) :
  wf_state s ->
  sync_at (captured s) k ->
  (forall j, (j < k)%nat -> ~ sync_at (captured s) j) ->
  captured s !! (k + 6)%nat = Some 0xC3 ->
  let p := Z.of_nat k + 6 in
  exists evs,
    analyze_capture s = Some (tt, s, evs) /\
    prints evs =
      dump_lines s ++
      LSync (Z.of_nat k) :: LPktStart p ::
      (if p + 8 <? capture_len s then
         LPkt (byte_at s (p + 1)) (byte_at s (p + 2)) (byte_at s (p + 3)) ::
         (if (byte_at s (p + 3) =? 0x80) || (byte_at s (p + 3) =? 0x85)
          then [LCmd (byte_at s (p + 8)) (get_command_name (byte_at s (p + 8)))]
          else [])
       else []).
Proof.
  intros Hwf Hk Hmin Hc3 p.
  destruct (analyze_capture_run s Hwf)
    as (r & e1 & e2 & e3 & _ & Hrun & Hp1 & _ & Hp2 & _ & Hrest & Hr).
  destruct (leftmost_found s r k Hr Hk Hmin) as [-> Hfit].
  destruct (analyze_packet_run s (Z.of_nat k)) as (e3' & Hrun3 & _ & Hp3).
  { destruct Hwf as [_ Hlen]. unfold INT_MAX, CAPTURE_SIZE in *. lia. }
  destruct (Z.geb_spec (Z.of_nat k) 0); [|lia].
  rewrite Hrest in Hrun3. injection Hrun3 as <-.
  exists (e1 ++ e2 ++ e3). split; [exact Hrun|].
  rewrite !prints_app, Hp1, Hp2, Hp3. cbn [app].
  apply captured_lookup in Hc3 as [H6 Hlt].
  replace (Z.of_nat (k + 6)) with (Z.of_nat k + 6) in H6, Hlt by lia.
  rewrite H6. subst p.
  replace (Z.of_nat k + 6 + 8) with (Z.of_nat k + 14) by lia.
  replace (Z.of_nat k + 6 + 1) with (Z.of_nat k + 7) by lia.
  replace (Z.of_nat k + 6 + 2) with (Z.of_nat k + 8) by lia.
  replace (Z.of_nat k + 6 + 3) with (Z.of_nat k + 9) by lia.
  destruct (Z.ltb_spec (Z.of_nat k + 6) (capture_len s)); [|lia].
  reflexivity.
Qed.

Lemma analyze_capture_header_all_or_nothing_witness :
  wf_state command_capture /\
  sync_at (captured command_capture) 0 /\
  (forall j, (j < 0)%nat -> ~ sync_at (captured command_capture) j) /\
  captured command_capture !! 6%nat = Some 0xC3 /\
  exists evs,
    analyze_capture command_capture = Some (tt, command_capture, evs) /\
    prints evs =
      dump_lines command_capture ++
      [LSync 0; LPktStart 6; LPkt 0x81 0x80 0x80; LCmd 0x01 "READBLOCK"].
Proof.
  assert (Hmin : forall j, (j < 0)%nat -> ~ sync_at (captured command_capture) j)
    by (intros j Hj; lia).
  split; [exact command_capture_wf|]. split; [reflexivity|].
  split; [exact Hmin|]. split; [reflexivity|].
  exact (analyze_capture_header_all_or_nothing command_capture 0
           command_capture_wf eq_refl Hmin eq_refl).
Defined.

(** ** The no-sync classification *)

Lemma forallb_Forall_eq (v : Z) bs :
  forallb (fun b => b =? v) bs = true <-> Forall (fun b => b = v) bs.
Proof.
  induction bs as [|b bs IH]; cbn.
  - split; [constructor|reflexivity].
  - rewrite andb_true_iff, IH, Forall_cons, Z.eqb_eq. reflexivity.
Qed.

Lemma uniform_class_spec bs :
  (uniform_class bs = WarnAllZero <-> Forall (fun b => b = 0x00) bs) /\
  (uniform_class bs = WarnAllOne <->
   ~ Forall (fun b => b = 0x00) bs /\ Forall (fun b => b = 0xFF) bs) /\
  (uniform_class bs = InfoNoSync <->
   ~ Forall (fun b => b = 0x00) bs /\ ~ Forall (fun b => b = 0xFF) bs).
Proof.
  unfold uniform_class.
  rewrite <- !forallb_Forall_eq.
  destruct (forallb (fun b => b =? 0) bs), (forallb (fun b => b =? 255) bs);
    repeat split; try discriminate; try reflexivity;
    try (intros [? ?]; congruence); try (intros ?; split; congruence).
Qed.

(** C10: when no sync marker is found, the uniform-zero test comes first and
    both tests range over all the captured bytes.  The capture is reported
    as all zeros exactly when every captured byte is 0x00, which includes
    the empty capture; as all ones exactly when it is not all zeros and
    every captured byte is 0xFF; and as plain no-sync otherwise. *)
Theorem analyze_capture_no_sync_classification s :
  wf_state s ->
  (forall k, ~ sync_at (captured s) k) ->
  exists evs,
    analyze_capture s = Some (tt, s, evs) /\
    prints evs = dump_lines s ++ [uniform_class (captured s)] /\
    (uniform_class (captured s) = WarnAllZero <->
     Forall (fun b => b = 0x00) (captured s)) /\
    (uniform_class (captured s) = WarnAllOne <->
     ~ Forall (fun b => b = 0x00) (captured s) /\
     Forall (fun b => b = 0xFF) (captured s)) /\
    (uniform_class (captured s) = InfoNoSync <->
     ~ Forall (fun b => b = 0x00) (captured s) /\
     ~ Forall (fun b => b = 0xFF) (captured s)) /\
    (capture_len s = 0 -> uniform_class (captured s) = WarnAllZero).
Proof.
  intros Hwf Hno.
  destruct (analyze_capture_run s Hwf)
    as (r & e1 & e2 & e3 & _ & Hrun & Hp1 & _ & Hp2 & _ & Hrest & Hr).
  assert (Hr1 : r = -1).
  { destruct Hr as [[-> _]|(_ & _ & Hat & _)]; [reflexivity|].
    destruct (Hno _ Hat). }
  subst r. change (-1 >=? 0) with false in Hrest. cbv iota in Hrest.
  destruct (analyze_no_sync_run s Hwf) as (e & He & _ & Hp3).
  rewrite Hrest in He. injection He as <-.
  exists (e1 ++ e2 ++ e3). split; [exact Hrun|].
  split; [rewrite !prints_app, Hp1, Hp2, Hp3; reflexivity|].
  destruct (uniform_class_spec (captured s)) as (Hz & Ho & Hm).
  split; [exact Hz|]. split; [exact Ho|]. split; [exact Hm|].
  intros Hlen. apply Hz. unfold captured. rewrite Hlen. constructor.
Qed.

Lemma empty_capture_no_sync k : ~ sync_at (captured empty_capture) k.
Proof.
  intros H. apply sync_at_length in H.
  change (length (captured empty_capture)) with 0%nat in H. lia.
Qed.

Lemma analyze_capture_no_sync_classification_witness :
  wf_state empty_capture /\
  (forall k, ~ sync_at (captured empty_capture) k) /\
  exists evs,
    analyze_capture empty_capture = Some (tt, empty_capture, evs) /\
    prints evs = dump_lines empty_capture ++ [WarnAllZero].
Proof.
  split; [exact empty_capture_wf|]. split; [exact empty_capture_no_sync|].
  destruct (analyze_capture_no_sync_classification empty_capture
              empty_capture_wf empty_capture_no_sync)
    as (evs & Hrun & Hp & _ & _ & _ & Hzero).
  exists evs. split; [exact Hrun|].
  rewrite Hp, (Hzero eq_refl). reflexivity.
Defined.

(** ** Orders of evaluation *)

Lemma insert_at_perm {A} (x : A) l : forall n, insert_at n x l ≡ₚ x :: l.
Proof.
  induction l as [|y l IH]; intros [|n]; cbn [insert_at]; try reflexivity.
  rewrite IH. apply Permutation_swap.
Qed.

Lemma arrange_perm {A} (l : list A) : forall code, arrange code l ≡ₚ l.
Proof.
  induction l as [|x l IH]; intros code; cbn [arrange]; [reflexivity|].
  rewrite insert_at_perm, IH. reflexivity.
Qed.

Lemma arrange_length {A} code (l : list A) : length (arrange code l) = length l.
Proof. apply Permutation_length, arrange_perm. Qed.

Lemma insert_at_app {A} (x : A) l1 l2 :
  insert_at (length l1) x (l1 ++ l2) = l1 ++ x :: l2.
Proof.
  induction l1 as [|y l1 IH]; cbn [length app insert_at].
  - destruct l2; reflexivity.
  - f_equal. exact IH.
Qed.

(** Every order of the arguments has a code. *)
Lemma arrange_complete {A} (l : list A) : forall l',
  l ≡ₚ l' -> exists code, arrange code l = l'.
Proof.
  induction l as [|x l IH]; intros l' Hp.
  - apply Permutation_nil in Hp as ->. exists []. reflexivity.
  - assert (Hin : x ∈ l') by (rewrite <- Hp; left).
    apply list_elem_of_split in Hin as (l1 & l2 & ->).
    apply Permutation_cons_app_inv in Hp.
    destruct (IH _ Hp) as (code & Hcode).
    exists (length l1 :: code). cbn [arrange hd tl].
    rewrite Hcode. apply insert_at_app.
Qed.

Example arrange_right_to_left :
  arrange right_to_left [PIN_WRDATA; PIN_ENBL1; PIN_ENBL2; PIN_WREQ]
    = [PIN_WREQ; PIN_ENBL2; PIN_ENBL1; PIN_WRDATA] /\
  arrange right_to_left [PIN_WRDATA; PIN_ENBL1; PIN_ENBL2; PIN_WREQ; PIN_ACK]
    = [PIN_ACK; PIN_WREQ; PIN_ENBL2; PIN_ENBL1; PIN_WRDATA].
Proof. split; reflexivity. Qed.

Example arrange_left_to_right :
  arrange left_to_right [PIN_WRDATA; PIN_ENBL1; PIN_ENBL2; PIN_WREQ; PIN_ACK]
    = [PIN_WRDATA; PIN_ENBL1; PIN_ENBL2; PIN_WREQ; PIN_ACK].
Proof. reflexivity. Qed.

Lemma gpio_get_level_run hw p s :
  gpio_get_level hw p s =
    Some (Z.b2z (level hw p (tick s)), after_ticks 1 s,
          [EvGpio p (Z.b2z (level hw p (tick s)))]).
Proof. reflexivity. Qed.

Lemma read_pins_run hw pins : forall s,
  read_pins hw pins s =
    Some (pin_reads hw (tick s) pins, after_ticks (length pins) s,
          read_events (pin_reads hw (tick s) pins)).
Proof.
  induction pins as [|p pins IH]; intros s.
  - destruct s; reflexivity.
  - cbn [read_pins pin_reads length].
    unfold mbind at 1, M_bind at 1. rewrite gpio_get_level_run.
    unfold mbind at 1, M_bind at 1. rewrite IH.
    unfold mret, M_ret. rewrite app_nil_r. unfold after_ticks.
    cbn [tick capture_buffer capture_len].
    replace (length pins + (1 + tick s))%nat
      with (S (length pins) + tick s)%nat by lia.
    reflexivity.
Qed.

Lemma pin_reads_pins hw pins : forall t, (pin_reads hw t pins).*1 = pins.
Proof.
  induction pins as [|p pins IH]; intros t; cbn; [|rewrite IH]; reflexivity.
Qed.

Lemma read_events_quiet vs :
  prints (read_events vs) = [] /\ stores (read_events vs) = [] /\
  loads (read_events vs) = [] /\ length (read_events vs) = length vs.
Proof.
  induction vs as [|[p v] vs (H1 & H2 & H3 & H4)]; [repeat split|].
  cbn. rewrite <- H4. auto.
Qed.

Lemma read_events_cons p q v vs :
  samples_of p (read_events ((q, v) :: vs)) =
  (if decide (q = p) then [v] else []) ++ samples_of p (read_events vs).
Proof.
  unfold samples_of, read_events. cbn [fmap list_fmap omap list_omap fst snd].
  destruct (decide (q = p)); reflexivity.
Qed.

Lemma read_events_other vs p :
  p ∉ vs.*1 -> samples_of p (read_events vs) = [].
Proof.
  induction vs as [|[q v] vs IH]; intros Hl; [reflexivity|].
  cbn [fmap list_fmap fst] in Hl. apply not_elem_of_cons in Hl as [Hne Hl].
  rewrite read_events_cons, decide_False by congruence. apply IH. exact Hl.
Qed.

Lemma read_events_samples vs p :
  NoDup vs.*1 -> p ∈ vs.*1 ->
  samples_of p (read_events vs) = [arg_value vs p].
Proof.
  induction vs as [|[q v] vs IH]; intros Hnd Hin; [inversion Hin|].
  cbn [fmap list_fmap fst] in Hnd, Hin. apply NoDup_cons in Hnd as [Hq Hnd].
  rewrite read_events_cons. cbn [arg_value].
  apply elem_of_cons in Hin as [->|Hin].
  - rewrite !decide_True by reflexivity.
    rewrite read_events_other by exact Hq. reflexivity.
  - destruct (decide (q = p)) as [->|Hne]; [contradiction|].
    rewrite decide_False by congruence. apply IH; assumption.
Qed.

Lemma arg_value_level hw pins p : forall t,
  p ∈ pins ->
  exists i, (i < length pins)%nat /\
    arg_value (pin_reads hw t pins) p = Z.b2z (level hw p (i + t)).
Proof.
  induction pins as [|q pins IH]; intros t Hin; [inversion Hin|].
  cbn [pin_reads arg_value length].
  destruct (decide (p = q)) as [->|Hne].
  - exists 0%nat. split; [lia|reflexivity].
  - apply elem_of_cons in Hin as [|Hin]; [contradiction|].
    destruct (IH (S t) Hin) as (i & Hi & Hv).
    exists (S i). split; [lia|]. rewrite Hv. do 2 f_equal. lia.
Qed.

(** The reads made for a list of distinct pins, in whatever order, are one
    read of each pin. *)
Lemma read_events_perm (vs : list (pin * Z)) pins :
  NoDup pins -> vs.*1 ≡ₚ pins ->
  read_events vs ≡ₚ (fun p => EvGpio p (arg_value vs p)) <$> pins.
Proof.
  intros Hnd Hp.
  assert (Hnd' : NoDup vs.*1) by (rewrite Hp; exact Hnd).
  rewrite <- Hp. clear Hp Hnd pins.
  assert (Heq : forall f : pin -> Z,
            (forall x, x ∈ vs -> f x.1 = x.2) ->
            read_events vs = (fun p => EvGpio p (f p)) <$> vs.*1).
  { intros f Hf. unfold read_events. rewrite <- list_fmap_compose.
    apply list_fmap_ext. intros i x Hx. cbn.
    rewrite Hf by (eapply list_elem_of_lookup_2; exact Hx). reflexivity. }
  rewrite (Heq (arg_value vs)); [reflexivity|].
  clear Heq. induction vs as [|[q v] vs IH]; intros x Hx; [inversion Hx|].
  cbn [fmap list_fmap fst] in Hnd'. apply NoDup_cons in Hnd' as [Hq Hnd'].
  cbn [arg_value]. apply elem_of_cons in Hx as [->|Hx].
  - cbn. rewrite decide_True by reflexivity. reflexivity.
  - destruct (decide (x.1 = q)) as [Heq|Hne].
    + exfalso. apply Hq. rewrite <- Heq. apply list_elem_of_fmap.
      exists x. auto.
    + apply IH; assumption.
Qed.

Lemma level_pins_NoDup :
  NoDup [PIN_WRDATA; PIN_ENBL1; PIN_ENBL2; PIN_WREQ] /\
  NoDup [PIN_WRDATA; PIN_ENBL1; PIN_ENBL2; PIN_WREQ; PIN_ACK].
Proof. split; apply (bool_decide_unpack _); reflexivity. Qed.

(** Whatever the order of evaluation, each of the distinct pins of an
    argument list is read once, at one of the hardware calls the evaluation
    takes, and its level is the value of its argument. *)
Lemma arranged_reads hw t code pins p :
  NoDup pins -> p ∈ pins ->
  let vs := pin_reads hw t (arrange code pins) in
  samples_of p (read_events vs) = [arg_value vs p] /\
  exists i, (i < length pins)%nat /\
    arg_value vs p = Z.b2z (level hw p (i + t)).
Proof.
  intros Hnd Hin. cbv zeta.
  pose proof (arrange_perm pins code) as Hp. split.
  - apply read_events_samples; rewrite pin_reads_pins, Hp; assumption.
  - rewrite <- (arrange_length code pins).
    apply arg_value_level. rewrite Hp. exact Hin.
Qed.

Lemma print_levels_run hw site s :
  let vs := pin_reads hw (tick s)
              (arrange (arg_order hw site)
                 [PIN_WRDATA; PIN_ENBL1; PIN_ENBL2; PIN_WREQ]) in
  print_levels hw site s =
    Some (tt, after_ticks 4 s,
          read_events vs ++
          [EvPrintf (DbgLevels (arg_value vs PIN_WRDATA)
                               (arg_value vs PIN_ENBL1)
                               (arg_value vs PIN_ENBL2)
                               (arg_value vs PIN_WREQ))]).
Proof.
  cbv zeta. unfold print_levels.
  eapply bind_run; [apply read_pins_run|].
  rewrite arrange_length. reflexivity.
Qed.

(** ** Capture sessions *)

Lemma keeps_ret {A} (a : A) : keeps_capture (mret a).
Proof. intros s a' s' evs H. injection H as <- <- <-. auto. Qed.

Lemma keeps_bind {A B} (m : M A) (f : A -> M B) :
  keeps_capture m -> (forall a, keeps_capture (f a)) -> keeps_capture (m ≫= f).
Proof.
  intros Hm Hf s b s' evs H.
  apply bind_inv in H as (a & s1 & e1 & e2 & H1 & H2 & ->).
  apply Hm in H1 as (Hl1 & Hb1 & Hs1 & Hd1).
  apply Hf in H2 as (Hl2 & Hb2 & Hs2 & Hd2).
  rewrite stores_app, loads_app, Hs1, Hs2, Hd1, Hd2.
  repeat split; congruence.
Qed.

Lemma keeps_fuel {A} : keeps_capture (@out_of_fuel A).
Proof. intros s a s' evs H. discriminate H. Qed.

Lemma keeps_printf l : keeps_capture (printf l).
Proof. intros s a s' evs H. injection H as <- <- <-. auto. Qed.

Lemma keeps_gpio hw p : keeps_capture (gpio_get_level hw p).
Proof. intros s a s' evs H. injection H as <- <- <-. auto. Qed.

Lemma keeps_timer hw : keeps_capture (esp_timer_get_time hw).
Proof. intros s a s' evs H. injection H as <- <- <-. auto. Qed.

Lemma keeps_delay us : keeps_capture (esp_rom_delay_us us).
Proof. intros s a s' evs H. injection H as <- <- <-. auto. Qed.

Lemma keeps_if {A} (c : bool) (m1 m2 : M A) :
  keeps_capture m1 -> keeps_capture m2 -> keeps_capture (if c then m1 else m2).
Proof. destruct c; auto. Qed.

#[local] Hint Resolve keeps_ret keeps_bind keeps_fuel keeps_printf keeps_gpio
  keeps_timer keeps_delay keeps_if : capture.

Lemma keeps_read_wrdata hw : keeps_capture (read_wrdata hw).
Proof. unfold read_wrdata. auto with capture. Qed.

Lemma keeps_drive_enabled hw : keeps_capture (drive_enabled hw).
Proof. unfold drive_enabled. auto 10 with capture. Qed.

Lemma keeps_read_pins hw pins : keeps_capture (read_pins hw pins).
Proof. induction pins as [|p pins IH]; cbn [read_pins]; auto 10 with capture. Qed.

Lemma keeps_print_levels hw site : keeps_capture (print_levels hw site).
Proof.
  unfold print_levels. apply keeps_bind; [apply keeps_read_pins|].
  intros vs. apply keeps_printf.
Qed.

#[local] Hint Resolve keeps_read_wrdata keeps_drive_enabled keeps_print_levels
  : capture.

Lemma keeps_wait_loop hw fuel start timeout_us :
  keeps_capture (wait_loop hw fuel start timeout_us).
Proof.
  induction fuel as [|fuel IH]; cbn [wait_loop]; auto 10 with capture.
Qed.

Lemma keeps_wait_for_write_mode hw fuel timeout_us :
  keeps_capture (wait_for_write_mode hw fuel timeout_us).
Proof.
  unfold wait_for_write_mode.
  apply keeps_bind; [apply keeps_timer|]. intros. apply keeps_wait_loop.
Qed.

Lemma keeps_activity_loop hw fuel start timeout_us :
  forall last high samples transitions,
    keeps_capture (activity_loop hw fuel start timeout_us last high samples
                                 transitions).
Proof.
  induction fuel as [|fuel IH]; intros; cbn [activity_loop];
    auto 10 with capture.
Qed.

Lemma keeps_check_wrdata_activity hw fuel timeout_us :
  keeps_capture (check_wrdata_activity hw fuel timeout_us).
Proof.
  unfold check_wrdata_activity.
  apply keeps_bind; [apply keeps_timer|]. intros start.
  apply keeps_bind; [apply keeps_read_wrdata|]. intros last.
  apply keeps_bind; [apply keeps_activity_loop|]. intros [[samples high] tr].
  auto with capture.
Qed.

Lemma drive_enabled_run hw s :
  drive_enabled hw s =
  Some (enable_condition hw (tick s), after_ticks (enable_ticks hw (tick s)) s,
        enable_events hw (tick s)).
Proof.
  destruct s as [t buf len].
  unfold drive_enabled, enable_condition, enable_ticks, enable_events,
    after_ticks.
  cbv [mbind M_bind mret M_ret gpio_get_level next_tick].
  cbn [tick capture_buffer capture_len].
  destruct (level hw PIN_ENBL1 t); cbn; [|reflexivity].
  destruct (level hw PIN_ENBL2 (S t)); reflexivity.
Qed.

Lemma capture_iter_run hw start s :
  0 <= capture_len s ->
  capture_iter hw start s =
  if capture_len s <? CAPTURE_SIZE then
    if timer_us hw (tick s) - start >? CAPTURE_TIMEOUT_US
    then Some (Some ExitCaptureTimeout, after_ticks 1 s,
               [EvTimer (timer_us hw (tick s))])
    else
      let v := byte_read hw (1 + tick s) in
      let t := (25 + tick s)%nat in
      Some (if enable_condition hw t then None else Some ExitDeselected,
            mkState (enable_ticks hw t + t)
                    (<[Z.to_nat (capture_len s) := v]> (capture_buffer s))
                    (capture_len s + 1),
            EvTimer (timer_us hw (tick s)) ::
            byte_events hw (after_ticks 1 s) ++
            EvStore (capture_len s) v :: enable_events hw t)
  else Some (Some ExitFull, s, []).
Proof.
  intros Hlen. destruct s as [t buf len]. unfold capture_iter.
  cbn [tick capture_buffer capture_len] in *.
  cbv [mbind M_bind get_capture_len].
  cbn [tick capture_buffer capture_len].
  destruct (len <? CAPTURE_SIZE); [|reflexivity].
  cbv [esp_timer_get_time]. cbn [tick capture_buffer capture_len].
  destruct (timer_us hw t - start >? CAPTURE_TIMEOUT_US); [reflexivity|].
  rewrite read_byte_raw_run.
  cbv [set_capture_len store next_tick after_ticks].
  cbn [tick capture_buffer capture_len].
  rewrite drive_enabled_run.
  destruct (Z.leb_spec 0 len); [|lia].
  cbn [tick capture_buffer capture_len].
  change (24 + S t)%nat with (25 + t)%nat.
  destruct (enable_condition hw (25 + t)); cbv [mret M_ret negb];
    cbn [app]; rewrite app_nil_r; reflexivity.
Qed.

(** What a terminated capture loop leaves behind, when entered with a length
    within the array: the length has not decreased and is within the array,
    the stores went to the cells from the old length to the new one, in
    order, and the array kept its size. *)
Lemma capture_loop_inv hw start fuel : forall s r s' evs,
  0 <= capture_len s <= CAPTURE_SIZE ->
  capture_loop hw fuel start s = Some (r, s', evs) ->
  capture_len s <= capture_len s' <= CAPTURE_SIZE /\
  (stores evs).*1 = seqZ (capture_len s) (capture_len s' - capture_len s) /\
  length (capture_buffer s') = length (capture_buffer s) /\
  loads evs = [] /\
  (r = ExitDeselected -> capture_len s < capture_len s') /\
  (r = ExitFull -> capture_len s' = CAPTURE_SIZE) /\
  r <> ExitWaitTimeout.
Proof.
  induction fuel as [|fuel IH]; intros s r s' evs Hlen Hrun; [discriminate|].
  cbn [capture_loop] in Hrun.
  apply bind_inv in Hrun as (r1 & s1 & e1 & e2 & Hiter & Hrest & ->).
  rewrite capture_iter_run in Hiter by lia.
  unfold CAPTURE_SIZE in *.
  destruct (Z.ltb_spec (capture_len s) 128) as [Hlt|Hge].
  - destruct (timer_us hw (tick s) - start >? CAPTURE_TIMEOUT_US).
    + injection Hiter as <- <- <-. injection Hrest as <- <- <-.
      cbn. rewrite Z.sub_diag. repeat split; try lia; try discriminate.
    + cbv zeta in Hiter.
      assert (Hst : stores (EvTimer (timer_us hw (tick s)) ::
                byte_events hw (after_ticks 1 s) ++
                EvStore (capture_len s) (byte_read hw (1 + tick s)) ::
                enable_events hw (25 + tick s))
              = [(capture_len s, byte_read hw (1 + tick s))]).
      { unfold enable_events.
        destruct (level hw PIN_ENBL1 (25 + tick s)); reflexivity. }
      assert (Hld : loads (EvTimer (timer_us hw (tick s)) ::
                byte_events hw (after_ticks 1 s) ++
                EvStore (capture_len s) (byte_read hw (1 + tick s)) ::
                enable_events hw (25 + tick s))
              = []).
      { unfold enable_events.
        destruct (level hw PIN_ENBL1 (25 + tick s)); reflexivity. }
      remember (EvTimer (timer_us hw (tick s)) ::
                byte_events hw (after_ticks 1 s) ++
                EvStore (capture_len s) (byte_read hw (1 + tick s)) ::
                enable_events hw (25 + tick s)) as E eqn:HE.
      remember (25 + tick s)%nat as t25 eqn:Ht25.
      remember (byte_read hw (1 + tick s)) as v eqn:Hv.
      destruct (enable_condition hw t25);
        injection Hiter as <- <- <-;
        rewrite stores_app, loads_app, Hst, Hld; cbn [app].
      * apply IH in Hrest; cbn [capture_len capture_buffer] in *; [|lia].
        destruct Hrest as (Hl & Hs & Hb & Hd & Hdes & Hfull & Hnw).
        rewrite length_insert in Hb.
        split; [lia|]. split.
        { cbn [fmap list_fmap fst]. rewrite Hs.
          rewrite (seqZ_cons (capture_len s)) by lia. f_equal. f_equal; lia. }
        repeat split; try assumption; try lia.
      * injection Hrest as <- <- <-. cbn [capture_len capture_buffer].
        rewrite length_insert.
        replace (capture_len s + 1 - capture_len s) with 1 by lia.
        repeat split; try lia; try reflexivity; try discriminate.
  - injection Hiter as <- <- <-. injection Hrest as <- <- <-.
    cbn. rewrite Z.sub_diag. repeat split; try lia; try discriminate.
Qed.

(** Passes that run to the end of the body store one byte each. *)
Lemma passes_len hw start n s s' evs :
  passes hw start n s s' evs ->
  0 <= capture_len s <= CAPTURE_SIZE ->
  capture_len s' = capture_len s + Z.of_nat n /\
  capture_len s' <= CAPTURE_SIZE.
Proof.
  induction 1 as [s|n s s1 s2 e1 e2 Hiter _ IH]; intros Hlen.
  - lia.
  - rewrite capture_iter_run in Hiter by lia.
    unfold CAPTURE_SIZE in *.
    destruct (Z.ltb_spec (capture_len s) 128); [|discriminate Hiter].
    destruct (timer_us hw (tick s) - start >? CAPTURE_TIMEOUT_US);
      [discriminate Hiter|].
    cbv zeta in Hiter. injection Hiter as _ <- _.
    cbn [capture_len] in IH. lia.
Qed.

(** A capture loop that has made [n] such passes goes on from where they
    ended. *)
Lemma capture_loop_passes hw start n s s1 e1 :
  passes hw start n s s1 e1 ->
  forall fuel r s' e2,
    capture_loop hw fuel start s1 = Some (r, s', e2) ->
    capture_loop hw (n + fuel) start s = Some (r, s', e1 ++ e2).
Proof.
  induction 1 as [s|n s s1 s2 e1 e2 Hiter _ IH]; intros fuel r s' e Hrun.
  - exact Hrun.
  - cbn [Nat.add capture_loop]. rewrite <- app_assoc.
    eapply bind_run; [exact Hiter|]. apply IH. exact Hrun.
Qed.

(** A terminated [capture_packet] either gave up waiting for write mode,
    with an empty capture, or went through its capture loop, entered with an
    empty capture. *)
Lemma capture_packet_inv hw fuel s r s' evs :
  capture_packet hw fuel s = Some (r, s', evs) ->
  (r = ExitWaitTimeout /\ capture_len s' = 0 /\
   capture_buffer s' = capture_buffer s /\ stores evs = [] /\ loads evs = []) \/
  (exists s1 start e1 e2,
     capture_len s1 = 0 /\ capture_buffer s1 = capture_buffer s /\
     stores e1 = [] /\ loads e1 = [] /\
     capture_loop hw fuel start s1 = Some (r, s', e2) /\
     evs = e1 ++ e2).
Proof.
  unfold capture_packet. intros H.
  apply bind_inv in H as (t0 & sa & ea & ea' & Ha & H & ->).
  apply keeps_timer in Ha as (Hla & Hba & Hsa & Hda).
  apply bind_inv in H as ([] & sb & eb & eb' & Hb & H & ->).
  injection Hb as <- <-. 
  apply bind_inv in H as ([] & sc & ec & ec' & Hc & H & ->).
  apply keeps_printf in Hc as (Hlc & Hbc & Hsc & Hdc).
  apply bind_inv in H as (ok & sd & ed & ed' & Hd & H & ->).
  apply keeps_wait_for_write_mode in Hd as (Hld & Hbd & Hsd & Hdd).
  cbn [capture_len capture_buffer] in *.
  destruct ok; cbn [negb] in H.
  - right.
    apply bind_inv in H as ([] & se & ee & ee' & He & H & ->).
    apply keeps_printf in He as (Hle & Hbe & Hse & Hde).
    apply bind_inv in H as (tr & sf & ef & ef' & Hf & H & ->).
    apply keeps_check_wrdata_activity in Hf as (Hlf & Hbf & Hsf & Hdf).
    apply bind_inv in H as ([] & sg & eg & eg' & Hg & H & ->).
    assert (Hkg : keeps_capture
              (if tr =? 0
               then printf DbgNoTransitions;; print_levels hw SiteNoTransitions
               else mret tt)) by auto 10 with capture.
    apply Hkg in Hg as (Hlg & Hbg & Hsg & Hdg).
    apply bind_inv in H as (start & sh & eh & eh' & Hh & H & ->).
    apply keeps_timer in Hh as (Hlh & Hbh & Hsh & Hdh).
    exists sh, start, (ea ++ ec ++ ed ++ ee ++ ef ++ eg ++ eh), eh'.
    split; [congruence|]. split; [congruence|].
    rewrite !stores_app, !loads_app, Hsa, Hsc, Hsd, Hse, Hsf, Hsg, Hsh,
      Hda, Hdc, Hdd, Hde, Hdf, Hdg, Hdh.
    split; [reflexivity|]. split; [reflexivity|]. split; [exact H|].
    cbn [app]. rewrite <- !app_assoc. reflexivity.
  - left.
    assert (Hk : keeps_capture
              (printf DbgTimeout;; print_levels hw SiteTimeout;;
               mret ExitWaitTimeout))
      by auto 10 with capture.
    pose proof H as H'. apply Hk in H' as (Hl & Hb & Hs & Hdl).
    apply bind_inv in H as ([] & se & ee & ee' & He & H & ->).
    apply bind_inv in H as ([] & sf & ef & ef' & Hf & H & ->).
    injection H as <- <- <-.
    rewrite !stores_app, !loads_app in *. cbn [app] in *.
    rewrite Hsa, Hsc, Hsd, Hda, Hdc, Hdd. cbn [app].
    repeat split; try congruence; [exact Hs|exact Hdl].
Qed.

(** C8: the capture length never exceeds the size of the array.  A session
    sets it to zero before anything else, so that it runs as it would from
    length 0 whatever the length was.  Every pass through the capture loop
    that starts with a length within the array is made, stores at most one
    byte, at the index the length had and only while that is below 128, and
    ends with a length within the array, grown by at most one.  When the
    session is over the length is at most 128 and is the number of bytes
    stored, each stored at the index the length had at that moment, all of
    them below 128. *)
Theorem capture_len_bounded hw fuel s :
  capture_packet hw fuel s
    = capture_packet hw fuel (mkState (tick s) (capture_buffer s) 0) /\
  (forall r s' evs,
     capture_packet hw fuel s = Some (r, s', evs) ->
     0 <= capture_len s' <= CAPTURE_SIZE /\
     capture_len s' = Z.of_nat (length (stores evs)) /\
     (stores evs).*1 = seqZ 0 (capture_len s') /\
     Forall (fun i => 0 <= i < CAPTURE_SIZE) (stores evs).*1 /\
     length (capture_buffer s') = length (capture_buffer s)) /\
  (forall start s1,
     0 <= capture_len s1 <= CAPTURE_SIZE ->
     exists r1 s2 e,
       capture_iter hw start s1 = Some (r1, s2, e) /\
       capture_len s1 <= capture_len s2 <= capture_len s1 + 1 /\
       capture_len s2 <= CAPTURE_SIZE /\
       (stores e).*1 =
         (if bool_decide (capture_len s2 = capture_len s1) then []
          else [capture_len s1]) /\
       Forall (fun i => 0 <= i < CAPTURE_SIZE) (stores e).*1) /\
  (forall start n s1 s2 e,
     0 <= capture_len s1 <= CAPTURE_SIZE ->
     passes hw start n s1 s2 e ->
     capture_len s2 = capture_len s1 + Z.of_nat n /\
     0 <= capture_len s2 <= CAPTURE_SIZE).
Proof.
  split; [reflexivity|]. split; [|split].
  - intros r s' evs H.
    assert (Hmain : 0 <= capture_len s' <= CAPTURE_SIZE /\
                    (stores evs).*1 = seqZ 0 (capture_len s') /\
                    length (capture_buffer s') = length (capture_buffer s)).
    { apply capture_packet_inv in H
        as [(_ & Hl & Hb & Hs & _)
           |(s1 & start & e1 & e2 & Hl1 & Hb1 & Hs1 & _ & Hloop & ->)].
      - rewrite Hl, Hb, Hs. unfold CAPTURE_SIZE. repeat split; lia.
      - apply capture_loop_inv in Hloop as (Hl & Hs & Hb & _);
          [|rewrite Hl1; unfold CAPTURE_SIZE; lia].
        rewrite Hl1 in *. rewrite Z.sub_0_r in Hs.
        rewrite stores_app, Hs1. cbn [app].
        split; [lia|]. split; [exact Hs|]. congruence. }
    destruct Hmain as (Hl & Hs & Hb).
    split; [exact Hl|]. split; [|split; [exact Hs|split; [|exact Hb]]].
    + apply (f_equal length) in Hs.
      rewrite length_fmap, length_seqZ in Hs. lia.
    + rewrite Hs. apply Forall_seqZ. intros i Hi. lia.
  - intros start s1 Hl1.
    rewrite capture_iter_run by lia. unfold CAPTURE_SIZE in *.
    destruct (Z.ltb_spec (capture_len s1) 128).
    + destruct (timer_us hw (tick s1) - start >? CAPTURE_TIMEOUT_US).
      * eexists _, _, _. split; [reflexivity|].
        rewrite bool_decide_eq_true_2 by reflexivity.
        cbn. repeat split; try lia. constructor.
      * cbv zeta.
        assert (Hst : forall E1 E2 v,
                  stores (EvTimer E1 :: byte_events hw (after_ticks 1 s1) ++
                          EvStore (capture_len s1) v :: enable_events hw E2)
                  = [(capture_len s1, v)]).
        { intros E1 E2 v. unfold enable_events.
          destruct (level hw PIN_ENBL1 E2); reflexivity. }
        eexists _, _, _. split; [reflexivity|].
        rewrite Hst. cbn [capture_len fmap list_fmap fst].
        rewrite bool_decide_eq_false_2 by lia.
        repeat split; try lia. repeat constructor; lia.
    + eexists _, _, _. split; [reflexivity|].
      rewrite bool_decide_eq_true_2 by reflexivity.
      cbn. repeat split; try lia. constructor.
  - intros start n s1 s2 e Hl1 Hp.
    destruct (passes_len _ _ _ _ _ _ Hp Hl1). lia.
Qed.

Lemma capture_len_bounded_witness :
  capture_len late_sync_capture = 11 /\
  exists s' evs,
    capture_packet slow_hw 10 late_sync_capture
      = Some (ExitCaptureTimeout, s', evs) /\
    capture_packet slow_hw 10 late_sync_capture
      = capture_packet slow_hw 10
          (mkState (tick late_sync_capture)
                   (capture_buffer late_sync_capture) 0) /\
    capture_len s' = 1 /\
    stores evs = [(0, 0xFF)] /\
    0 <= capture_len s' <= CAPTURE_SIZE /\
    capture_len s' = Z.of_nat (length (stores evs)) /\
    (stores evs).*1 = seqZ 0 (capture_len s').
Proof.
  split; [reflexivity|].
  destruct (capture_packet slow_hw 10 late_sync_capture)
    as [[[r s'] evs]|] eqn:H; [|vm_compute in H; discriminate H].
  pose proof H as Hv. vm_compute in Hv. injection Hv as <- <- <-.
  match type of H with
  | _ = Some (_, ?s0, ?e0) => exists s0, e0
  end.
  destruct (capture_len_bounded slow_hw 10 late_sync_capture)
    as (Hreset & Hfin & _).
  rewrite <- Hreset.
  match type of H with
  | _ = Some (?r0, ?s0, ?e0) =>
      destruct (Hfin r0 s0 e0 H) as (Hl & Hn & Hs & _)
  end.
  split; [reflexivity|]. split; [exact H|].
  split; [reflexivity|]. split; [reflexivity|].
  split; [exact Hl|]. split; [exact Hn|exact Hs].
Defined.

(** C6, as the code has it: when, after any number of passes through the
    capture loop, the enable condition is found false by the check that
    follows the next stored byte, the loop ends there through its
    deselection exit; the length is the number of bytes stored so far, that
    byte included, hence at least 1 and at most 128.  Every session that
    ends through the deselection exit has a length between 1 and 128. *)
Theorem capture_loop_deselected hw start (n : nat) fuel s0 s e0 :
  0 <= capture_len s0 <= CAPTURE_SIZE ->
  passes hw start n s0 s e0 ->
  capture_len s < CAPTURE_SIZE ->
  timer_us hw (tick s) - start <= CAPTURE_TIMEOUT_US ->
  enable_condition hw (25 + tick s) = false ->
  (exists s' e,
     capture_loop hw (n + S fuel) start s0
       = Some (ExitDeselected, s', e0 ++ e) /\
     capture_len s' = capture_len s0 + Z.of_nat n + 1 /\
     1 <= capture_len s' <= CAPTURE_SIZE /\
     stores e = [(capture_len s, byte_read hw (1 + tick s))]) /\
  (forall fuel1 s1 s' evs,
     capture_packet hw fuel1 s1 = Some (ExitDeselected, s', evs) ->
     1 <= capture_len s' <= CAPTURE_SIZE).
Proof.
  intros Hlen0 Hpasses Hlen Htime Hen. split.
  - destruct (passes_len _ _ _ _ _ _ Hpasses Hlen0) as [Hl _].
    assert (Hlast : exists s' e,
      capture_loop hw (S fuel) start s = Some (ExitDeselected, s', e) /\
      capture_len s' = capture_len s + 1 /\
      stores e = [(capture_len s, byte_read hw (1 + tick s))]).
    { cbn [capture_loop]. unfold mbind, M_bind.
      rewrite capture_iter_run by lia.
      destruct (Z.ltb_spec (capture_len s) CAPTURE_SIZE); [|lia].
      destruct (Z.gtb_spec (timer_us hw (tick s) - start) CAPTURE_TIMEOUT_US);
        [lia|].
      cbv zeta. rewrite Hen.
      eexists _, _. split; [reflexivity|].
      cbn [capture_len]. split; [reflexivity|].
      rewrite app_nil_r. unfold enable_events.
      destruct (level hw PIN_ENBL1 (25 + tick s)); reflexivity. }
    destruct Hlast as (s' & e & Hrun & Hl' & Hst).
    exists s', e.
    split; [exact (capture_loop_passes _ _ _ _ _ _ Hpasses _ _ _ _ Hrun)|].
    split; [lia|]. split; [lia|exact Hst].
  - intros fuel1 s1 s' evs H.
    apply capture_packet_inv in H
      as [(Hr & _)|(s2 & st & e1 & e2 & Hl1 & _ & _ & _ & Hloop & _)];
      [discriminate Hr|].
    apply capture_loop_inv in Hloop as (Hl & _ & _ & _ & Hdes & _);
      [|rewrite Hl1; unfold CAPTURE_SIZE; lia].
    specialize (Hdes eq_refl). lia.
Qed.

Lemma capture_loop_deselected_witness :
  0 <= capture_len empty_capture <= CAPTURE_SIZE /\
  exists s e0,
    passes (deselect_hw 51) 0 1 empty_capture s e0 /\
    capture_len s < CAPTURE_SIZE /\
    timer_us (deselect_hw 51) (tick s) - 0 <= CAPTURE_TIMEOUT_US /\
    enable_condition (deselect_hw 51) (25 + tick s) = false /\
    exists s' e,
      capture_loop (deselect_hw 51) 2 0 empty_capture
        = Some (ExitDeselected, s', e0 ++ e) /\
      capture_len s' = 2.
Proof.
  assert (H0 : 0 <= capture_len empty_capture <= CAPTURE_SIZE)
    by (vm_compute; split; discriminate).
  split; [exact H0|].
  assert (P : exists s e0,
    passes (deselect_hw 51) 0 1 empty_capture s e0 /\
    capture_len s < CAPTURE_SIZE /\
    timer_us (deselect_hw 51) (tick s) - 0 <= CAPTURE_TIMEOUT_US /\
    enable_condition (deselect_hw 51) (25 + tick s) = false).
  { eexists _, _. split.
    - eapply passes_S; [vm_compute; reflexivity|apply passes_O].
    - split; [vm_compute; reflexivity|].
      split; [vm_compute; discriminate|vm_compute; reflexivity]. }
  destruct P as (s & e0 & P & H1 & H2 & H3).
  exists s, e0. split; [exact P|]. split; [exact H1|].
  split; [exact H2|]. split; [exact H3|].
  destruct (capture_loop_deselected (deselect_hw 51) 0 1 0 empty_capture s e0
              H0 P H1 H2 H3)
    as ((s' & e & Hrun & Hl & _) & _).
  exists s', e. split; [exact Hrun|exact Hl].
Defined.

(** C6 as stated fails on the bound: on hardware that deselects the drive
    right after the 128th byte, the session ends through the deselection
    exit with a full buffer.  With one microsecond per hardware call, write
    mode is seen at call 3, the activity check runs from call 4 to call
    2004, the four levels are printed (calls 2005 to 2008), the capture
    loop starts its clock at call 2009, and pass number j (from 0) takes
    the calls 2010 + 26 j to 2035 + 26 j: the timer, 24 calls for the byte,
    one read of the first enable line, which is low.  In pass 127 that read
    is call 5337 and finds the line high, as does the read of the second
    enable line at call 5338. *)
Lemma deselected_at_capacity :
  exists s' evs,
    capture_packet (deselect_hw (Z.to_nat 5337)) (Z.to_nat 1100) empty_capture
      = Some (ExitDeselected, s', evs) /\
    capture_len s' = CAPTURE_SIZE /\
    ~ capture_len s' < CAPTURE_SIZE /\
    length (stores evs) = 128%nat /\
    tick s' = Z.to_nat 5339 /\
    samples_of PIN_ENBL1 evs = [0] ++ replicate 127 0 ++ [1] /\
    samples_of PIN_ENBL2 evs = [1; 1].
Proof.
  eexists _, _. split; [vm_compute; reflexivity|].
  split; [reflexivity|]. split; [vm_compute; discriminate|].
  repeat split; vm_compute; reflexivity.
Qed.

(** ** The wait for write mode *)

(** [n] polls that find the write-request line high, the clock passing the
    deadline at the next look: the loop gives up and returns [false]. *)
Lemma wait_loop_timeout hw start timeout_us (n : nat) : forall fuel s,
  (n < fuel)%nat ->
  (forall j, (j < n)%nat ->
     timer_us hw (2 * j + tick s) - start < timeout_us /\
     level hw PIN_WREQ (2 * j + 1 + tick s) = true) ->
  timeout_us <= timer_us hw (2 * n + tick s) - start ->
  exists evs,
    wait_loop hw fuel start timeout_us s
      = Some (false, after_ticks (2 * n + 1) s, evs) /\
    prints evs = [] /\
    samples_of PIN_WREQ evs = replicate n 1.
Proof.
  induction n as [|n IH]; intros fuel s Hfuel Hpoll Hend.
  - destruct fuel as [|fuel]; [lia|]. cbn [wait_loop].
    unfold mbind, M_bind, esp_timer_get_time.
    change (2 * 0 + tick s)%nat with (tick s) in Hend.
    destruct (Z.ltb_spec (timer_us hw (tick s) - start) timeout_us); [lia|].
    eexists. split; [reflexivity|]. split; reflexivity.
  - destruct fuel as [|fuel]; [lia|]. cbn [wait_loop].
    destruct (Hpoll 0%nat) as [Ht Hw]; [lia|].
    change (2 * 0 + tick s)%nat with (tick s) in Ht.
    change (2 * 0 + 1 + tick s)%nat with (S (tick s)) in Hw.
    destruct (IH fuel (after_ticks 2 s)) as (evs & Hrun & Hp & Hs).
    + lia.
    + intros j Hj. destruct (Hpoll (S j)) as [Ht' Hw']; [lia|].
      cbn [tick after_ticks].
      replace (2 * j + (2 + tick s))%nat with (2 * S j + tick s)%nat by lia.
      replace (2 * j + 1 + (2 + tick s))%nat with (2 * S j + 1 + tick s)%nat
        by lia.
      split; assumption.
    + cbn [tick after_ticks].
      replace (2 * n + (2 + tick s))%nat with (2 * S n + tick s)%nat by lia.
      exact Hend.
    + unfold mbind, M_bind, esp_timer_get_time, gpio_get_level.
      destruct (Z.ltb_spec (timer_us hw (tick s) - start) timeout_us); [|lia].
      cbn [tick next_tick]. rewrite Hw. cbn [Z.b2z Z.eqb].
      change (next_tick (next_tick s)) with (after_ticks 2 s).
      rewrite Hrun.
      replace (after_ticks (2 * n + 1) (after_ticks 2 s))
        with (after_ticks (2 * S n + 1) s)
        by (unfold after_ticks; cbn [tick capture_buffer capture_len];
            f_equal; lia).
      eexists. split; [reflexivity|]. split.
      * cbn. exact Hp.
      * unfold samples_of in *. cbn. rewrite Hs. reflexivity.
Qed.

(** C9: when every poll of the write-request line during the wait finds it
    high (deasserted) and the clock passes the 50 ms deadline,
    [wait_for_write_mode] returns [false] and the session ends at once: the
    timeout is reported, the length is 0, the array is as it was and nothing
    was stored.  The write-request line was sampled once more, for the
    levels that are printed, by one of the four reads that follow the
    wait; which one is up to the order in which the arguments of that
    [printf] are evaluated. *)
Theorem capture_packet_wait_timeout hw fuel s (n : nat) :
  (n < fuel)%nat ->
  (forall j, (j < n)%nat ->
     timer_us hw (2 * j + 2 + tick s) - timer_us hw (1 + tick s) < 50000 /\
     level hw PIN_WREQ (2 * j + 3 + tick s) = true) ->
  50000 <= timer_us hw (2 * n + 2 + tick s) - timer_us hw (1 + tick s) ->
  (exists s1 e1,
     wait_for_write_mode hw fuel 50000
       (mkState (1 + tick s) (capture_buffer s) 0) = Some (false, s1, e1)) /\
  exists s' evs,
    capture_packet hw fuel s = Some (ExitWaitTimeout, s', evs) /\
    capture_len s' = 0 /\
    capture_buffer s' = capture_buffer s /\
    stores evs = [] /\
    exists wrdata enbl1 enbl2 wrreq,
      prints evs = [DbgWaiting; DbgTimeout; DbgLevels wrdata enbl1 enbl2 wrreq] /\
      samples_of PIN_WREQ evs = replicate n 1 ++ [wrreq] /\
      exists i, (i < 4)%nat /\
        wrreq = Z.b2z (level hw PIN_WREQ (2 * n + 3 + i + tick s)).
Proof.
  intros Hfuel Hpoll Hend.
  set (s1 := mkState (1 + tick s) (capture_buffer s) 0).
  destruct (wait_loop_timeout hw (timer_us hw (1 + tick s)) 50000 n fuel
              (next_tick s1) Hfuel) as (ew & Hwait & Hpw & Hsw).
  { intros j Hj. destruct (Hpoll j Hj) as [Ht Hw]. cbn [tick next_tick s1].
    replace (2 * j + S (1 + tick s))%nat with (2 * j + 2 + tick s)%nat by lia.
    replace (2 * j + 1 + S (1 + tick s))%nat with (2 * j + 3 + tick s)%nat
      by lia.
    split; assumption. }
  { cbn [tick next_tick s1].
    replace (2 * n + S (1 + tick s))%nat with (2 * n + 2 + tick s)%nat by lia.
    exact Hend. }
  assert (Hwm : wait_for_write_mode hw fuel 50000 s1
                = Some (false, after_ticks (2 * n + 1) (next_tick s1),
                        [EvTimer (timer_us hw (1 + tick s))] ++ ew)).
  { unfold wait_for_write_mode.
    eapply bind_run; [reflexivity|exact Hwait]. }
  split; [eauto|].
  set (s2 := after_ticks (2 * n + 1) (next_tick s1)) in *.
  assert (Ht2 : tick s2 = (2 * n + 3 + tick s)%nat) by (cbn; lia).
  pose proof (print_levels_run hw SiteTimeout s2) as Hlevels.
  cbv zeta in Hlevels.
  destruct level_pins_NoDup as [Hnd _].
  destruct (arranged_reads hw (tick s2) (arg_order hw SiteTimeout)
              [PIN_WRDATA; PIN_ENBL1; PIN_ENBL2; PIN_WREQ] PIN_WREQ Hnd
              ltac:(apply (bool_decide_unpack _); reflexivity)) as (Hsamples & i & Hi & Hvalue).
  remember (pin_reads hw (tick s2)
              (arrange (arg_order hw SiteTimeout)
                 [PIN_WRDATA; PIN_ENBL1; PIN_ENBL2; PIN_WREQ])) as vs eqn:Hvs.
  destruct (read_events_quiet vs) as (Hrp & Hrs & _).
  unfold capture_packet.
  eexists _, _. split.
  { eapply bind_run; [reflexivity|].
    eapply bind_run; [reflexivity|].
    eapply bind_run; [reflexivity|].
    eapply bind_run; [exact Hwm|].
    cbn [negb].
    eapply bind_run; [reflexivity|].
    eapply bind_run; [exact Hlevels|]. reflexivity. }
  cbn [capture_len capture_buffer after_ticks next_tick s1 s2].
  split; [reflexivity|]. split; [reflexivity|].
  assert (Hstw : stores ew = []).
  { apply (keeps_wait_loop hw fuel _ _ _ _ _ _ Hwait). }
  split.
  { rewrite !stores_app, Hstw, Hrs. reflexivity. }
  exists (arg_value vs PIN_WRDATA), (arg_value vs PIN_ENBL1),
         (arg_value vs PIN_ENBL2), (arg_value vs PIN_WREQ).
  split; [|split].
  - rewrite !prints_app, Hpw, Hrp. reflexivity.
  - rewrite !samples_of_app, Hsw, Hsamples. cbn [app].
    change (samples_of PIN_WREQ [EvTimer ?t]) with (@nil Z).
    change (samples_of PIN_WREQ [EvPrintf ?l]) with (@nil Z).
    change (samples_of PIN_WREQ []) with (@nil Z).
    rewrite ?app_nil_r. reflexivity.
  - exists i. split; [exact Hi|]. rewrite Hvalue, Ht2. do 2 f_equal. lia.
Qed.

Lemma capture_packet_wait_timeout_witness :
  (25 < 30)%nat /\
  (forall j, (j < 25)%nat ->
     timer_us idle_hw (2 * j + 2 + tick late_sync_capture)
       - timer_us idle_hw (1 + tick late_sync_capture) < 50000 /\
     level idle_hw PIN_WREQ (2 * j + 3 + tick late_sync_capture) = true) /\
  50000 <= timer_us idle_hw (2 * 25 + 2 + tick late_sync_capture)
           - timer_us idle_hw (1 + tick late_sync_capture) /\
  exists s' evs,
    capture_packet idle_hw 30 late_sync_capture
      = Some (ExitWaitTimeout, s', evs) /\
    capture_len s' = 0 /\
    stores evs = [].
Proof.
  assert (H1 : (25 < 30)%nat) by lia.
  assert (H2 : forall j, (j < 25)%nat ->
     timer_us idle_hw (2 * j + 2 + tick late_sync_capture)
       - timer_us idle_hw (1 + tick late_sync_capture) < 50000 /\
     level idle_hw PIN_WREQ (2 * j + 3 + tick late_sync_capture) = true).
  { intros j Hj. split; [|reflexivity].
    change (tick late_sync_capture) with 0%nat.
    cbn [timer_us idle_hw]. lia. }
  assert (H3 : 50000 <= timer_us idle_hw (2 * 25 + 2 + tick late_sync_capture)
                        - timer_us idle_hw (1 + tick late_sync_capture))
    by (vm_compute; discriminate).
  split; [exact H1|]. split; [exact H2|]. split; [exact H3|].
  destruct (capture_packet_wait_timeout idle_hw 30 late_sync_capture 25
              H1 H2 H3)
    as (_ & s' & evs & Hrun & Hl & _ & Hs & _).
  exists s', evs. split; [exact Hrun|]. split; [exact Hl|exact Hs].
Defined.

(** * Further properties *)

(** ** The capture loop ends *)

(** X1: the capture loop cannot hang.  Whatever the lines and the clock do,
    from a length within the array the loop is over after at most
    [128 - capture_len] passes that store a byte and one more look at its
    condition or at the clock. *)
Theorem capture_loop_terminates hw start fuel s :
  0 <= capture_len s <= CAPTURE_SIZE ->
  (Z.to_nat (CAPTURE_SIZE - capture_len s) < fuel)%nat ->
  exists r s' evs,
    capture_loop hw fuel start s = Some (r, s', evs) /\
    r <> ExitWaitTimeout /\
    capture_len s <= capture_len s' <= CAPTURE_SIZE.
Proof.
  revert s. induction fuel as [|fuel IH]; intros s Hlen Hfuel; [lia|].
  cbn [capture_loop]. unfold mbind, M_bind.
  rewrite capture_iter_run by lia. unfold CAPTURE_SIZE in *.
  destruct (Z.ltb_spec (capture_len s) 128) as [Hlt|Hge].
  - destruct (timer_us hw (tick s) - start >? CAPTURE_TIMEOUT_US).
    + eexists _, _, _. split; [reflexivity|].
      split; [discriminate|]. cbn [capture_len after_ticks]. lia.
    + cbv zeta. destruct (enable_condition hw (25 + tick s)).
      * match goal with
        | |- context [capture_loop hw fuel start ?s1] =>
            destruct (IH s1) as (r & s' & evs & Hrun & Hr & Hl);
              [cbn [capture_len]; lia|cbn [capture_len]; lia|]
        end.
        rewrite Hrun. cbn [capture_len] in Hl.
        eexists _, _, _. split; [reflexivity|]. split; [exact Hr|lia].
      * eexists _, _, _. split; [reflexivity|].
        split; [discriminate|]. cbn [capture_len]. lia.
  - eexists _, _, _. split; [reflexivity|]. split; [discriminate|lia].
Qed.

Lemma capture_loop_terminates_witness :
  0 <= capture_len late_sync_capture <= CAPTURE_SIZE /\
  (Z.to_nat (CAPTURE_SIZE - capture_len late_sync_capture) < 120)%nat /\
  exists r s' evs,
    capture_loop slow_hw 120 0 late_sync_capture = Some (r, s', evs).
Proof.
  assert (H1 : 0 <= capture_len late_sync_capture <= CAPTURE_SIZE)
    by (vm_compute; split; discriminate).
  assert (H2 : (Z.to_nat (CAPTURE_SIZE - capture_len late_sync_capture) < 120)%nat)
    by (vm_compute; lia).
  split; [exact H1|]. split; [exact H2|].
  destruct (capture_loop_terminates slow_hw 0 120 late_sync_capture H1 H2)
    as (r & s' & evs & Hrun & _).
  exists r, s', evs. exact Hrun.
Defined.

(** ** How a capture session ends *)

Lemma capture_loop_exit_len hw start fuel : forall s r s' evs,
  0 <= capture_len s <= CAPTURE_SIZE ->
  capture_loop hw fuel start s = Some (r, s', evs) ->
  (r = ExitCaptureTimeout -> capture_len s' < CAPTURE_SIZE) /\
  length (stores evs) = Z.to_nat (capture_len s' - capture_len s).
Proof.
  induction fuel as [|fuel IH]; intros s r s' evs Hlen Hrun; [discriminate|].
  pose proof (capture_loop_inv _ _ _ _ _ _ _ Hlen Hrun) as (Hl & Hst & _).
  split.
  - cbn [capture_loop] in Hrun.
    apply bind_inv in Hrun as (r1 & s1 & e1 & e2 & Hiter & Hrest & ->).
    rewrite capture_iter_run in Hiter by lia. unfold CAPTURE_SIZE in *.
    destruct (Z.ltb_spec (capture_len s) 128) as [Hlt|Hge].
    + destruct (timer_us hw (tick s) - start >? CAPTURE_TIMEOUT_US).
      * injection Hiter as <- <- <-. injection Hrest as <- <- <-.
        intros _. cbn [capture_len after_ticks]. lia.
      * cbv zeta in Hiter.
        remember (25 + tick s)%nat as t25.
        destruct (enable_condition hw t25); injection Hiter as <- <- <-.
        -- apply IH in Hrest as [Ht _]; [exact Ht|cbn [capture_len]; lia].
        -- injection Hrest as <- <- <-. discriminate.
    + injection Hiter as <- <- <-. injection Hrest as <- <- <-. discriminate.
  - apply (f_equal length) in Hst.
    rewrite length_fmap, length_seqZ in Hst. exact Hst.
Qed.

(** X2: the capture timeout.  When, after any number of passes, the loop
    looks at the clock with room left in the array and finds more than
    10000 microseconds gone since the capture began, it ends through its
    timeout exit without reading another byte: the capture is the one of
    the passes made so far, shorter than the array. *)
Theorem capture_loop_timeout hw start (n : nat) fuel s0 s e0 :
  0 <= capture_len s0 <= CAPTURE_SIZE ->
  passes hw start n s0 s e0 ->
  capture_len s < CAPTURE_SIZE ->
  CAPTURE_TIMEOUT_US < timer_us hw (tick s) - start ->
  capture_loop hw (n + S fuel) start s0
    = Some (ExitCaptureTimeout, after_ticks 1 s,
            e0 ++ [EvTimer (timer_us hw (tick s))]) /\
  capture_len s = capture_len s0 + Z.of_nat n /\
  captured (after_ticks 1 s) = captured s.
Proof.
  intros Hlen0 Hpasses Hlen Htime.
  destruct (passes_len _ _ _ _ _ _ Hpasses Hlen0) as [Hl _].
  split; [|split; [exact Hl|reflexivity]].
  apply (capture_loop_passes _ _ _ _ _ _ Hpasses).
  cbn [capture_loop]. unfold mbind, M_bind.
  rewrite capture_iter_run by lia.
  destruct (Z.ltb_spec (capture_len s) CAPTURE_SIZE); [|lia].
  destruct (Z.gtb_spec (timer_us hw (tick s) - start) CAPTURE_TIMEOUT_US);
    [|lia].
  reflexivity.
Qed.

Lemma capture_loop_timeout_witness :
  0 <= capture_len empty_capture <= CAPTURE_SIZE /\
  exists s e0,
    passes slow_hw 0 1 empty_capture s e0 /\
    capture_len s < CAPTURE_SIZE /\
    CAPTURE_TIMEOUT_US < timer_us slow_hw (tick s) - 0 /\
    capture_loop slow_hw 2 0 empty_capture
      = Some (ExitCaptureTimeout, after_ticks 1 s,
              e0 ++ [EvTimer (timer_us slow_hw (tick s))]) /\
    capture_len s = 1.
Proof.
  assert (H0 : 0 <= capture_len empty_capture <= CAPTURE_SIZE)
    by (vm_compute; split; discriminate).
  split; [exact H0|].
  assert (P : exists s e0,
    passes slow_hw 0 1 empty_capture s e0 /\
    capture_len s < CAPTURE_SIZE /\
    CAPTURE_TIMEOUT_US < timer_us slow_hw (tick s) - 0).
  { eexists _, _. split.
    - eapply passes_S; [vm_compute; reflexivity|apply passes_O].
    - split; vm_compute; reflexivity. }
  destruct P as (s & e0 & P & H1 & H2).
  exists s, e0. split; [exact P|]. split; [exact H1|]. split; [exact H2|].
  destruct (capture_loop_timeout slow_hw 0 1 0 empty_capture s e0 H0 P H1 H2)
    as (Hrun & Hl & _).
  split; [exact Hrun|exact Hl].
Defined.

(** X3: what the exit of a session says about its capture.  A session that
    gave up waiting for write mode captured nothing; one that ran into the
    capture timeout captured fewer than 128 bytes; one that was deselected
    captured at least one byte; one that ended on the loop condition
    captured 128.  In every case the length is the number of bytes stored
    during the session. *)
Theorem capture_packet_exit_length hw fuel s r s' evs :
  capture_packet hw fuel s = Some (r, s', evs) ->
  capture_len s' = Z.of_nat (length (stores evs)) /\
  match r with
  | ExitWaitTimeout => capture_len s' = 0
  | ExitCaptureTimeout => 0 <= capture_len s' < CAPTURE_SIZE
  | ExitDeselected => 1 <= capture_len s' <= CAPTURE_SIZE
  | ExitFull => capture_len s' = CAPTURE_SIZE
  end.
Proof.
  intros H.
  apply capture_packet_inv in H
    as [(-> & Hl & _ & Hs & _)
       |(s1 & start & e1 & e2 & Hl1 & _ & Hs1 & _ & Hloop & ->)].
  - rewrite Hs, Hl. split; reflexivity.
  - assert (Hlen1 : 0 <= capture_len s1 <= CAPTURE_SIZE)
      by (rewrite Hl1; unfold CAPTURE_SIZE; lia).
    pose proof (capture_loop_inv _ _ _ _ _ _ _ Hlen1 Hloop)
      as (Hl & _ & _ & _ & Hdes & Hfull & Hnw).
    pose proof (capture_loop_exit_len _ _ _ _ _ _ _ Hlen1 Hloop) as (Hto & Hn).
    rewrite Hl1 in *. rewrite stores_app, Hs1. cbn [app].
    split; [rewrite Hn; lia|].
    destruct r.
    + congruence.
    + specialize (Hto eq_refl). lia.
    + specialize (Hdes eq_refl). lia.
    + exact (Hfull eq_refl).
Qed.

Lemma capture_packet_exit_length_witness :
  exists s' evs,
    capture_packet slow_hw 10 empty_capture
      = Some (ExitCaptureTimeout, s', evs) /\
    capture_len s' = Z.of_nat (length (stores evs)) /\
    0 <= capture_len s' < CAPTURE_SIZE.
Proof.
  destruct (capture_packet slow_hw 10 empty_capture) as [[[r s'] evs]|] eqn:H;
    [|vm_compute in H; discriminate H].
  destruct (capture_packet_exit_length slow_hw 10 empty_capture r s' evs H)
    as (Hn & Hr).
  assert (Hx : r = ExitCaptureTimeout)
    by (vm_compute in H; injection H as <- _ _; reflexivity).
  subst r. exists s', evs. split; [reflexivity|]. split; [exact Hn|exact Hr].
Defined.

(** ** What is captured *)

Lemma msb_first_bound (bits : list bool) :
  0 <= msb_first bits < 2 ^ Z.of_nat (length bits).
Proof.
  unfold msb_first.
  assert (H : forall acc, 0 <= acc ->
    acc * 2 ^ Z.of_nat (length bits)
      <= fold_left (fun a (b : bool) => 2 * a + Z.b2z b) bits acc
      < (acc + 1) * 2 ^ Z.of_nat (length bits)).
  { induction bits as [|b bits IH]; intros acc Hacc.
    - cbn. lia.
    - cbn [fold_left length]. rewrite Nat2Z.inj_succ, Z.pow_succ_r by lia.
      specialize (IH (2 * acc + Z.b2z b)).
      assert (0 < 2 ^ Z.of_nat (length bits)) by (apply Z.pow_pos_nonneg; lia).
      destruct b; cbn [Z.b2z] in *; nia. }
  specialize (H 0). lia.
Qed.

Lemma bits_of_b2z (bits : list bool) :
  (fun v => negb (v =? 0)) <$> (Z.b2z <$> bits) = bits.
Proof.
  induction bits as [|[] bits IH]; cbn; [reflexivity|..]; f_equal; exact IH.
Qed.

Lemma bytes_of_samples_cons (group rest : list Z) :
  length group = 8%nat ->
  bytes_of_samples (group ++ rest) =
  msb_first ((fun v => negb (v =? 0)) <$> group) :: bytes_of_samples rest.
Proof.
  intros Hg. unfold bytes_of_samples.
  rewrite length_app, Hg.
  replace ((8 + length rest) / 8)%nat with (S (length rest / 8)).
  - cbn [bytes_of_bits]. rewrite fmap_app.
    rewrite take_app_length' by (rewrite length_fmap; lia).
    rewrite drop_app_length' by (rewrite length_fmap; lia).
    reflexivity.
  - change (8 + length rest)%nat with (1 * 8 + length rest)%nat.
    rewrite Nat.div_add_l by lia. reflexivity.
Qed.

Lemma bytes_of_bits_range n : forall bits,
  Forall (fun b => 0 <= b < 256) (bytes_of_bits n bits).
Proof.
  induction n as [|n IH]; intros bits; cbn [bytes_of_bits]; constructor.
  - pose proof (msb_first_bound (take 8 bits)) as H.
    assert (2 ^ Z.of_nat (length (take 8 bits)) <= 2 ^ 8).
    { apply Z.pow_le_mono_r; [lia|]. rewrite length_take. lia. }
    lia.
  - apply IH.
Qed.

(** The bytes the capture loop adds are the ones its samples of the
    write-data line make; cells from the new length on are not written. *)
Lemma capture_loop_bytes hw start fuel : forall s r s' evs,
  length (capture_buffer s) = Z.to_nat CAPTURE_SIZE ->
  0 <= capture_len s <= CAPTURE_SIZE ->
  capture_loop hw fuel start s = Some (r, s', evs) ->
  captured s' = captured s ++ bytes_of_samples (samples_of PIN_WRDATA evs) /\
  (stores evs).*2 = bytes_of_samples (samples_of PIN_WRDATA evs) /\
  drop (Z.to_nat (capture_len s')) (capture_buffer s')
    = drop (Z.to_nat (capture_len s')) (capture_buffer s).
Proof.
  induction fuel as [|fuel IH]; intros s r s' evs Hbuf Hlen Hrun;
    [discriminate|].
  pose proof (capture_loop_inv _ _ _ _ _ _ _ Hlen Hrun) as (Hl' & _).
  cbn [capture_loop] in Hrun.
  apply bind_inv in Hrun as (r1 & s1 & e1 & e2 & Hiter & Hrest & ->).
  rewrite capture_iter_run in Hiter by lia. unfold CAPTURE_SIZE in *.
  destruct (Z.ltb_spec (capture_len s) 128) as [Hlt|Hge].
  - destruct (timer_us hw (tick s) - start >? CAPTURE_TIMEOUT_US).
    + injection Hiter as <- <- <-. injection Hrest as <- <- <-.
      cbn. rewrite app_nil_r. repeat split; reflexivity.
    + cbv zeta in Hiter.
      assert (Hsm : samples_of PIN_WRDATA
                (EvTimer (timer_us hw (tick s)) ::
                 byte_events hw (after_ticks 1 s) ++
                 EvStore (capture_len s) (byte_read hw (1 + tick s)) ::
                 enable_events hw (25 + tick s))
              = Z.b2z <$> (sampled_bit hw (after_ticks 1 s) <$> seq 0 8)).
      { unfold enable_events.
        destruct (level hw PIN_ENBL1 (25 + tick s)); reflexivity. }
      assert (Hst : stores
                (EvTimer (timer_us hw (tick s)) ::
                 byte_events hw (after_ticks 1 s) ++
                 EvStore (capture_len s) (byte_read hw (1 + tick s)) ::
                 enable_events hw (25 + tick s))
              = [(capture_len s, byte_read hw (1 + tick s))]).
      { unfold enable_events.
        destruct (level hw PIN_ENBL1 (25 + tick s)); reflexivity. }
      remember (EvTimer (timer_us hw (tick s)) ::
                byte_events hw (after_ticks 1 s) ++
                EvStore (capture_len s) (byte_read hw (1 + tick s)) ::
                enable_events hw (25 + tick s)) as E eqn:HE.
      set (v := byte_read hw (1 + tick s)) in *.
      set (s2 := mkState (enable_ticks hw (25 + tick s) + (25 + tick s))
                         (<[Z.to_nat (capture_len s) := v]> (capture_buffer s))
                         (capture_len s + 1)) in *.
      assert (Hcap2 : captured s2 = captured s ++ [v]).
      { unfold captured, s2. cbn [capture_len capture_buffer].
        replace (Z.to_nat (capture_len s + 1))
          with (S (Z.to_nat (capture_len s))) by lia.
        rewrite (take_S_r _ _ v) by (apply list_lookup_insert_eq; lia).
        rewrite take_insert_ge by lia. reflexivity. }
      assert (Hgroup : bytes_of_samples
                (Z.b2z <$> (sampled_bit hw (after_ticks 1 s) <$> seq 0 8))
              = [v]) by (unfold bytes_of_samples; rewrite bits_of_b2z; reflexivity).
      assert (Hcons : forall rest,
        bytes_of_samples
          ((Z.b2z <$> (sampled_bit hw (after_ticks 1 s) <$> seq 0 8)) ++ rest)
        = v :: bytes_of_samples rest).
      { intros rest. rewrite bytes_of_samples_cons by reflexivity.
        rewrite bits_of_b2z. reflexivity. }
      remember (25 + tick s)%nat as t25.
      destruct (enable_condition hw t25); injection Hiter as <- <- <-;
        unfold samples_of in *;
        rewrite omap_app, stores_app, Hsm, Hst, Hcons.
      * pose proof Hrest as Hrest'.
        apply capture_loop_inv in Hrest' as ((Hl2 & _) & _);
          [|unfold s2, CAPTURE_SIZE; cbn [capture_len]; lia].
        unfold s2 in Hl2; cbn [capture_len] in Hl2.
        apply IH in Hrest as (Hc & Hs & Hd);
          [|unfold s2; cbn [capture_buffer]; rewrite length_insert; exact Hbuf
           |unfold s2, CAPTURE_SIZE; cbn [capture_len]; lia].
        fold (samples_of PIN_WRDATA e2) in *.
        split; [rewrite Hc, Hcap2, <- app_assoc; reflexivity|].
        split; [cbn [fmap list_fmap app snd]; rewrite Hs; reflexivity|].
        rewrite Hd. unfold s2. cbn [capture_buffer capture_len] in *.
        apply drop_insert_lt. lia.
      * injection Hrest as <- <- <-.
        split; [rewrite Hcap2; reflexivity|]. split; [reflexivity|].
        unfold s2. cbn [capture_buffer capture_len].
        apply drop_insert_lt. lia.
  - injection Hiter as <- <- <-. injection Hrest as <- <- <-.
    cbn. rewrite app_nil_r. repeat split; reflexivity.
Qed.

(** X4: the capture loop turns the write-data line into bytes.  The bytes it
    appends to the capture are those made by its samples of the line, taken
    in groups of eight, the first sample of a group being the most
    significant bit; there is one byte for each unit of length gained and
    each is a byte value. *)
Theorem capture_loop_assembles hw start fuel s r s' evs :
  length (capture_buffer s) = Z.to_nat CAPTURE_SIZE ->
  0 <= capture_len s <= CAPTURE_SIZE ->
  capture_loop hw fuel start s = Some (r, s', evs) ->
  let bytes := bytes_of_samples (samples_of PIN_WRDATA evs) in
  captured s' = captured s ++ bytes /\
  Z.of_nat (length bytes) = capture_len s' - capture_len s /\
  Forall (fun b => 0 <= b < 256) bytes.
Proof.
  intros Hbuf Hlen Hrun bytes.
  destruct (capture_loop_bytes _ _ _ _ _ _ _ Hbuf Hlen Hrun) as (Hc & Hs & _).
  destruct (capture_loop_exit_len _ _ _ _ _ _ _ Hlen Hrun) as (_ & Hn).
  pose proof (capture_loop_inv _ _ _ _ _ _ _ Hlen Hrun) as (Hl & _).
  split; [exact Hc|]. split.
  - subst bytes. rewrite <- Hs, length_fmap, Hn. lia.
  - apply bytes_of_bits_range.
Qed.

Lemma capture_loop_assembles_witness :
  length (capture_buffer late_sync_capture) = Z.to_nat CAPTURE_SIZE /\
  0 <= capture_len late_sync_capture <= CAPTURE_SIZE /\
  exists r s' evs,
    capture_loop pattern_hw 3 0 late_sync_capture = Some (r, s', evs) /\
    captured s' =
      captured late_sync_capture ++
      bytes_of_samples (samples_of PIN_WRDATA evs).
Proof.
  assert (H1 : length (capture_buffer late_sync_capture) = Z.to_nat CAPTURE_SIZE)
    by reflexivity.
  assert (H2 : 0 <= capture_len late_sync_capture <= CAPTURE_SIZE)
    by (vm_compute; split; discriminate).
  split; [exact H1|]. split; [exact H2|].
  destruct (capture_loop pattern_hw 3 0 late_sync_capture)
    as [[[r s'] evs]|] eqn:H; [|vm_compute in H; discriminate H].
  exists r, s', evs. split; [reflexivity|].
  exact (proj1 (capture_loop_assembles pattern_hw 0 3 late_sync_capture
                  r s' evs H1 H2 H)).
Defined.

(** X5: what a session leaves in the array.  After a session on an array of
    the declared size the captured bytes are the values stored during the
    session, in the order of the stores, each a byte value; the length is
    within the array; and the cells from the new length on hold what they
    held before the session, which does not clear the array. *)
Theorem capture_packet_captured hw fuel s r s' evs :
  length (capture_buffer s) = Z.to_nat CAPTURE_SIZE ->
  capture_packet hw fuel s = Some (r, s', evs) ->
  wf_state s' /\
  captured s' = (stores evs).*2 /\
  Forall (fun b => 0 <= b < 256) (captured s') /\
  drop (Z.to_nat (capture_len s')) (capture_buffer s')
    = drop (Z.to_nat (capture_len s')) (capture_buffer s).
Proof.
  intros Hbuf H.
  apply capture_packet_inv in H
    as [(_ & Hl & Hb & Hs & _)
       |(s1 & start & e1 & e2 & Hl1 & Hb1 & Hs1 & _ & Hloop & ->)].
  - unfold wf_state, captured. rewrite Hl, Hb, Hs. cbn [Z.to_nat take].
    unfold CAPTURE_SIZE in *.
    split; [split; [exact Hbuf|lia]|]. split; [reflexivity|].
    split; [constructor|reflexivity].
  - assert (Hlen1 : 0 <= capture_len s1 <= CAPTURE_SIZE)
      by (rewrite Hl1; unfold CAPTURE_SIZE; lia).
    assert (Hbuf1 : length (capture_buffer s1) = Z.to_nat CAPTURE_SIZE)
      by (rewrite Hb1; exact Hbuf).
    pose proof (capture_loop_bytes _ _ _ _ _ _ _ Hbuf1 Hlen1 Hloop)
      as (Hc & Hs & Hd).
    pose proof (capture_loop_inv _ _ _ _ _ _ _ Hlen1 Hloop)
      as (Hl & _ & Hb & _).
    assert (Hc1 : captured s1 = []) by (unfold captured; rewrite Hl1; reflexivity).
    rewrite Hc1 in Hc. cbn [app] in Hc.
    rewrite stores_app, Hs1. cbn [app]. rewrite Hl1 in Hl.
    split; [split; [congruence|lia]|].
    split; [congruence|]. split; [|congruence].
    rewrite Hc. apply bytes_of_bits_range.
Qed.

Lemma capture_packet_captured_witness :
  length (capture_buffer late_sync_capture) = Z.to_nat CAPTURE_SIZE /\
  exists r s' evs,
    capture_packet slow_hw 10 late_sync_capture = Some (r, s', evs) /\
    wf_state s' /\
    captured s' = (stores evs).*2.
Proof.
  assert (H1 : length (capture_buffer late_sync_capture) = Z.to_nat CAPTURE_SIZE)
    by reflexivity.
  split; [exact H1|].
  destruct (capture_packet slow_hw 10 late_sync_capture)
    as [[[r s'] evs]|] eqn:H; [|vm_compute in H; discriminate H].
  exists r, s', evs. split; [reflexivity|].
  destruct (capture_packet_captured slow_hw 10 late_sync_capture r s' evs H1 H)
    as (Hwf & Hc & _).
  split; [exact Hwf|exact Hc].
Defined.

(** ** The wait for write mode, found and not found *)

Lemma wait_loop_found hw start timeout_us (n : nat) : forall fuel s,
  (n < fuel)%nat ->
  (forall j, (j <= n)%nat ->
     timer_us hw (2 * j + tick s) - start < timeout_us) ->
  (forall j, (j < n)%nat -> level hw PIN_WREQ (2 * j + 1 + tick s) = true) ->
  level hw PIN_WREQ (2 * n + 1 + tick s) = false ->
  exists evs,
    wait_loop hw fuel start timeout_us s
      = Some (true, after_ticks (2 * n + 2) s, evs) /\
    samples_of PIN_WREQ evs = replicate n 1 ++ [0].
Proof.
  induction n as [|n IH]; intros fuel s Hfuel Htime Hhigh Hlow;
    (destruct fuel as [|fuel]; [lia|]); cbn [wait_loop];
    pose proof (Htime 0%nat ltac:(lia)) as Ht;
    change (2 * 0 + tick s)%nat with (tick s) in Ht;
    unfold mbind, M_bind, esp_timer_get_time, gpio_get_level;
    (destruct (Z.ltb_spec (timer_us hw (tick s) - start) timeout_us); [|lia]);
    cbn [tick next_tick].
  - change (2 * 0 + 1 + tick s)%nat with (S (tick s)) in Hlow.
    rewrite Hlow. cbn [Z.b2z Z.eqb].
    eexists. split; reflexivity.
  - pose proof (Hhigh 0%nat ltac:(lia)) as Hw.
    change (2 * 0 + 1 + tick s)%nat with (S (tick s)) in Hw.
    rewrite Hw. cbn [Z.b2z Z.eqb].
    change (next_tick (next_tick s)) with (after_ticks 2 s).
    destruct (IH fuel (after_ticks 2 s)) as (evs & Hrun & Hs).
    + lia.
    + intros j Hj. cbn [tick after_ticks].
      replace (2 * j + (2 + tick s))%nat with (2 * S j + tick s)%nat by lia.
      apply Htime. lia.
    + intros j Hj. cbn [tick after_ticks].
      replace (2 * j + 1 + (2 + tick s))%nat with (2 * S j + 1 + tick s)%nat
        by lia.
      apply Hhigh. lia.
    + cbn [tick after_ticks].
      replace (2 * n + 1 + (2 + tick s))%nat with (2 * S n + 1 + tick s)%nat
        by lia.
      exact Hlow.
    + rewrite Hrun.
      replace (after_ticks (2 * n + 2) (after_ticks 2 s))
        with (after_ticks (2 * S n + 2) s)
        by (unfold after_ticks; cbn [tick capture_buffer capture_len];
            f_equal; lia).
      eexists. split; [reflexivity|].
      unfold samples_of in *. cbn. rewrite Hs. reflexivity.
Qed.

(** X6: write mode found.  When the polls of the write-request line find it
    high [n] times and low the next time, the clock staying within the
    timeout at each look, [wait_for_write_mode] returns [true] right after
    that poll. *)
Theorem wait_for_write_mode_found hw fuel timeout_us s (n : nat) :
  (n < fuel)%nat ->
  (forall j, (j <= n)%nat ->
     timer_us hw (2 * j + 1 + tick s) - timer_us hw (tick s) < timeout_us) ->
  (forall j, (j < n)%nat -> level hw PIN_WREQ (2 * j + 2 + tick s) = true) ->
  level hw PIN_WREQ (2 * n + 2 + tick s) = false ->
  exists evs,
    wait_for_write_mode hw fuel timeout_us s
      = Some (true, after_ticks (2 * n + 3) s, evs) /\
    samples_of PIN_WREQ evs = replicate n 1 ++ [0].
Proof.
  intros Hfuel Htime Hhigh Hlow.
  destruct (wait_loop_found hw (timer_us hw (tick s)) timeout_us n fuel
              (next_tick s) Hfuel) as (evs & Hrun & Hs).
  - intros j Hj. cbn [tick next_tick].
    replace (2 * j + S (tick s))%nat with (2 * j + 1 + tick s)%nat by lia.
    apply Htime. exact Hj.
  - intros j Hj. cbn [tick next_tick].
    replace (2 * j + 1 + S (tick s))%nat with (2 * j + 2 + tick s)%nat by lia.
    apply Hhigh. exact Hj.
  - cbn [tick next_tick].
    replace (2 * n + 1 + S (tick s))%nat with (2 * n + 2 + tick s)%nat by lia.
    exact Hlow.
  - unfold wait_for_write_mode.
    exists ([EvTimer (timer_us hw (tick s))] ++ evs). split.
    + replace (after_ticks (2 * n + 3) s)
        with (after_ticks (2 * n + 2) (next_tick s))
        by (unfold after_ticks, next_tick;
            cbn [tick capture_buffer capture_len]; f_equal; lia).
      eapply bind_run; [reflexivity|exact Hrun].
    + exact Hs.
Qed.

Lemma wait_for_write_mode_found_witness :
  (2 < 5)%nat /\
  (forall j, (j <= 2)%nat ->
     timer_us (request_hw 6) (2 * j + 1 + tick empty_capture)
       - timer_us (request_hw 6) (tick empty_capture) < 50000) /\
  (forall j, (j < 2)%nat ->
     level (request_hw 6) PIN_WREQ (2 * j + 2 + tick empty_capture) = true) /\
  level (request_hw 6) PIN_WREQ (2 * 2 + 2 + tick empty_capture) = false /\
  exists evs,
    wait_for_write_mode (request_hw 6) 5 50000 empty_capture
      = Some (true, after_ticks 7 empty_capture, evs).
Proof.
  assert (H1 : (2 < 5)%nat) by lia.
  assert (H2 : forall j, (j <= 2)%nat ->
     timer_us (request_hw 6) (2 * j + 1 + tick empty_capture)
       - timer_us (request_hw 6) (tick empty_capture) < 50000).
  { intros j Hj. change (tick empty_capture) with 0%nat.
    cbn [timer_us request_hw]. lia. }
  assert (H3 : forall j, (j < 2)%nat ->
     level (request_hw 6) PIN_WREQ (2 * j + 2 + tick empty_capture) = true).
  { intros j Hj. destruct j as [|[|j]]; [reflexivity|reflexivity|lia]. }
  assert (H4 : level (request_hw 6) PIN_WREQ (2 * 2 + 2 + tick empty_capture)
               = false) by reflexivity.
  split; [exact H1|]. split; [exact H2|]. split; [exact H3|].
  split; [exact H4|].
  destruct (wait_for_write_mode_found (request_hw 6) 5 50000 empty_capture 2
              H1 H2 H3 H4) as (evs & Hrun & _).
  exists evs. exact Hrun.
Defined.

Lemma wait_loop_sound hw start timeout_us fuel : forall s b s' evs,
  wait_loop hw fuel start timeout_us s = Some (b, s', evs) ->
  exists n : nat,
    samples_of PIN_WREQ evs = replicate n 1 ++ (if b then [0] else []) /\
    tick s' = ((if b then 2 * n + 2 else 2 * n + 1) + tick s)%nat /\
    (forall j, (j < n)%nat ->
       timer_us hw (2 * j + tick s) - start < timeout_us) /\
    (if b then timer_us hw (2 * n + tick s) - start < timeout_us
     else timeout_us <= timer_us hw (2 * n + tick s) - start).
Proof.
  induction fuel as [|fuel IH]; intros s b s' evs Hrun; [discriminate|].
  cbn [wait_loop] in Hrun.
  unfold mbind, M_bind, esp_timer_get_time, gpio_get_level in Hrun.
  destruct (Z.ltb_spec (timer_us hw (tick s) - start) timeout_us) as [Hin|Hout].
  - cbn [tick next_tick] in Hrun.
    destruct (level hw PIN_WREQ (S (tick s))); cbn [Z.b2z Z.eqb] in Hrun.
    + change (next_tick (next_tick s)) with (after_ticks 2 s) in Hrun.
      destruct (wait_loop hw fuel start timeout_us (after_ticks 2 s))
        as [[[b1 s1] e1]|] eqn:Hrec; [|discriminate].
      injection Hrun as <- <- <-.
      apply IH in Hrec as (n & Hs & Ht & Hbefore & Hlast).
      cbn [tick after_ticks] in *.
      exists (S n). split; [|split; [|split]].
      * unfold samples_of in *. cbn. rewrite Hs. reflexivity.
      * rewrite Ht. destruct b1; lia.
      * intros j Hj. destruct j as [|j]; [exact Hin|].
        replace (2 * S j + tick s)%nat with (2 * j + (2 + tick s))%nat by lia.
        apply Hbefore. lia.
      * replace (2 * S n + tick s)%nat with (2 * n + (2 + tick s))%nat by lia.
        exact Hlast.
    + injection Hrun as <- <- <-. exists 0%nat.
      split; [reflexivity|]. split; [reflexivity|].
      split; [intros j Hj; lia|exact Hin].
  - injection Hrun as <- <- <-. exists 0%nat.
    split; [reflexivity|]. split; [reflexivity|].
    split; [intros j Hj; lia|exact Hout].
Qed.

(** X7: [wait_for_write_mode] answers by what it saw.  Whenever it returns,
    all its polls of the write-request line but the last found the line
    high and were made with the clock within the timeout; it returns [true]
    exactly when its last poll found the line low, and [false] only on a
    look at the clock that shows the timeout used up.  It does not touch the
    capture. *)
Theorem wait_for_write_mode_sound hw fuel timeout_us s b s' evs :
  wait_for_write_mode hw fuel timeout_us s = Some (b, s', evs) ->
  (exists n : nat,
     samples_of PIN_WREQ evs = replicate n 1 ++ (if b then [0] else []) /\
     tick s' = ((if b then 2 * n + 3 else 2 * n + 2) + tick s)%nat /\
     (forall j, (j < n)%nat ->
        timer_us hw (2 * j + 1 + tick s) - timer_us hw (tick s) < timeout_us) /\
     (if b
      then timer_us hw (2 * n + 1 + tick s) - timer_us hw (tick s) < timeout_us
      else timeout_us
           <= timer_us hw (2 * n + 1 + tick s) - timer_us hw (tick s))) /\
  (b = true <-> In 0 (samples_of PIN_WREQ evs)) /\
  capture_len s' = capture_len s /\
  capture_buffer s' = capture_buffer s /\
  stores evs = [].
Proof.
  intros Hrun.
  pose proof (keeps_wait_for_write_mode hw fuel timeout_us _ _ _ _ Hrun)
    as (Hl & Hb & Hs & _).
  unfold wait_for_write_mode in Hrun.
  apply bind_inv in Hrun as (t0 & s1 & e1 & e2 & Ht0 & Hloop & ->).
  injection Ht0 as <- <- <-.
  apply wait_loop_sound in Hloop as (n & Hsm & Ht & Hbefore & Hlast).
  cbn [tick next_tick] in *.
  assert (Hsamples : samples_of PIN_WREQ
            ([EvTimer (timer_us hw (tick s))] ++ e2)
          = replicate n 1 ++ (if b then [0] else [])) by exact Hsm.
  split; [|split; [|split; [exact Hl|split; [exact Hb|exact Hs]]]].
  - exists n. split; [exact Hsamples|]. split; [rewrite Ht; destruct b; lia|].
    split.
    + intros j Hj.
      replace (2 * j + 1 + tick s)%nat with (2 * j + S (tick s))%nat by lia.
      apply Hbefore. exact Hj.
    + replace (2 * n + 1 + tick s)%nat with (2 * n + S (tick s))%nat by lia.
      exact Hlast.
  - rewrite Hsamples. destruct b.
    + split; [intros _|reflexivity]. apply in_or_app. right. left. reflexivity.
    + split; [discriminate|]. rewrite app_nil_r. intros Hin.
      apply list_elem_of_In, elem_of_replicate in Hin as [Hin _].
      discriminate Hin.
Qed.

Lemma wait_for_write_mode_sound_witness :
  exists b s' evs,
    wait_for_write_mode (request_hw 6) 5 50000 empty_capture
      = Some (b, s', evs) /\
    (b = true <-> In 0 (samples_of PIN_WREQ evs)).
Proof.
  destruct (wait_for_write_mode (request_hw 6) 5 50000 empty_capture)
    as [[[b s'] evs]|] eqn:H; [|vm_compute in H; discriminate H].
  exists b, s', evs. split; [reflexivity|].
  exact (proj1 (proj2 (wait_for_write_mode_sound (request_hw 6) 5 50000
                         empty_capture b s' evs H))).
Defined.

(** ** The activity check *)

Lemma changes_bounds a l :
  0 <= changes (a :: l) <= Z.of_nat (length l).
Proof.
  revert a. induction l as [|b l IH]; intros a.
  - cbn. lia.
  - cbn [changes length]. specialize (IH b).
    cbn [changes] in IH. destruct (a =? b); lia.
Qed.

Lemma changes_zero a l :
  changes (a :: l) = 0 <-> Forall (fun x => x = a) l.
Proof.
  revert a. induction l as [|b l IH]; intros a.
  - cbn. split; [constructor|reflexivity].
  - cbn [changes]. pose proof (changes_bounds b l) as Hb.
    cbn [changes] in Hb. specialize (IH b). cbn [changes] in IH.
    rewrite Forall_cons. destruct (Z.eqb_spec a b) as [->|Hne].
    + rewrite Z.add_0_l, IH. split; [intros H; split; [reflexivity|exact H]|].
      intros [_ H]; exact H.
    + split; [lia|]. intros [H _]. congruence.
Qed.

Lemma Forall_eq_replicate (a : Z) l :
  Forall (fun x => x = a) l <-> l = replicate (length l) a.
Proof.
  induction l as [|b l IH]; cbn [length replicate].
  - split; [reflexivity|constructor].
  - rewrite Forall_cons, IH. split.
    + intros [-> Hl]. f_equal. exact Hl.
    + intros H. injection H as -> H. split; [reflexivity|exact H].
Qed.

Lemma high_samples_cons (b : bool) l :
  high_samples (Z.b2z b :: l) = (if b then 1 else 0) + high_samples l.
Proof.
  unfold high_samples. rewrite filter_cons.
  destruct b; cbn [Z.b2z]; case_decide; cbn [length]; lia.
Qed.

Lemma read_wrdata_run hw s :
  read_wrdata hw s =
  Some (level hw PIN_WRDATA (tick s), next_tick s,
        [EvGpio PIN_WRDATA (Z.b2z (level hw PIN_WRDATA (tick s)))]).
Proof.
  unfold read_wrdata, mbind, M_bind, gpio_get_level, mret, M_ret.
  destruct (level hw PIN_WRDATA (tick s)); reflexivity.
Qed.

Lemma activity_loop_counts hw start timeout_us fuel :
  forall last high samp tr s r s' evs,
    activity_loop hw fuel start timeout_us last high samp tr s
      = Some (r, s', evs) ->
    r = (samp + Z.of_nat (length (samples_of PIN_WRDATA evs)),
         high + high_samples (samples_of PIN_WRDATA evs),
         tr + changes (Z.b2z last :: samples_of PIN_WRDATA evs)) /\
    prints evs = [].
Proof.
  induction fuel as [|fuel IH]; intros last high samp tr s r s' evs Hrun;
    [discriminate|].
  cbn [activity_loop] in Hrun.
  apply bind_inv in Hrun as (now & s1 & e1 & e2 & Ht & Hrun & ->).
  injection Ht as <- <- <-.
  destruct (timer_us hw (tick s) - start <? timeout_us).
  - apply bind_inv in Hrun as (l & s2 & e3 & e4 & Hrd & Hrun & ->).
    rewrite read_wrdata_run in Hrd. injection Hrd as <- <- <-.
    cbn [tick next_tick] in Hrun.
    set (l := level hw PIN_WRDATA (S (tick s))) in *.
    assert (Hrec : activity_loop hw fuel start timeout_us l
                      (if l then high + 1 else high) (samp + 1)
                      (tr + (if Bool.eqb l last then 0 else 1))
                      (next_tick (next_tick s)) = Some (r, s', e4)).
    { destruct (Bool.eqb l last) eqn:E; cbn [negb] in Hrun.
      - apply Bool.eqb_prop in E. rewrite Z.add_0_r, E. rewrite E in Hrun.
        exact Hrun.
      - exact Hrun. }
    apply IH in Hrec as (-> & Hp).
    assert (Hsm : samples_of PIN_WRDATA
              ([EvTimer (timer_us hw (tick s))] ++
               [EvGpio PIN_WRDATA (Z.b2z l)] ++ e4)
            = Z.b2z l :: samples_of PIN_WRDATA e4) by reflexivity.
    rewrite Hsm. split; [|exact Hp].
    rewrite high_samples_cons.
    change (changes (Z.b2z last :: Z.b2z l :: samples_of PIN_WRDATA e4))
      with ((if Z.b2z last =? Z.b2z l then 0 else 1)
            + changes (Z.b2z l :: samples_of PIN_WRDATA e4)).
    cbn [length]. clearbody l.
    f_equal; [f_equal|].
    + lia.
    + destruct l; lia.
    + destruct l, last; cbn -[changes Z.add]; lia.
  - injection Hrun as <- <- <-. cbn.
    split; [|reflexivity]. f_equal; [f_equal|]; unfold high_samples; cbn; lia.
Qed.

(** The loop of [check_wrdata_activity] ends when the clock has passed the
    deadline at one of its looks, the fuel lasting until then. *)
Lemma activity_loop_returns hw start timeout_us (n : nat) :
  forall fuel last high samp tr s,
    (n < fuel)%nat ->
    timeout_us <= timer_us hw (2 * n + tick s) - start ->
    exists r s' evs,
      activity_loop hw fuel start timeout_us last high samp tr s
        = Some (r, s', evs).
Proof.
  induction n as [|n IH]; intros fuel last high samp tr s Hfuel Hend;
    (destruct fuel as [|fuel]; [lia|]); cbn [activity_loop];
    unfold mbind at 1, M_bind at 1, esp_timer_get_time.
  - change (2 * 0 + tick s)%nat with (tick s) in Hend.
    destruct (Z.ltb_spec (timer_us hw (tick s) - start) timeout_us); [lia|].
    eexists _, _, _. reflexivity.
  - destruct (timer_us hw (tick s) - start <? timeout_us).
    + unfold mbind at 1, M_bind at 1. rewrite read_wrdata_run.
      cbn [tick next_tick].
      set (l := level hw PIN_WRDATA (S (tick s))).
      assert (Hend' : timeout_us
                      <= timer_us hw (2 * n + tick (next_tick (next_tick s)))
                         - start).
      { cbn [tick next_tick].
        replace (2 * n + S (S (tick s)))%nat with (2 * S n + tick s)%nat
          by lia.
        exact Hend. }
      destruct (negb (Bool.eqb l last)).
      * destruct (IH fuel l (if l then high + 1 else high) (samp + 1)
                    (tr + 1) _ ltac:(lia) Hend') as (r & s' & evs & ->).
        eexists _, _, _. reflexivity.
      * destruct (IH fuel last (if l then high + 1 else high) (samp + 1)
                    tr _ ltac:(lia) Hend') as (r & s' & evs & ->).
        eexists _, _, _. reflexivity.
    + eexists _, _, _. reflexivity.
Qed.

(** X8: what [check_wrdata_activity] counts.  It returns once the clock
    has passed the deadline at one of the looks of its loop, the fuel
    lasting until then.  The value it returns is the
    number of its samples of the write-data line that differ from the
    sample before, the first one included in the samples; the line it
    prints gives the number of samples, the number of high ones and that
    count.  The count is 0 exactly when all the samples are equal, and it
    is less than the number of samples.  The capture is not touched. *)
Theorem check_wrdata_activity_counts hw fuel timeout_us s :
  (forall n : nat,
     (n < fuel)%nat ->
     timeout_us <= timer_us hw (2 * n + 2 + tick s) - timer_us hw (tick s) ->
     exists tr s' evs,
       check_wrdata_activity hw fuel timeout_us s = Some (tr, s', evs)) /\
  forall tr s' evs,
    check_wrdata_activity hw fuel timeout_us s = Some (tr, s', evs) ->
    let samples := samples_of PIN_WRDATA evs in
    tr = changes samples /\
    prints evs =
      [DbgWrdata (Z.of_nat (length samples)) (high_samples samples) tr] /\
    0 <= tr < Z.of_nat (length samples) /\
    (tr = 0 <-> exists v, samples = replicate (length samples) v) /\
    capture_len s' = capture_len s /\ capture_buffer s' = capture_buffer s /\
    stores evs = [].
Proof.
  split.
  { intros n Hfuel Hend. unfold check_wrdata_activity.
    unfold mbind at 1, M_bind at 1, esp_timer_get_time.
    unfold mbind at 1, M_bind at 1. rewrite read_wrdata_run.
    cbn [tick next_tick].
    set (l := level hw PIN_WRDATA (S (tick s))).
    destruct (activity_loop_returns hw (timer_us hw (tick s)) timeout_us n
                fuel l (if l then 1 else 0) 1 0 (next_tick (next_tick s))
                Hfuel) as ([[samp high] tr] & s' & evs & Hloop).
    { cbn [tick next_tick].
      replace (2 * n + S (S (tick s)))%nat with (2 * n + 2 + tick s)%nat
        by lia.
      exact Hend. }
    unfold mbind at 1, M_bind at 1. rewrite Hloop.
    eexists _, _, _. reflexivity. }
  intros tr s' evs Hrun samples.
  pose proof (keeps_check_wrdata_activity hw fuel timeout_us _ _ _ _ Hrun)
    as (Hl & Hb & Hs & _).
  unfold check_wrdata_activity in Hrun.
  apply bind_inv in Hrun as (t0 & s1 & e1 & e2 & Ht0 & Hrun & ->).
  injection Ht0 as <- <- <-.
  apply bind_inv in Hrun as (last & s2 & e2' & e3 & Hlast & Hrun & ->).
  rewrite read_wrdata_run in Hlast.
  cbn [tick next_tick] in Hlast. injection Hlast as <- <- <-.
  set (l := level hw PIN_WRDATA (S (tick s))) in *.
  apply bind_inv in Hrun as ([[samp high] tr'] & s3 & e4 & e5 & Hloop & Hrun & ->).
  apply activity_loop_counts in Hloop as (Hr & Hp).
  apply pair_equal_spec in Hr as [Hr ->].
  apply pair_equal_spec in Hr as [-> ->].
  remember (changes (Z.b2z l :: samples_of PIN_WRDATA e4)) as c eqn:Hc.
  apply bind_inv in Hrun as ([] & s4 & e6 & e7 & Hpr & Hret & ->).
  injection Hpr as <- <-. injection Hret as <- <- <-.
  assert (Hsm : samples = Z.b2z l :: samples_of PIN_WRDATA e4).
  { subst samples. unfold samples_of. rewrite !omap_app. cbn.
    rewrite app_nil_r. reflexivity. }
  rewrite Hsm, <- Hc.
  pose proof (changes_bounds (Z.b2z l) (samples_of PIN_WRDATA e4)) as Hbd.
  rewrite <- Hc in Hbd.
  split; [lia|]. split.
  - rewrite !prints_app, Hp. cbn [prints omap list_omap app length].
    rewrite high_samples_cons.
    replace (Z.of_nat (S (length (samples_of PIN_WRDATA e4))))
      with (1 + Z.of_nat (length (samples_of PIN_WRDATA e4))) by lia.
    reflexivity.
  - split; [cbn [length]; lia|]. split; [|auto].
    rewrite Z.add_0_l, Hc, changes_zero, Forall_eq_replicate. split.
    + intros Hall. exists (Z.b2z l). cbn [length replicate]. f_equal.
      exact Hall.
    + intros (v & Hv). cbn [length replicate] in Hv. injection Hv as <- Hv.
      exact Hv.
Qed.

Lemma check_wrdata_activity_counts_witness :
  (9 < 12)%nat /\
  2000 <= timer_us toggle_hw (2 * 9 + 2 + tick empty_capture)
          - timer_us toggle_hw (tick empty_capture) /\
  exists s' evs,
    check_wrdata_activity toggle_hw 12 2000 empty_capture = Some (4, s', evs) /\
    samples_of PIN_WRDATA evs = [1; 1; 0; 0; 1; 1; 0; 0; 1; 1] /\
    4 = changes (samples_of PIN_WRDATA evs) /\
    prints evs = [DbgWrdata 10 6 4].
Proof.
  assert (H1 : (9 < 12)%nat) by lia.
  assert (H2 : 2000 <= timer_us toggle_hw (2 * 9 + 2 + tick empty_capture)
                       - timer_us toggle_hw (tick empty_capture))
    by (vm_compute; discriminate).
  split; [exact H1|]. split; [exact H2|].
  destruct (check_wrdata_activity_counts toggle_hw 12 2000 empty_capture)
    as (Hreturns & Hcounts).
  destruct (Hreturns 9%nat H1 H2) as (tr & s' & evs & H).
  pose proof H as Hv. vm_compute in Hv. injection Hv as <- <- <-.
  match type of H with
  | _ = Some (_, ?s0, ?e0) => exists s0, e0
  end.
  destruct (Hcounts _ _ _ H) as (Htr & Hp & _).
  split; [exact H|]. split; [reflexivity|]. split; [exact Htr|exact Hp].
Defined.

(** ** Analysis after capture *)

Lemma calls_app e1 e2 : calls (e1 ++ e2) = calls e1 ++ calls e2.
Proof. apply omap_app. Qed.

Lemma observes_ret {A} (a : A) : observes (mret a).
Proof. intros s a' s' evs H. injection H as <- <- <-. auto. Qed.

Lemma observes_bind {A B} (m : M A) (f : A -> M B) :
  observes m -> (forall a, observes (f a)) -> observes (m ≫= f).
Proof.
  intros Hm Hf s b s' evs H.
  apply bind_inv in H as (a & s1 & e1 & e2 & H1 & H2 & ->).
  apply Hm in H1 as (-> & Hs1 & Hc1).
  apply Hf in H2 as (-> & Hs2 & Hc2).
  rewrite stores_app, calls_app, Hs1, Hs2, Hc1, Hc2. auto.
Qed.

Lemma observes_printf l : observes (printf l).
Proof. intros s a s' evs H. injection H as <- <- <-. auto. Qed.

Lemma observes_load i : observes (load i).
Proof. intros s a s' evs H. injection H as <- <- <-. auto. Qed.

Lemma observes_get_capture_len : observes get_capture_len.
Proof. intros s a s' evs H. injection H as <- <- <-. auto. Qed.

Lemma observes_if {A} (c : bool) (m1 m2 : M A) :
  observes m1 -> observes m2 -> observes (if c then m1 else m2).
Proof. destruct c; auto. Qed.

#[local] Hint Resolve observes_ret observes_bind observes_printf observes_load
  observes_get_capture_len observes_if : capture.

Lemma observes_for n : forall i (body : Z -> M unit),
  (forall j, observes (body j)) -> observes (for_ n i body).
Proof.
  induction n as [|n IH]; intros i body Hbody; cbn [for_]; auto with capture.
Qed.

Lemma observes_sync_match pat : forall i j, observes (sync_match pat i j).
Proof.
  induction pat as [|p pat IH]; intros i j; cbn [sync_match];
    auto 10 with capture.
Qed.

Lemma observes_find_sync_from n : forall i, observes (find_sync_from n i).
Proof.
  induction n as [|n IH]; intros i; cbn [find_sync_from].
  - auto with capture.
  - apply observes_bind; [apply observes_sync_match|].
    intros m. auto with capture.
Qed.

Lemma observes_find_sync_pattern : observes find_sync_pattern.
Proof.
  unfold find_sync_pattern.
  apply observes_bind; [apply observes_get_capture_len|]. intros len.
  apply observes_if; [apply observes_ret|apply observes_find_sync_from].
Qed.

Lemma observes_scan_uniform n : forall i az ao,
  observes (scan_uniform n i az ao).
Proof.
  induction n as [|n IH]; intros i az ao; cbn [scan_uniform];
    auto 10 with capture.
Qed.

Lemma observes_analyze_capture : observes analyze_capture.
Proof.
  unfold analyze_capture.
  apply observes_bind; [apply observes_get_capture_len|]. intros len.
  apply observes_bind; [apply observes_printf|]. intros _. cbv zeta.
  apply observes_bind.
  { apply observes_for. intros j. auto with capture. }
  intros _. apply observes_bind; [auto with capture|]. intros _.
  apply observes_bind; [apply observes_printf|]. intros _.
  apply observes_bind; [apply observes_find_sync_pattern|]. intros so.
  apply observes_if.
  - unfold analyze_packet. auto 20 with capture.
  - unfold analyze_no_sync.
    apply observes_bind; [apply observes_get_capture_len|]. intros n.
    apply observes_bind; [apply observes_scan_uniform|]. intros [az ao].
    auto with capture.
Qed.

(** X9: analysis after capture.  The state a session leaves, on an array of
    the declared size, is one [analyze_capture] can run on: it returns, all
    its reads of the array fall within the captured bytes, and it only
    looks, storing nothing and making no hardware call.  After a wait
    timeout it reports a capture of 0 bytes and the all-zeros warning,
    whatever the array holds. *)
Theorem capture_then_analyze hw fuel s r s' evs :
  length (capture_buffer s) = Z.to_nat CAPTURE_SIZE ->
  capture_packet hw fuel s = Some (r, s', evs) ->
  exists evs',
    analyze_capture s' = Some (tt, s', evs') /\
    safe_loads s' evs' /\
    stores evs' = [] /\ calls evs' = [] /\
    (r = ExitWaitTimeout ->
     prints evs' = [LCapture 0; LNewline; WarnAllZero]).
Proof.
  intros Hbuf H.
  assert (Hwf : wf_state s').
  { pose proof H as H'.
    apply capture_packet_inv in H'
      as [(_ & Hl & Hb & _)
         |(s1 & start & e1 & e2 & Hl1 & Hb1 & _ & _ & Hloop & _)].
    - split; [congruence|rewrite Hl; unfold CAPTURE_SIZE; lia].
    - apply capture_loop_inv in Hloop as (Hl & _ & Hb & _);
        [|rewrite Hl1; unfold CAPTURE_SIZE; lia].
      split; [congruence|lia]. }
  destruct (analyze_capture_run s' Hwf)
    as (r0 & e1 & e2 & e3 & _ & Hrun & Hp1 & Hs1 & Hp2 & Hs2 & Hrest & Hr).
  exists (e1 ++ e2 ++ e3). split; [exact Hrun|].
  destruct (observes_analyze_capture _ _ _ _ Hrun) as (_ & Hst & Hca).
  assert (Hcase : safe_loads s' e3 /\
                  (capture_len s' = 0 ->
                   prints e3 = [uniform_class (captured s')])).
  { destruct Hr as [[-> _]|(Hr0 & Hr1 & _)].
    - destruct (analyze_no_sync_run s' Hwf) as (e & He & Hsafe & Hp).
      change (-1 >=? 0) with false in Hrest. cbv iota in Hrest.
      rewrite Hrest in He. injection He as <-. auto.
    - destruct (analyze_packet_run s' r0) as (e & He & Hl & _).
      { destruct Hwf as [_ Hlen]. unfold INT_MAX, CAPTURE_SIZE in *. lia. }
      destruct (Z.geb_spec r0 0); [|lia].
      rewrite Hrest in He. injection He as <-.
      split; [|intros Hz; lia].
      unfold safe_loads. rewrite Hl.
      destruct (Z.ltb_spec (r0 + 6) (capture_len s')); [|constructor].
      constructor; [lia|].
      destruct (byte_at s' (r0 + 6) =? 195); [|constructor].
      destruct (Z.ltb_spec (r0 + 14) (capture_len s')); [|constructor].
      repeat (constructor; [lia|]). constructor. }
  destruct Hcase as (Hs3 & Hp3).
  split; [repeat apply safe_loads_app; assumption|].
  split; [exact Hst|]. split; [exact Hca|].
  intros ->.
  apply capture_packet_inv in H
    as [(_ & Hl & _)|(s1 & start & e1' & e2' & Hl1 & _ & _ & _ & Hloop & _)].
  - rewrite !prints_app, Hp1, Hp2, (Hp3 Hl).
    unfold dump_lines, captured. rewrite Hl. reflexivity.
  - apply capture_loop_inv in Hloop as (_ & _ & _ & _ & _ & _ & Hnw);
      [congruence|rewrite Hl1; unfold CAPTURE_SIZE; lia].
Qed.

Lemma capture_then_analyze_witness :
  length (capture_buffer late_sync_capture) = Z.to_nat CAPTURE_SIZE /\
  exists s' evs evs',
    capture_packet idle_hw 30 late_sync_capture
      = Some (ExitWaitTimeout, s', evs) /\
    analyze_capture s' = Some (tt, s', evs') /\
    prints evs' = [LCapture 0; LNewline; WarnAllZero].
Proof.
  assert (H1 : length (capture_buffer late_sync_capture) = Z.to_nat CAPTURE_SIZE)
    by reflexivity.
  split; [exact H1|].
  destruct (capture_packet idle_hw 30 late_sync_capture)
    as [[[r s'] evs]|] eqn:H; [|vm_compute in H; discriminate H].
  assert (Hr : r = ExitWaitTimeout)
    by (vm_compute in H; injection H as <- _ _; reflexivity).
  subst r.
  destruct (capture_then_analyze idle_hw 30 late_sync_capture _ s' evs H1 H)
    as (evs' & Hrun & _ & _ & _ & Hp).
  exists s', evs, evs'. split; [reflexivity|]. split; [exact Hrun|].
  exact (Hp eq_refl).
Defined.

(** ** More on what [analyze_capture] prints *)

Lemma captured_lookup_lt s (i : nat) :
  wf_state s ->
  Z.of_nat i < capture_len s ->
  captured s !! i = Some (byte_at s (Z.of_nat i)).
Proof.
  intros [Hbuf Hlen] Hi. unfold captured, byte_at, CAPTURE_SIZE in *.
  rewrite Nat2Z.id.
  destruct (lookup_lt_is_Some_2 (capture_buffer s) i) as [x Hx]; [lia|].
  rewrite Hx. apply lookup_take_Some. split; [exact Hx|lia].
Qed.

(** X10: no packet start.  When the byte that follows the leftmost sync
    marker is not 0xC3, or the capture ends with the marker, the report is
    the dump and the sync line and nothing else: no packet line, no header,
    no warning. *)
Theorem analyze_capture_no_packet_start s (k : nat) :
  wf_state s ->
  sync_at (captured s) k ->
  (forall j, (j < k)%nat -> ~ sync_at (captured s) j) ->
  captured s !! (k + 6)%nat <> Some 0xC3 ->
  exists evs,
    analyze_capture s = Some (tt, s, evs) /\
    prints evs = dump_lines s ++ [LSync (Z.of_nat k)].
Proof.
  intros Hwf Hk Hmin Hc3.
  destruct (analyze_capture_run s Hwf)
    as (r & e1 & e2 & e3 & _ & Hrun & Hp1 & Hs1 & Hp2 & Hs2 & Hrest & Hr).
  destruct (leftmost_found s r k Hr Hk Hmin) as [-> Hfit].
  destruct (analyze_packet_run s (Z.of_nat k)) as (e3' & Hrun3 & Hl3 & Hp3).
  { destruct Hwf as [_ Hlen]. unfold INT_MAX, CAPTURE_SIZE in *. lia. }
  destruct (Z.geb_spec (Z.of_nat k) 0); [|lia].
  rewrite Hrest in Hrun3. injection Hrun3 as <-.
  assert (Hno : (Z.of_nat k + 6 <? capture_len s)
                && (byte_at s (Z.of_nat k + 6) =? 195) = false).
  { destruct (Z.ltb_spec (Z.of_nat k + 6) (capture_len s)) as [Hlt|];
      [|reflexivity].
    destruct (Z.eqb_spec (byte_at s (Z.of_nat k + 6)) 195) as [Heq|];
      [|reflexivity].
    exfalso. apply Hc3.
    rewrite (captured_lookup_lt s (k + 6) Hwf) by lia.
    replace (Z.of_nat (k + 6)) with (Z.of_nat k + 6) by lia.
    rewrite Heq. reflexivity. }
  exists (e1 ++ e2 ++ e3). split; [exact Hrun|].
  rewrite !prints_app, Hp1, Hp2, Hp3, Hno. reflexivity.
Qed.

Lemma no_start_capture_wf : wf_state no_start_capture.
Proof. split; [reflexivity|]. vm_compute. split; discriminate. Qed.

Lemma analyze_capture_no_packet_start_witness :
  wf_state no_start_capture /\
  sync_at (captured no_start_capture) 0 /\
  (forall j, (j < 0)%nat -> ~ sync_at (captured no_start_capture) j) /\
  captured no_start_capture !! (0 + 6)%nat <> Some 0xC3 /\
  exists evs,
    analyze_capture no_start_capture = Some (tt, no_start_capture, evs) /\
    prints evs = dump_lines no_start_capture ++ [LSync 0].
Proof.
  assert (Hmin : forall j, (j < 0)%nat -> ~ sync_at (captured no_start_capture) j)
    by (intros j Hj; lia).
  assert (Hc3 : captured no_start_capture !! (0 + 6)%nat <> Some 0xC3)
    by (vm_compute; discriminate).
  split; [exact no_start_capture_wf|]. split; [reflexivity|].
  split; [exact Hmin|]. split; [exact Hc3|].
  exact (analyze_capture_no_packet_start no_start_capture 0
           no_start_capture_wf eq_refl Hmin Hc3).
Defined.

Lemma no_sync_replicate (v : Z) n k : ~ sync_at (replicate n v) k.
Proof.
  unfold sync_at. rewrite drop_replicate, take_replicate.
  change (length SYNC_PATTERN) with 6%nat.
  destruct (6 `min` (n - k))%nat as [|[|m]]; cbn; try discriminate.
  intros H. injection H as -> H. discriminate H.
Qed.

Lemma uniform_class_replicate (v : Z) n :
  uniform_class (replicate n v) =
  if (v =? 0) || (n =? 0)%nat then WarnAllZero
  else if v =? 0xFF then WarnAllOne else InfoNoSync.
Proof.
  unfold uniform_class. destruct n as [|n]; [rewrite orb_true_r; reflexivity|].
  cbn [Nat.eqb]. rewrite orb_false_r. cbn [replicate forallb].
  assert (Hall : forall w m, forallb (fun b => b =? w) (replicate m w) = true).
  { intros w m. apply forallb_Forall_eq, Forall_eq_replicate.
    rewrite length_replicate. reflexivity. }
  destruct (Z.eqb_spec v 0) as [->|H0].
  - rewrite Hall. reflexivity.
  - cbn [andb]. destruct (Z.eqb_spec v 255) as [->|H1]; [|reflexivity].
    rewrite Hall. reflexivity.
Qed.

(** Every byte the capture loop stores while the write-data line stays at
    one level is the byte of eight bits of that level. *)
Lemma capture_loop_constant hw start (b : bool) fuel : forall s r s' evs,
  (forall n, level hw PIN_WRDATA n = b) ->
  0 <= capture_len s ->
  capture_loop hw fuel start s = Some (r, s', evs) ->
  Forall (fun v => v = if b then 0xFF else 0x00) (stores evs).*2.
Proof.
  induction fuel as [|fuel IH]; intros s r s' evs Hconst Hlen Hrun;
    [discriminate|].
  cbn [capture_loop] in Hrun.
  apply bind_inv in Hrun as (r1 & s1 & e1 & e2 & Hiter & Hrest & ->).
  rewrite capture_iter_run in Hiter by lia.
  destruct (capture_len s <? CAPTURE_SIZE).
  - destruct (timer_us hw (tick s) - start >? CAPTURE_TIMEOUT_US).
    + injection Hiter as <- <- <-. injection Hrest as <- <- <-. constructor.
    + cbv zeta in Hiter.
      assert (Hv : byte_read hw (1 + tick s) = if b then 0xFF else 0x00).
      { unfold byte_read. cbn [fmap list_fmap seq]. rewrite !Hconst.
        destruct b; reflexivity. }
      assert (Hst : stores
                (EvTimer (timer_us hw (tick s)) ::
                 byte_events hw (after_ticks 1 s) ++
                 EvStore (capture_len s) (byte_read hw (1 + tick s)) ::
                 enable_events hw (25 + tick s))
              = [(capture_len s, byte_read hw (1 + tick s))]).
      { unfold enable_events.
        destruct (level hw PIN_ENBL1 (25 + tick s)); reflexivity. }
      remember (EvTimer (timer_us hw (tick s)) ::
                byte_events hw (after_ticks 1 s) ++
                EvStore (capture_len s) (byte_read hw (1 + tick s)) ::
                enable_events hw (25 + tick s)) as E eqn:HE.
      remember (byte_read hw (1 + tick s)) as v eqn:Hveq.
      remember (25 + tick s)%nat as t25.
      destruct (enable_condition hw t25); injection Hiter as <- <- <-;
        rewrite stores_app, Hst; cbn [app fmap list_fmap snd];
        (constructor; [exact Hv|]).
      * eapply IH; [exact Hconst| |exact Hrest]. cbn [capture_len]. lia.
      * injection Hrest as <- <- <-. constructor.
  - injection Hiter as <- <- <-. injection Hrest as <- <- <-. constructor.
Qed.

(** X11: a stuck write-data line.  When the line stays at one level during
    a session, every captured byte is 0xFF (line high) or 0x00 (line low),
    and the analysis of that capture ends with the matching warning: all
    zeros for a low line, all ones for a high line that gave at least one
    byte.  A high line with an empty capture is reported as all zeros. *)
Theorem stuck_line_report hw fuel (b : bool) s r s' evs :
  length (capture_buffer s) = Z.to_nat CAPTURE_SIZE ->
  (forall n, level hw PIN_WRDATA n = b) ->
  capture_packet hw fuel s = Some (r, s', evs) ->
  captured s' =
    replicate (Z.to_nat (capture_len s')) (if b then 0xFF else 0x00) /\
  exists evs',
    analyze_capture s' = Some (tt, s', evs') /\
    prints evs' =
      dump_lines s' ++
      [if b && (0 <? capture_len s') then WarnAllOne else WarnAllZero].
Proof.
  intros Hbuf Hconst H.
  assert (Hfacts : wf_state s' /\
                   Forall (fun v => v = if b then 0xFF else 0x00) (captured s')).
  { apply capture_packet_inv in H
      as [(_ & Hl & Hb & _)
         |(s1 & start & e1 & e2 & Hl1 & Hb1 & _ & _ & Hloop & _)].
    - split; [split; [congruence|rewrite Hl; unfold CAPTURE_SIZE; lia]|].
      unfold captured. rewrite Hl. constructor.
    - assert (Hlen1 : 0 <= capture_len s1 <= CAPTURE_SIZE)
        by (rewrite Hl1; unfold CAPTURE_SIZE; lia).
      assert (Hbuf1 : length (capture_buffer s1) = Z.to_nat CAPTURE_SIZE)
        by congruence.
      pose proof (capture_loop_bytes _ _ _ _ _ _ _ Hbuf1 Hlen1 Hloop)
        as (Hc & Hs & _).
      pose proof (capture_loop_inv _ _ _ _ _ _ _ Hlen1 Hloop)
        as (Hl & _ & Hb & _).
      pose proof (capture_loop_constant _ _ b _ _ _ _ _ Hconst
                    (proj1 Hlen1) Hloop) as Hall.
      split; [split; [congruence|lia]|].
      rewrite Hc. unfold captured at 1. rewrite Hl1. cbn [Z.to_nat take app].
      rewrite <- Hs. exact Hall. }
  destruct Hfacts as (Hwf & Hall).
  apply Forall_eq_replicate in Hall.
  rewrite (captured_length s' Hwf) in Hall.
  split; [exact Hall|].
  destruct (analyze_capture_run s' Hwf)
    as (r0 & e1 & e2 & e3 & _ & Hrun & Hp1 & _ & Hp2 & _ & Hrest & Hr).
  assert (Hr1 : r0 = -1).
  { destruct Hr as [[-> _]|(_ & _ & Hat & _)]; [reflexivity|].
    rewrite Hall in Hat. destruct (no_sync_replicate _ _ _ Hat). }
  subst r0. change (-1 >=? 0) with false in Hrest. cbv iota in Hrest.
  destruct (analyze_no_sync_run s' Hwf) as (e & He & _ & Hp3).
  rewrite Hrest in He. injection He as <-.
  exists (e1 ++ e2 ++ e3). split; [exact Hrun|].
  rewrite !prints_app, Hp1, Hp2, Hp3. do 2 f_equal.
  rewrite Hall at 1. rewrite uniform_class_replicate.
  destruct Hwf as [_ Hlen].
  destruct b; cbn [andb orb Z.eqb].
  - destruct (Z.ltb_spec 0 (capture_len s')).
    + destruct (Nat.eqb_spec (Z.to_nat (capture_len s')) 0); [lia|reflexivity].
    + destruct (Nat.eqb_spec (Z.to_nat (capture_len s')) 0); [reflexivity|lia].
  - reflexivity.
Qed.

Lemma stuck_line_report_witness :
  length (capture_buffer late_sync_capture) = Z.to_nat CAPTURE_SIZE /\
  (forall n, level slow_hw PIN_WRDATA n = true) /\
  exists r s' evs evs',
    capture_packet slow_hw 10 late_sync_capture = Some (r, s', evs) /\
    captured s' = [0xFF] /\
    analyze_capture s' = Some (tt, s', evs') /\
    prints evs' = dump_lines s' ++ [WarnAllOne].
Proof.
  assert (H1 : length (capture_buffer late_sync_capture) = Z.to_nat CAPTURE_SIZE)
    by reflexivity.
  assert (H2 : forall n, level slow_hw PIN_WRDATA n = true)
    by (intros n; reflexivity).
  split; [exact H1|]. split; [exact H2|].
  destruct (capture_packet slow_hw 10 late_sync_capture)
    as [[[r s'] evs]|] eqn:H; [|vm_compute in H; discriminate H].
  destruct (stuck_line_report slow_hw 10 true late_sync_capture r s' evs
              H1 H2 H) as (Hc & evs' & Hrun & Hp).
  assert (Hl : capture_len s' = 1)
    by (vm_compute in H; injection H as _ <- _; reflexivity).
  rewrite Hl in Hc, Hp.
  exists r, s', evs, evs'. split; [reflexivity|].
  split; [exact Hc|]. split; [exact Hrun|exact Hp].
Defined.

(** ** The main loop *)

Lemma pack_bits (b3 b2 b1 b0 : bool) :
  let g := to_uint8 (Z.lor (Z.lor (Z.lor (Z.shiftl (Z.b2z b3) 3)
                                         (Z.shiftl (Z.b2z b2) 2))
                                  (Z.shiftl (Z.b2z b1) 1)) (Z.b2z b0)) in
  0 <= g <= 15 /\
  g = 8 * Z.b2z b3 + 4 * Z.b2z b2 + 2 * Z.b2z b1 + Z.b2z b0 /\
  sig_bit 3 g = Z.b2z b3 /\ sig_bit 2 g = Z.b2z b2 /\
  sig_bit 1 g = Z.b2z b1 /\ sig_bit 0 g = Z.b2z b0 /\
  ((g =? 0x0A) || (g =? 0x0B) = b3 && negb b2 && b1).
Proof. destruct b3, b2, b1, b0; vm_compute; intuition discriminate. Qed.

(** X12: [read_phases] reads each of the four phase lines once and nothing
    else, and packs the levels into a nibble, PHI3 in bit 3 down to PHI0 in
    bit 0.  The enable test of [app_main], phases 0x0A or 0x0B, holds
    exactly when PHI3 and PHI1 are high and PHI2 is low, whatever PHI0 is. *)
Theorem read_phases_enable_pattern hw s :
  exists (b3 b2 b1 b0 : bool) v evs,
    read_phases hw s = Some (v, after_ticks 4 s, evs) /\
    samples_of PIN_PHI3 evs = [Z.b2z b3] /\
    samples_of PIN_PHI2 evs = [Z.b2z b2] /\
    samples_of PIN_PHI1 evs = [Z.b2z b1] /\
    samples_of PIN_PHI0 evs = [Z.b2z b0] /\
    calls evs = evs /\ length evs = 4%nat /\
    v = 8 * Z.b2z b3 + 4 * Z.b2z b2 + 2 * Z.b2z b1 + Z.b2z b0 /\
    ((v =? 0x0A) || (v =? 0x0B) = b3 && negb b2 && b1).
Proof.
  destruct s as [t buf len].
  exists (level hw PIN_PHI3 t), (level hw PIN_PHI2 (1 + t)),
         (level hw PIN_PHI1 (2 + t)), (level hw PIN_PHI0 (3 + t)).
  eexists _, _. split; [reflexivity|].
  pose proof (pack_bits (level hw PIN_PHI3 t) (level hw PIN_PHI2 (1 + t))
                (level hw PIN_PHI1 (2 + t)) (level hw PIN_PHI0 (3 + t)))
    as (_ & Hv & _ & _ & _ & _ & Hen).
  repeat split; try reflexivity; assumption.
Qed.

Lemma after_ticks_add a b s :
  after_ticks a (after_ticks b s) = after_ticks (a + b) s.
Proof. unfold after_ticks. cbn [tick capture_buffer capture_len]. f_equal. lia. Qed.

Lemma pass_ticks_S n t : pass_ticks (S n) t = t :: pass_ticks n (6 + t).
Proof.
  unfold pass_ticks. cbn [seq fmap list_fmap]. f_equal.
  rewrite <- (fmap_S_seq 0 n), <- list_fmap_compose.
  apply list_fmap_ext. intros _ k _. cbn. lia.
Qed.

Lemma sample_signals_run hw s :
  sample_signals hw s =
    Some (sig_sample hw (tick s), after_ticks 4 s,
          take 4 (sample_events hw (tick s))).
Proof. destruct s as [t buf len]. reflexivity. Qed.

Lemma fast_sample_loop_run hw n : forall (i : nat) sl wl s,
  (i + n <= length sl)%nat -> (i + n <= length wl)%nat ->
  fast_sample_loop hw n (Z.of_nat i) sl wl s =
    Some ((take i sl ++ (sig_sample hw <$> pass_ticks n (tick s))
             ++ drop (i + n) sl,
           take i wl ++ (wrdata_sample hw <$> pass_ticks n (tick s))
             ++ drop (i + n) wl),
          after_ticks (6 * n) s,
          pass_ticks n (tick s) ≫= sample_events hw).
Proof.
  induction n as [|n IH]; intros i sl wl s Hsl Hwl.
  - cbn [fast_sample_loop]. unfold pass_ticks. cbn [seq fmap list_fmap app].
    rewrite Nat.add_0_r, !take_drop. destruct s; reflexivity.
  - cbn [fast_sample_loop]. rewrite pass_ticks_S.
    eapply (bind_run _ _ _ _ _ (take 4 (sample_events hw (tick s))));
      [apply sample_signals_run|].
    eapply (bind_run _ _ _ _ _
              [EvGpio PIN_WRDATA (Z.b2z (level hw PIN_WRDATA (4 + tick s)))]);
      [apply read_wrdata_run|].
    eapply (bind_run _ _ _ _ _ [EvDelay 2]); [reflexivity|].
    replace (Z.of_nat i + 1) with (Z.of_nat (S i)) by lia.
    rewrite Nat2Z.id.
    rewrite IH by (rewrite length_insert; lia).
    cbn [tick next_tick after_ticks capture_buffer capture_len].
    change (S (S (4 + tick s))) with (6 + tick s)%nat.
    rewrite (take_S_r _ _ (sig_sample hw (tick s)))
      by (apply list_lookup_insert_eq; lia).
    rewrite (take_S_r _ _ (wrdata_sample hw (tick s)))
      by (apply list_lookup_insert_eq; lia).
    rewrite !take_insert_ge, !drop_insert_lt by lia.
    rewrite <- !app_assoc.
    replace (S i + n)%nat with (i + S n)%nat by lia.
    replace (after_ticks (6 * n) (next_tick (next_tick (after_ticks 4 s))))
      with (after_ticks (6 * S n) s)
      by (unfold after_ticks, next_tick;
          cbn [tick capture_buffer capture_len]; f_equal; lia).
    reflexivity.
Qed.

Lemma sig_sample_bits hw t :
  0 <= sig_sample hw t <= 15 /\
  sig_bit 3 (sig_sample hw t) = Z.b2z (level hw PIN_WRDATA t) /\
  sig_bit 2 (sig_sample hw t) = Z.b2z (level hw PIN_WREQ (1 + t)) /\
  sig_bit 1 (sig_sample hw t) = Z.b2z (level hw PIN_ENBL1 (2 + t)) /\
  sig_bit 0 (sig_sample hw t) = Z.b2z (level hw PIN_ENBL2 (3 + t)).
Proof.
  pose proof (pack_bits (level hw PIN_WRDATA t) (level hw PIN_WREQ (1 + t))
                (level hw PIN_ENBL1 (2 + t)) (level hw PIN_ENBL2 (3 + t)))
    as (H & _ & H3 & H2 & H1 & H0 & _).
  unfold sig_sample. auto.
Qed.

Lemma sample_events_log hw ts :
  let evs := ts ≫= sample_events hw in
  let sl := sig_sample hw <$> ts in
  let wl := wrdata_sample hw <$> ts in
  Forall (fun g => 0 <= g <= 15) sl /\
  Forall (fun w => w = 0 \/ w = 1) wl /\
  samples_of PIN_WREQ evs = sig_bit 2 <$> sl /\
  samples_of PIN_ENBL1 evs = sig_bit 1 <$> sl /\
  samples_of PIN_ENBL2 evs = sig_bit 0 <$> sl /\
  samples_of PIN_WRDATA evs =
    mjoin (zip_with (fun g w => [sig_bit 3 g; w]) sl wl) /\
  prints evs = [] /\ stores evs = [] /\ loads evs = [] /\
  delays evs = replicate (length ts) 2 /\
  length evs = (6 * length ts)%nat.
Proof.
  induction ts as [|t ts IH]; cbv zeta.
  - cbn. repeat split; constructor.
  - cbv zeta in IH.
    destruct IH as (Hr & Hw & H2 & H1 & H0 & H3 & Hp & Hs & Hl & Hd & Hn).
    destruct (sig_sample_bits hw t) as (Hrange & B3 & B2 & B1 & B0).
    change ((t :: ts) ≫= sample_events hw)
      with (sample_events hw t ++ (ts ≫= sample_events hw)).
    rewrite !samples_of_app, prints_app, stores_app, loads_app.
    unfold delays in *. rewrite omap_app.
    rewrite H2, H1, H0, H3, Hp, Hs, Hl, Hd.
    cbn [fmap list_fmap zip_with mjoin list_join].
    rewrite B3, B2, B1, B0.
    repeat split; try reflexivity.
    + constructor; assumption.
    + constructor; [|assumption].
      unfold wrdata_sample. destruct (level hw PIN_WRDATA (4 + t)); auto.
    + rewrite length_app, Hn. cbn [length sample_events]. lia.
Qed.

(** X13: the fast sampling of [app_main].  [n] passes over logs of [n]
    cells overwrite every cell, so that nothing of an earlier command
    stays in them.  Each pass reads write-data, write-request and the two
    enable lines once into the signal log (bits 3, 2, 1 and 0 of the entry),
    reads write-data a second time into the write-data log and waits 2
    microseconds; it prints nothing and stays away from the capture array.
    Unpacking the log gives back the samples in the order they were
    taken. *)
Theorem fast_sample_log hw (n : nat) sl wl s :
  length sl = n -> length wl = n ->
  exists sl' wl' evs,
    fast_sample_loop hw n 0 sl wl s
      = Some ((sl', wl'), after_ticks (6 * n) s, evs) /\
    length sl' = n /\ length wl' = n /\
    Forall (fun g => 0 <= g <= 15) sl' /\
    Forall (fun w => w = 0 \/ w = 1) wl' /\
    samples_of PIN_WREQ evs = sig_bit 2 <$> sl' /\
    samples_of PIN_ENBL1 evs = sig_bit 1 <$> sl' /\
    samples_of PIN_ENBL2 evs = sig_bit 0 <$> sl' /\
    samples_of PIN_WRDATA evs =
      mjoin (zip_with (fun g w => [sig_bit 3 g; w]) sl' wl') /\
    prints evs = [] /\ stores evs = [] /\ loads evs = [] /\
    delays evs = replicate n 2 /\
    length evs = (6 * n)%nat.
Proof.
  intros Hsl Hwl.
  pose proof (fast_sample_loop_run hw n 0 sl wl s) as Hrun.
  rewrite !take_0 in Hrun. cbn [app Nat.add] in Hrun.
  change (Z.of_nat 0) with 0 in Hrun.
  rewrite !drop_ge, !app_nil_r in Hrun by lia.
  specialize (Hrun ltac:(lia) ltac:(lia)).
  pose proof (sample_events_log hw (pass_ticks n (tick s))) as Hlog.
  cbv zeta in Hlog.
  assert (Hlen : length (pass_ticks n (tick s)) = n)
    by (unfold pass_ticks; rewrite length_fmap, length_seq; reflexivity).
  rewrite Hlen in Hlog.
  eexists _, _, _. split; [exact Hrun|].
  rewrite !length_fmap, Hlen. split; [reflexivity|]. split; [reflexivity|].
  exact Hlog.
Qed.

Lemma fast_sample_log_witness :
  length [7; 7] = 2%nat /\ length [9; 9] = 2%nat /\
  exists sl' wl' evs,
    fast_sample_loop pattern_hw 2 0 [7; 7] [9; 9] late_sync_capture
      = Some ((sl', wl'), after_ticks (6 * 2) late_sync_capture, evs) /\
    length sl' = 2%nat /\
    samples_of PIN_WREQ evs = sig_bit 2 <$> sl' /\
    prints evs = [].
Proof.
  split; [reflexivity|]. split; [reflexivity|].
  destruct (fast_sample_log pattern_hw 2 [7; 7] [9; 9] late_sync_capture
              eq_refl eq_refl)
    as (sl' & wl' & evs & Hrun & Hl & _ & _ & _ & H2 & _ & _ & _ & Hp & _).
  exists sl', wl', evs. auto.
Defined.

Lemma abind_run {A B} (m : App A) (f : A -> App B) s a s1 e1 b s2 e2 :
  m s = Some (a, s1, e1) ->
  f a s1 = Some (b, s2, e2) ->
  (m ≫= f) s = Some (b, s2, e1 ++ e2).
Proof. intros H1 H2. unfold mbind, App_bind. rewrite H1, H2. reflexivity. Qed.

Lemma abind_inv {A B} (m : App A) (f : A -> App B) s b s2 e :
  (m ≫= f) s = Some (b, s2, e) ->
  exists a s1 e1 e2,
    m s = Some (a, s1, e1) /\ f a s1 = Some (b, s2, e2) /\ e = e1 ++ e2.
Proof.
  unfold mbind, App_bind. intros H.
  destruct (m s) as [[[a s1] e1]|]; [|discriminate].
  destruct (f a s1) as [[[b' s2'] e2]|] eqn:Hf; [|discriminate].
  injection H as -> -> <-. eauto 8.
Qed.

Lemma reports_app e1 e2 : reports (e1 ++ e2) = reports e1 ++ reports e2.
Proof. apply omap_app. Qed.

Lemma hw_events_app e1 e2 :
  hw_events (e1 ++ e2) = hw_events e1 ++ hw_events e2.
Proof. apply omap_app. Qed.

Lemma outputs_app e1 e2 : outputs (e1 ++ e2) = outputs e1 ++ outputs e2.
Proof. apply omap_app. Qed.

Lemma task_delays_app e1 e2 :
  task_delays (e1 ++ e2) = task_delays e1 ++ task_delays e2.
Proof. apply omap_app. Qed.

Lemma sig_bit_testbit k g : 0 <= k -> sig_bit k g = Z.b2z (Z.testbit g k).
Proof.
  intros Hk. unfold sig_bit. change 1 with (Z.ones 1).
  rewrite Z.land_ones by lia. change (2 ^ 1) with 2.
  rewrite <- Z.bit0_mod, Z.shiftr_spec by lia. reflexivity.
Qed.

Lemma land_pow2 g k : 0 <= k -> Z.land g (2 ^ k) = sig_bit k g * 2 ^ k.
Proof.
  intros Hk. rewrite sig_bit_testbit by lia.
  apply Z.bits_inj'. intros n Hn.
  rewrite Z.land_spec, Z.pow2_bits_eqb by lia.
  destruct (Z.eqb_spec k n) as [->|Hne].
  - destruct (Z.testbit g n); cbn [Z.b2z andb].
    + rewrite Z.mul_1_l, Z.pow2_bits_true by lia. reflexivity.
    + rewrite Z.mul_0_l, Z.bits_0. reflexivity.
  - rewrite andb_false_r.
    destruct (Z.testbit g k); cbn [Z.b2z].
    + rewrite Z.mul_1_l, Z.pow2_bits_false by lia. reflexivity.
    + rewrite Z.mul_0_l, Z.bits_0. reflexivity.
Qed.

Lemma sig_bit_01 k g : 0 <= k -> sig_bit k g = 0 \/ sig_bit k g = 1.
Proof.
  intros Hk. rewrite sig_bit_testbit by lia.
  destruct (Z.testbit g k); auto.
Qed.

Lemma land_4_zero g : (Z.land g 0x04 =? 0) = (sig_bit 2 g =? 0).
Proof.
  change 0x04 with (2 ^ 2). rewrite land_pow2 by lia.
  destruct (sig_bit_01 2 g ltac:(lia)) as [-> | ->]; reflexivity.
Qed.

Lemma land_8_zero g : (Z.land g 0x08 =? 0) = negb (sig_bit 3 g =? 1).
Proof.
  change 0x08 with (2 ^ 3). rewrite land_pow2 by lia.
  destruct (sig_bit_01 3 g ltac:(lia)) as [-> | ->]; reflexivity.
Qed.

Lemma count_of_cons v x l :
  count_of v (x :: l) = (if x =? v then 1 else 0) + count_of v l.
Proof.
  unfold count_of. rewrite filter_cons.
  destruct (Z.eqb_spec x v); case_decide; try contradiction;
    cbn [length]; lia.
Qed.

Lemma count_of_bounds v l : 0 <= count_of v l <= Z.of_nat (length l).
Proof.
  unfold count_of. pose proof (length_filter (fun x => x = v) l). lia.
Qed.

Lemma sig_scan_run n : forall (i : nat) sl wl0 wh0 tr0 last s,
  (i + n <= length sl)%nat -> 0 <= tr0 ->
  let seg := take n (drop i sl) in
  let cps := change_points last (Z.of_nat i) seg in
  sig_scan n sl (Z.of_nat i) wl0 wh0 tr0 last s =
    Some ((wl0 + count_of 0 (sig_bit 2 <$> seg),
           wh0 + count_of 1 (sig_bit 3 <$> seg),
           tr0 + Z.of_nat (length cps)),
          s,
          AReport <$> (sig_line <$> take (Z.to_nat (10 - tr0)) cps)).
Proof.
  induction n as [|n IH]; intros i sl wl0 wh0 tr0 last s Hlen Htr; cbv zeta.
  - rewrite take_0. cbn [sig_scan change_points length].
    rewrite take_nil. cbn. rewrite !Z.add_0_r. reflexivity.
  - destruct (lookup_lt_is_Some_2 sl i ltac:(lia)) as [g Hg].
    rewrite (drop_S _ _ _ Hg). cbn [take change_points sig_scan].
    rewrite Nat2Z.id, Hg. change (default 0 (Some g)) with g. cbv zeta.
    rewrite !fmap_cons, !count_of_cons, land_4_zero, land_8_zero.
    replace (Z.of_nat i + 1) with (Z.of_nat (S i)) by lia.
    specialize (IH (S i) sl). cbv zeta in IH.
    destruct (Z.eqb_spec g last) as [->|Hne]; cbn [negb app].
    + rewrite IH by lia. f_equal.
      repeat (apply pair_equal_spec; split); try reflexivity.
      * destruct (sig_bit 2 last =? 0); lia.
      * destruct (sig_bit 3 last =? 1); cbn [negb]; lia.
    + assert (H1 : (if tr0 + 1 <=? 10
                    then report_line (SigAt (Z.of_nat i)
                           (Z.land (Z.shiftr g 3) 1) (Z.land (Z.shiftr g 2) 1)
                           (Z.land (Z.shiftr g 1) 1) (Z.land g 1))
                    else mret tt) s
                   = Some (tt, s,
                           if tr0 + 1 <=? 10
                           then [AReport (sig_line (Z.of_nat i, g))] else []))
        by (destruct (tr0 + 1 <=? 10); reflexivity).
      assert (Htr1 : 0 <= tr0 + 1) by lia.
      assert (Hlen1 : (S i + n <= length sl)%nat) by lia.
      rewrite (abind_run _ _ _ _ _ _ _ _ _ H1
                 (IH (if sig_bit 2 g =? 0 then wl0 + 1 else wl0)
                     (if negb (sig_bit 3 g =? 1) then wh0 else wh0 + 1)
                     (tr0 + 1) g s Hlen1 Htr1)).
      cbn [length]. f_equal.
      repeat (apply pair_equal_spec; split); try reflexivity.
      * destruct (sig_bit 2 g =? 0); lia.
      * destruct (sig_bit 3 g =? 1); cbn [negb]; lia.
      * lia.
      * destruct (Z.leb_spec (tr0 + 1) 10) as [Hle|Hgt].
        -- replace (Z.to_nat (10 - tr0)) with (S (Z.to_nat (10 - (tr0 + 1))))
             by lia.
           reflexivity.
        -- replace (Z.to_nat (10 - tr0)) with 0%nat by lia.
           replace (Z.to_nat (10 - (tr0 + 1))) with 0%nat by lia.
           rewrite !take_0. reflexivity.
Qed.

Lemma reports_AReport rs : reports (AReport <$> rs) = rs.
Proof. induction rs as [|r rs IH]; [reflexivity|]. cbn. f_equal. exact IH. Qed.

Lemma change_points_length l : forall last i,
  Z.of_nat (length (change_points last i l)) = changes (last :: l).
Proof.
  induction l as [|g l IH]; intros last i; [reflexivity|].
  cbn [change_points]. rewrite length_app, Nat2Z.inj_add, IH.
  change (changes (last :: g :: l))
    with ((if last =? g then 0 else 1) + changes (g :: l)).
  rewrite (Z.eqb_sym last g). destruct (g =? last); reflexivity.
Qed.

Lemma change_points_spec l : forall last i x g,
  (x, g) ∈ change_points last i l <->
  exists j : nat,
    x = i + Z.of_nat j /\ l !! j = Some g /\
    match j with O => last | S j' => default 0 (l !! j') end <> g.
Proof.
  induction l as [|h l IH]; intros last i x g; cbn [change_points].
  - split; [intros H; inversion H|intros (j & _ & H & _); discriminate].
  - rewrite elem_of_app, IH. split.
    + intros [H|(j & -> & Hj & Hp)].
      * destruct (Z.eqb_spec h last) as [|Hne]; [inversion H|].
        apply list_elem_of_singleton in H. injection H as -> ->.
        exists 0%nat. split; [lia|]. split; [reflexivity|]. congruence.
      * exists (S j). split; [lia|]. split; [exact Hj|].
        destruct j as [|j']; exact Hp.
    + intros ([|j] & -> & Hj & Hp).
      * left. injection Hj as ->.
        destruct (Z.eqb_spec g last) as [->|Hne]; [contradiction|].
        apply list_elem_of_singleton. f_equal. lia.
      * right. exists j. split; [lia|]. split; [exact Hj|].
        destruct j as [|j']; exact Hp.
Qed.

Lemma change_points_sorted l : forall last i,
  Forall (fun x => i <= x) (change_points last i l).*1 /\
  StronglySorted Z.lt (change_points last i l).*1.
Proof.
  induction l as [|h l IH]; intros last i; cbn [change_points].
  - split; constructor.
  - destruct (IH h (i + 1)) as [Hge Hs].
    assert (Hge' : Forall (fun x => i <= x) (change_points h (i + 1) l).*1)
      by (eapply Forall_impl; [exact Hge|]; cbn; intros; lia).
    destruct (h =? last); cbn [app fmap list_fmap fst].
    + split; assumption.
    + split; [constructor; [lia|exact Hge']|].
      constructor; [exact Hs|].
      eapply Forall_impl; [exact Hge|]. cbn. intros; lia.
Qed.

Lemma sig_scan_whole sl s :
  sig_scan (length sl) sl 0 0 0 0 (default 0 (sl !! 0%nat)) s =
    Some ((count_of 0 (sig_bit 2 <$> sl), count_of 1 (sig_bit 3 <$> sl),
           changes sl), s,
          AReport <$> (sig_line <$>
            take 10 (change_points (default 0 (sl !! 0%nat)) 0 sl))).
Proof.
  assert (Hlen : Z.of_nat (length (change_points (default 0 (sl !! 0%nat)) 0 sl))
                 = changes sl).
  { rewrite change_points_length. destruct sl as [|g l]; [reflexivity|].
    cbn [lookup list_lookup default from_option id].
    change (changes (g :: g :: l))
      with ((if g =? g then 0 else 1) + changes (g :: l)).
    rewrite Z.eqb_refl. reflexivity. }
  pose proof (sig_scan_run (length sl) 0 sl 0 0 0 (default 0 (sl !! 0%nat)) s
                ltac:(lia) ltac:(lia)) as Hrun.
  cbv zeta in Hrun. rewrite drop_0, firstn_all in Hrun.
  change (Z.of_nat 0) with 0 in Hrun. rewrite !Z.add_0_l, Hlen in Hrun.
  exact Hrun.
Qed.

(** X14: the statistics of [app_main].  Over a signal log, the loop counts
    the entries whose write-request bit is 0, the entries whose write-data
    bit is 1, and the entries that differ from the entry before them; the
    first entry is compared with itself and never counts as a transition.
    It prints one line for each of the first ten transitions, in the order
    of their indices, with the four bits of the entry, and nothing else. *)
Theorem sig_scan_stats sl s :
  let cps := change_points (default 0 (sl !! 0%nat)) 0 sl in
  exists evs,
    sig_scan (length sl) sl 0 0 0 0 (default 0 (sl !! 0%nat)) s =
      Some ((count_of 0 (sig_bit 2 <$> sl), count_of 1 (sig_bit 3 <$> sl),
             changes sl), s, evs) /\
    evs = AReport <$> (sig_line <$> take 10 cps) /\
    Z.of_nat (length cps) = changes sl /\
    0 <= changes sl <= Z.max 0 (Z.of_nat (length sl) - 1) /\
    StronglySorted Z.lt cps.*1 /\
    (forall x g,
       (x, g) ∈ cps <->
       exists j : nat,
         x = Z.of_nat (S j) /\ sl !! S j = Some g /\ sl !! j <> Some g).
Proof.
  cbv zeta.
  assert (Hlen : Z.of_nat (length (change_points (default 0 (sl !! 0%nat)) 0 sl))
                 = changes sl).
  { rewrite change_points_length. destruct sl as [|g l]; [reflexivity|].
    cbn [lookup list_lookup default from_option id].
    change (changes (g :: g :: l))
      with ((if g =? g then 0 else 1) + changes (g :: l)).
    rewrite Z.eqb_refl. reflexivity. }
  eexists. split; [apply sig_scan_whole|]. split; [reflexivity|].
  split; [exact Hlen|]. split.
  { destruct sl as [|g l]; [cbn; lia|].
    pose proof (changes_bounds g l). cbn [length]. lia. }
  split; [apply change_points_sorted|].
  intros x g. rewrite change_points_spec. split.
  - intros ([|j] & -> & Hj & Hp).
    + rewrite Hj in Hp. contradiction Hp. reflexivity.
    + exists j. split; [lia|]. split; [exact Hj|].
      intros Hj'. rewrite Hj' in Hp. apply Hp. reflexivity.
  - intros (j & -> & Hj & Hp). exists (S j). split; [lia|].
    split; [exact Hj|].
    destruct (lookup_lt_is_Some_2 sl j) as [g' Hg'].
    { apply lookup_lt_Some in Hj. lia. }
    rewrite Hg'. cbn. congruence.
Qed.

(** ** The wait for the drive to be released *)

Lemma lift_run {A} (m : M A) s a s' evs :
  m s = Some (a, s', evs) -> lift m s = Some (a, s', AHw <$> evs).
Proof. intros H. unfold lift. rewrite H. reflexivity. Qed.

Lemma lift_inv {A} (m : M A) s a s' evs :
  lift m s = Some (a, s', evs) ->
  exists e, m s = Some (a, s', e) /\ evs = AHw <$> e.
Proof.
  unfold lift. destruct (m s) as [[[a0 s0] e0]|]; [|discriminate].
  intros H. injection H as <- <- <-. eauto.
Qed.

Lemma hw_events_AHw evs : hw_events (AHw <$> evs) = evs.
Proof. induction evs as [|e evs IH]; [reflexivity|]. cbn. f_equal. exact IH. Qed.

Lemma reports_AHw evs : reports (AHw <$> evs) = [].
Proof. induction evs as [|e evs IH]; [reflexivity|exact IH]. Qed.

Lemma outputs_AHw evs : outputs (AHw <$> evs) = [].
Proof. induction evs as [|e evs IH]; [reflexivity|exact IH]. Qed.

Lemma task_delays_AHw evs : task_delays (AHw <$> evs) = [].
Proof. induction evs as [|e evs IH]; [reflexivity|exact IH]. Qed.

Lemma rearm_loop_step hw fuel ws s :
  rearm_loop hw (S fuel) ws s =
    let s1 := after_ticks (enable_ticks hw (tick s)) s in
    if enable_condition hw (tick s) then
      if timer_us hw (tick s1) - ws <? 3000000 then
        match rearm_loop hw fuel ws (after_ticks 2 s1) with
        | Some (u, s', evs) =>
            Some (u, s',
                  (AHw <$> (enable_events hw (tick s) ++
                            [EvTimer (timer_us hw (tick s1))])) ++
                  ATaskDelayMs 10 :: evs)
        | None => None
        end
      else
        Some (tt, after_ticks 1 s1,
              AHw <$> (enable_events hw (tick s) ++
                       [EvTimer (timer_us hw (tick s1))]))
    else Some (tt, s1, AHw <$> enable_events hw (tick s)).
Proof.
  cbv zeta. cbn [rearm_loop]. unfold mbind at 1, App_bind at 1.
  rewrite (lift_run _ _ _ _ _ (drive_enabled_run hw s)).
  destruct (enable_condition hw (tick s)).
  - unfold mbind at 1, App_bind at 1.
    unfold lift at 1, esp_timer_get_time at 1.
    cbn [tick after_ticks fmap list_fmap].
    destruct (_ <? 3000000).
    + unfold mbind, App_bind, vTaskDelay_ms.
      change (next_tick (next_tick ?x)) with (after_ticks 2 x).
      match goal with
      | |- context [rearm_loop hw fuel ws ?x] =>
          destruct (rearm_loop hw fuel ws x) as [[[[] s'] evs]|]
      end; [|reflexivity].
      rewrite fmap_app, <- app_assoc. reflexivity.
    + rewrite fmap_app. reflexivity.
  - cbn. rewrite app_nil_r. reflexivity.
Qed.

Lemma enable_events_timers hw t : timers (enable_events hw t) = [].
Proof. unfold enable_events. destruct (level hw PIN_ENBL1 t); reflexivity. Qed.

Lemma timers_app e1 e2 : timers (e1 ++ e2) = timers e1 ++ timers e2.
Proof. apply omap_app. Qed.

Lemma enable_events_released hw t :
  enable_condition hw t = false ->
  last (samples_of PIN_ENBL1 (enable_events hw t)) = Some 1 /\
  last (samples_of PIN_ENBL2 (enable_events hw t)) = Some 1.
Proof.
  unfold enable_condition, enable_events.
  destruct (level hw PIN_ENBL1 t); [|discriminate].
  destruct (level hw PIN_ENBL2 (S t)); [|discriminate].
  split; reflexivity.
Qed.

Lemma enable_ticks_bounds hw t : (1 <= enable_ticks hw t <= 2)%nat.
Proof. unfold enable_ticks. destruct (level hw PIN_ENBL1 t); lia. Qed.

Lemma rearm_loop_sound hw ws fuel : forall s u s' evs,
  rearm_loop hw fuel ws s = Some (u, s', evs) ->
  exists early final,
    timers (hw_events evs) = early ++ final /\
    task_delays evs = replicate (length early) (ATaskDelayMs 10) /\
    Forall (fun t => t - ws < 3000000) early /\
    ((final = [] /\
      last (samples_of PIN_ENBL1 (hw_events evs)) = Some 1 /\
      last (samples_of PIN_ENBL2 (hw_events evs)) = Some 1) \/
     (exists t, final = [t] /\ 3000000 <= t - ws)) /\
    reports evs = [] /\ outputs evs = [] /\
    stores (hw_events evs) = [] /\ loads (hw_events evs) = [] /\
    capture_buffer s' = capture_buffer s /\
    capture_len s' = capture_len s /\
    (tick s < tick s')%nat /\
    prints (hw_events evs) = [].
Proof.
  induction fuel as [|fuel IH]; intros s u s' evs Hrun; [discriminate|].
  rewrite rearm_loop_step in Hrun. cbv zeta in Hrun.
  pose proof (enable_ticks_bounds hw (tick s)) as Hticks.
  assert (Hst : stores (enable_events hw (tick s)) = [] /\
                loads (enable_events hw (tick s)) = [] /\
                prints (enable_events hw (tick s)) = [])
    by (unfold enable_events; destruct (level hw PIN_ENBL1 (tick s));
        repeat split; reflexivity).
  destruct Hst as (Hst & Hld & Hpr).
  destruct (enable_condition hw (tick s)) eqn:Hen.
  - destruct (Z.ltb_spec
                (timer_us hw (tick (after_ticks (enable_ticks hw (tick s)) s))
                 - ws) 3000000) as [Hin|Hout].
    + destruct (rearm_loop hw fuel ws _) as [[[u1 s1] e1]|] eqn:Hrec;
        [|discriminate].
      injection Hrun as <- <- <-.
      apply IH in Hrec
        as (early & final & Ht & Hd & Hall & Hfin & Hr & Ho & Hs & Hl
            & Hb & Hc & Hk & Hp).
      cbn [tick after_ticks capture_buffer capture_len] in *.
      exists (timer_us hw (enable_ticks hw (tick s) + tick s) :: early), final.
      rewrite !hw_events_app, !reports_app, !outputs_app, !task_delays_app.
      rewrite hw_events_AHw, reports_AHw, outputs_AHw, task_delays_AHw.
      change (hw_events (ATaskDelayMs 10 :: e1)) with (hw_events e1).
      change (reports (ATaskDelayMs 10 :: e1)) with (reports e1).
      change (outputs (ATaskDelayMs 10 :: e1)) with (outputs e1).
      change (task_delays (ATaskDelayMs 10 :: e1))
        with (ATaskDelayMs 10 :: task_delays e1).
      rewrite !timers_app, !samples_of_app, !stores_app, !loads_app,
        !prints_app.
      rewrite enable_events_timers, Hst, Hld, Hpr.
      change (timers [EvTimer ?t]) with [t].
      change (samples_of ?p [EvTimer ?t]) with (@nil Z).
      rewrite !app_nil_r.
      rewrite Ht, Hd, Hr, Ho, Hs, Hl, Hp. cbn [app length replicate].
      repeat split; try reflexivity; try assumption; try lia.
      * constructor; assumption.
      * destruct Hfin as [(-> & H1 & H2)|(t & -> & Hlate)].
        -- left. rewrite !last_app, H1, H2. auto.
        -- right. eauto.
    + injection Hrun as <- <- <-.
      exists [], [timer_us hw (tick (after_ticks (enable_ticks hw (tick s)) s))].
      rewrite hw_events_AHw, reports_AHw, outputs_AHw, task_delays_AHw.
      rewrite !timers_app, !stores_app, !loads_app, !prints_app.
      rewrite enable_events_timers, Hst, Hld, Hpr.
      cbn [tick after_ticks capture_buffer capture_len].
      repeat split; try reflexivity; try lia.
      * constructor.
      * right. eexists. split; [reflexivity|]. cbn [tick after_ticks] in Hout.
        lia.
  - injection Hrun as <- <- <-.
    exists [], [].
    rewrite hw_events_AHw, reports_AHw, outputs_AHw, task_delays_AHw.
    rewrite enable_events_timers, Hst, Hld, Hpr.
    cbn [tick after_ticks capture_buffer capture_len].
    repeat split; try reflexivity; try lia.
    + constructor.
    + left. split; [reflexivity|]. apply enable_events_released. exact Hen.
Qed.

Lemma rearm_loop_returns hw ws (t : nat) fuel : forall s,
  released_from hw t \/
  (forall n, (t <= n)%nat -> 3000000 <= timer_us hw n - ws) ->
  (t - tick s < fuel)%nat ->
  exists s' evs, rearm_loop hw fuel ws s = Some (tt, s', evs).
Proof.
  induction fuel as [|fuel IH]; intros s Hend Hfuel; [lia|].
  rewrite rearm_loop_step. cbv zeta.
  pose proof (enable_ticks_bounds hw (tick s)) as Hticks.
  destruct (enable_condition hw (tick s)) eqn:Hen; [|eauto].
  destruct (Z.ltb_spec
              (timer_us hw (tick (after_ticks (enable_ticks hw (tick s)) s))
               - ws) 3000000) as [Hin|Hout]; [|eauto].
  assert (Hlt : (tick s < t)%nat).
  { destruct (Nat.lt_ge_cases (tick s) t) as [|Hge]; [assumption|].
    exfalso. destruct Hend as [Hrel|Hclock].
    - unfold enable_condition in Hen.
      destruct (Hrel (tick s) Hge) as [H1 _].
      destruct (Hrel (S (tick s)) ltac:(lia)) as [_ H2].
      rewrite H1, H2 in Hen. discriminate.
    - cbn [tick after_ticks] in Hin.
      specialize (Hclock (enable_ticks hw (tick s) + tick s)%nat ltac:(lia)).
      lia. }
  destruct (IH (after_ticks 2 (after_ticks (enable_ticks hw (tick s)) s)) Hend)
    as (s' & evs & Hrec).
  { cbn [tick after_ticks]. lia. }
  rewrite Hrec. eauto.
Qed.


Lemma release_hw_released t : released_from (release_hw t) t.
Proof.
  intros n Hn. split; [|reflexivity].
  apply bool_decide_eq_true_2. exact Hn.
Qed.


(** ** One command *)

Lemma wrdata_dump_run n : forall (i : nat) wl s,
  (i + n <= length wl)%nat ->
  wrdata_dump n wl (Z.of_nat i) s =
    Some (tt, s,
          AReport <$> (WrdataBit <$>
            ((fun w => if w =? 0 then 0 else 1) <$> take n (drop i wl)))).
Proof.
  induction n as [|n IH]; intros i wl s Hlen.
  - rewrite take_0. reflexivity.
  - destruct (lookup_lt_is_Some_2 wl i ltac:(lia)) as [w Hw].
    rewrite (drop_S _ _ _ Hw). cbn [wrdata_dump take].
    rewrite Nat2Z.id, Hw. change (default 0 (Some w)) with w.
    replace (Z.of_nat i + 1) with (Z.of_nat (S i)) by lia.
    assert (Hlen1 : (S i + n <= length wl)%nat) by lia.
    rewrite (abind_run _ (fun _ => wrdata_dump n wl (Z.of_nat (S i)))
               _ _ _ _ _ _ _ eq_refl (IH (S i) wl s Hlen1)).
    reflexivity.
Qed.

Lemma hw_events_AReport rs : hw_events (AReport <$> rs) = [].
Proof. induction rs as [|r rs IH]; [reflexivity|exact IH]. Qed.

Lemma outputs_AReport rs : outputs (AReport <$> rs) = [].
Proof. induction rs as [|r rs IH]; [reflexivity|exact IH]. Qed.

Lemma task_delays_AReport rs : task_delays (AReport <$> rs) = [].
Proof. induction rs as [|r rs IH]; [reflexivity|exact IH]. Qed.

Lemma wrdata_sample_01 hw (ts : list nat) :
  (fun w => if w =? 0 then 0 else 1) <$> (wrdata_sample hw <$> ts)
  = wrdata_sample hw <$> ts.
Proof.
  induction ts as [|t ts IH]; [reflexivity|].
  cbn [fmap list_fmap]. f_equal; [|exact IH].
  unfold wrdata_sample. destruct (level hw PIN_WRDATA (4 + t)); reflexivity.
Qed.

Ltac project_events :=
  rewrite ?reports_app, ?hw_events_app, ?task_delays_app, ?outputs_app;
  rewrite ?reports_AHw, ?reports_AReport, ?hw_events_AHw, ?hw_events_AReport,
    ?task_delays_AHw, ?task_delays_AReport, ?outputs_AHw, ?outputs_AReport.

Lemma timer_run hw s :
  esp_timer_get_time hw s =
    Some (timer_us hw (tick s), after_ticks 1 s, [EvTimer (timer_us hw (tick s))]).
Proof. reflexivity. Qed.

Lemma timer_at hw k s :
  esp_timer_get_time hw (after_ticks k s) =
    Some (timer_us hw (k + tick s), after_ticks (S k) s,
          [EvTimer (timer_us hw (k + tick s))]).
Proof. reflexivity. Qed.

Lemma state_reads_at hw k s :
  read_pins hw
    (arrange (arg_order hw SiteState)
       [PIN_WRDATA; PIN_ENBL1; PIN_ENBL2; PIN_WREQ; PIN_ACK])
    (after_ticks k s)
  = Some (state_reads hw (k + tick s), after_ticks (5 + k) s,
          read_events (state_reads hw (k + tick s))).
Proof.
  rewrite read_pins_run, arrange_length, after_ticks_add. reflexivity.
Qed.

Lemma fast_capture_run hw fuel phases a s r_s r_evs :
  let N := Z.to_nat FAST_SAMPLES in
  let t0 := timer_us hw (tick s) in
  let t1 := timer_us hw (1 + 6 * N + tick s) in
  let ws := timer_us hw (7 + 6 * N + tick s) in
  let sampling := pass_ticks N (1 + tick s) ≫= sample_events hw in
  let sl := sig_sample hw <$> pass_ticks N (1 + tick s) in
  let wl := wrdata_sample hw <$> pass_ticks N (1 + tick s) in
  let vs := state_reads hw (2 + 6 * N + tick s) in
  length (sig_log a) = N -> length (wrdata_log a) = N ->
  rearm_loop hw fuel ws (after_ticks (8 + 6 * N) s) = Some (tt, r_s, r_evs) ->
  exists rest,
    fast_capture hw fuel phases a s =
      Some (mkApp (last_phases a) false sl wl, after_ticks 1 r_s,
            (AHw <$> [EvTimer t0]) ++ (AHw <$> sampling) ++
            (AHw <$> [EvTimer t1]) ++ rest) /\
    reports rest =
      [SpEnable phases; FastCaptured FAST_SAMPLES (t1 - t0)] ++
      (sig_line <$> take 10 (change_points (default 0 (sl !! 0%nat)) 0 sl)) ++
      [SigStats (count_of 0 (sig_bit 2 <$> sl)) (count_of 1 (sig_bit 3 <$> sl))
                (changes sl);
       WrdataHead] ++
      (WrdataBit <$> take 32 wl) ++
      [WrdataTail;
       SigState (arg_value vs PIN_WRDATA) (arg_value vs PIN_ENBL1)
                (arg_value vs PIN_ENBL2) (arg_value vs PIN_WREQ)
                (arg_value vs PIN_ACK);
       SpComplete] ++ reports r_evs ++ [SpReady] /\
    hw_events rest = read_events vs ++ [EvTimer ws] ++ hw_events r_evs /\
    task_delays rest = task_delays r_evs ++ [ATaskDelayMs 500] /\
    outputs rest = outputs r_evs.
Proof.
  cbv zeta. intros Hsl Hwl Hrearm.
  assert (HN : (32 <= Z.to_nat FAST_SAMPLES)%nat) by (unfold FAST_SAMPLES; lia).
  remember (Z.to_nat FAST_SAMPLES) as N eqn:HeqN.
  pose proof (fast_sample_loop_run hw N 0 (sig_log a) (wrdata_log a)
                (after_ticks 1 s) ltac:(lia) ltac:(lia)) as Hsample.
  rewrite !take_0 in Hsample. cbn [app Nat.add] in Hsample.
  change (Z.of_nat 0) with 0 in Hsample.
  rewrite !drop_ge, !app_nil_r in Hsample by lia.
  change (tick (after_ticks 1 s)) with (1 + tick s)%nat in Hsample.
  rewrite after_ticks_add in Hsample.
  replace (6 * N + 1)%nat with (1 + 6 * N)%nat in Hsample by lia.
  set (sl := sig_sample hw <$> pass_ticks N (1 + tick s)) in *.
  set (wl := wrdata_sample hw <$> pass_ticks N (1 + tick s)) in *.
  assert (Hlsl : length sl = N)
    by (unfold sl, pass_ticks; rewrite !length_fmap, length_seq; reflexivity).
  assert (Hlwl : length wl = N)
    by (unfold wl, pass_ticks; rewrite !length_fmap, length_seq; reflexivity).
  pose proof (sig_scan_whole sl (after_ticks (2 + 6 * N) s)) as Hscan.
  rewrite Hlsl in Hscan.
  pose proof (wrdata_dump_run 32 0 wl (after_ticks (2 + 6 * N) s) ltac:(lia))
    as Hdump.
  rewrite drop_0 in Hdump. change (Z.of_nat 0) with 0 in Hdump.
  eexists. split.
  - unfold fast_capture. rewrite <- HeqN.
    change (Z.to_nat (Z.min 32 FAST_SAMPLES)) with 32%nat.
    eapply abind_run; [apply lift_run, timer_run|].
    eapply abind_run; [apply lift_run, Hsample|]. cbv beta iota.
    eapply abind_run; [apply lift_run, timer_at|].
    eapply abind_run; [reflexivity|].
    eapply abind_run; [reflexivity|].
    eapply abind_run; [exact Hscan|]. cbv beta iota.
    eapply abind_run; [reflexivity|].
    eapply abind_run; [reflexivity|].
    eapply abind_run; [exact Hdump|].
    eapply abind_run; [reflexivity|].
    eapply abind_run; [apply lift_run, state_reads_at|].
    eapply abind_run; [reflexivity|].
    eapply abind_run; [reflexivity|].
    eapply abind_run; [apply lift_run, timer_at|].
    eapply abind_run; [exact Hrearm|].
    eapply abind_run; [reflexivity|].
    eapply abind_run; [reflexivity|].
    reflexivity.
  - assert (Hbits : (fun w => if w =? 0 then 0 else 1) <$> take 32 wl
                    = take 32 wl)
      by (unfold wl; rewrite <- !fmap_take; apply wrdata_sample_01).
    rewrite Hbits. project_events.
    cbv [reports hw_events task_delays outputs omap].
    rewrite ?app_nil_r. repeat split; reflexivity.
Qed.

(** ** One pass of the main loop *)

Lemma abind_run_none {A B} (m : App A) (f : A -> App B) s a s1 e1 :
  m s = Some (a, s1, e1) -> f a s1 = None -> (m ≫= f) s = None.
Proof. intros H1 H2. unfold mbind, App_bind. rewrite H1, H2. reflexivity. Qed.

Lemma abind_none {A B} (m : App A) (f : A -> App B) s :
  m s = None -> (m ≫= f) s = None.
Proof. intros H. unfold mbind, App_bind. rewrite H. reflexivity. Qed.

Lemma fast_capture_stuck hw fuel phases a s :
  let N := Z.to_nat FAST_SAMPLES in
  length (sig_log a) = N -> length (wrdata_log a) = N ->
  rearm_loop hw fuel (timer_us hw (7 + 6 * N + tick s))
    (after_ticks (8 + 6 * N) s) = None ->
  fast_capture hw fuel phases a s = None.
Proof.
  cbv zeta. intros Hsl Hwl Hrearm.
  assert (HN : (32 <= Z.to_nat FAST_SAMPLES)%nat) by (unfold FAST_SAMPLES; lia).
  remember (Z.to_nat FAST_SAMPLES) as N eqn:HeqN.
  pose proof (fast_sample_loop_run hw N 0 (sig_log a) (wrdata_log a)
                (after_ticks 1 s) ltac:(lia) ltac:(lia)) as Hsample.
  rewrite !take_0 in Hsample. cbn [app Nat.add] in Hsample.
  change (Z.of_nat 0) with 0 in Hsample.
  rewrite !drop_ge, !app_nil_r in Hsample by lia.
  change (tick (after_ticks 1 s)) with (1 + tick s)%nat in Hsample.
  rewrite after_ticks_add in Hsample.
  replace (6 * N + 1)%nat with (1 + 6 * N)%nat in Hsample by lia.
  set (sl := sig_sample hw <$> pass_ticks N (1 + tick s)) in *.
  set (wl := wrdata_sample hw <$> pass_ticks N (1 + tick s)) in *.
  assert (Hlsl : length sl = N)
    by (unfold sl, pass_ticks; rewrite !length_fmap, length_seq; reflexivity).
  assert (Hlwl : length wl = N)
    by (unfold wl, pass_ticks; rewrite !length_fmap, length_seq; reflexivity).
  pose proof (sig_scan_whole sl (after_ticks (2 + 6 * N) s)) as Hscan.
  rewrite Hlsl in Hscan.
  pose proof (wrdata_dump_run 32 0 wl (after_ticks (2 + 6 * N) s) ltac:(lia))
    as Hdump.
  rewrite drop_0 in Hdump. change (Z.of_nat 0) with 0 in Hdump.
  unfold fast_capture. rewrite <- HeqN.
  change (Z.to_nat (Z.min 32 FAST_SAMPLES)) with 32%nat.
  eapply abind_run_none; [apply lift_run, timer_run|].
  eapply abind_run_none; [apply lift_run, Hsample|]. cbv beta iota.
  eapply abind_run_none; [apply lift_run, timer_at|].
  eapply abind_run_none; [reflexivity|].
  eapply abind_run_none; [reflexivity|].
  eapply abind_run_none; [exact Hscan|]. cbv beta iota.
  eapply abind_run_none; [reflexivity|].
  eapply abind_run_none; [reflexivity|].
  eapply abind_run_none; [exact Hdump|].
  eapply abind_run_none; [reflexivity|].
  eapply abind_run_none; [apply lift_run, state_reads_at|].
  eapply abind_run_none; [reflexivity|].
  eapply abind_run_none; [reflexivity|].
  eapply abind_run_none; [apply lift_run, timer_at|].
  apply abind_none. exact Hrearm.
Qed.

Lemma read_phases_run hw s :
  read_phases hw s =
    Some (phases_at hw (tick s), after_ticks 4 s, phase_events hw (tick s)).
Proof. destruct s as [t buf len]. reflexivity. Qed.

Lemma phases_at_pattern hw t :
  (phases_at hw t =? 0x0A) || (phases_at hw t =? 0x0B) =
  level hw PIN_PHI3 t && negb (level hw PIN_PHI2 (1 + t))
  && level hw PIN_PHI1 (2 + t).
Proof.
  pose proof (pack_bits (level hw PIN_PHI3 t) (level hw PIN_PHI2 (1 + t))
                (level hw PIN_PHI1 (2 + t)) (level hw PIN_PHI0 (3 + t)))
    as (_ & _ & _ & _ & _ & _ & H).
  exact H.
Qed.

Lemma app_iter_step hw fuel a s :
  let phases := phases_at hw (tick s) in
  let s1 := after_ticks (enable_ticks hw (4 + tick s)) (after_ticks 4 s) in
  let pre := AHw <$> (phase_events hw (tick s) ++
                      enable_events hw (4 + tick s)) in
  let released := mkApp (last_phases a) false (sig_log a) (wrdata_log a) in
  app_iter hw fuel a s =
    if detects hw (tick s) then
      if negb (command_active a) then
        match fast_capture hw fuel phases a s1 with
        | Some (a1, s2, e1) =>
            Some (if negb (phases =? last_phases a1)
                  then with_phases phases a1 else a1,
                  after_ticks 1 s2,
                  pre ++ e1 ++ phase_log phases a1 ++ [ATaskDelay 1])
        | None => None
        end
      else
        Some (if negb (phases =? last_phases a)
              then with_phases phases a else a,
              after_ticks 1 s1,
              pre ++ phase_log phases a ++ [ATaskDelay 1])
    else if command_active a && negb (enable_condition hw (4 + tick s)) then
      Some (if negb (phases =? last_phases a)
            then with_phases phases released else released,
            after_ticks 2 s1,
            pre ++ [ATaskDelayMs 100] ++ phase_log phases released
            ++ [ATaskDelay 1])
    else
      Some (if negb (phases =? last_phases a)
            then with_phases phases a else a,
            after_ticks 1 s1,
            pre ++ phase_log phases a ++ [ATaskDelay 1]).
Proof.
  cbv zeta. unfold app_iter, detects. rewrite <- phases_at_pattern.
  generalize (fast_capture hw fuel). intros fc.
  unfold mbind at 1, App_bind at 1.
  rewrite (lift_run _ _ _ _ _ (read_phases_run hw s)).
  unfold mbind at 1, App_bind at 1.
  rewrite (lift_run _ _ _ _ _ (drive_enabled_run hw (after_ticks 4 s))).
  change (tick (after_ticks 4 s)) with (4 + tick s)%nat.
  set (phases := phases_at hw (tick s)).
  set (s1 := after_ticks (enable_ticks hw (4 + tick s)) (after_ticks 4 s)).
  assert (Htail : forall (a1 : app_state) s2 e1,
    match
      (a2 ← (if negb (phases =? last_phases a1)
             then (if negb (phases =? 0x0A) && negb (phases =? 0x0B)
                   then report_line (LogPhase phases) else mret tt);;
                  mret (mkApp phases (command_active a1) (sig_log a1)
                          (wrdata_log a1))
             else mret a1);
       vTaskDelay 1;; mret a2) s2
    with
    | Some (b, s3, e2) => Some (b, s3, e1 ++ e2)
    | None => None
    end
    = Some (if negb (phases =? last_phases a1)
            then with_phases phases a1 else a1,
            after_ticks 1 s2, e1 ++ phase_log phases a1 ++ [ATaskDelay 1])).
  { intros a1 s2 e1. unfold phase_log, with_phases.
    destruct (negb (phases =? last_phases a1)); [|reflexivity].
    destruct (negb (phases =? 0x0A) && negb (phases =? 0x0B)); reflexivity. }
  destruct (enable_condition hw (4 + tick s));
    destruct ((phases =? 0x0A) || (phases =? 0x0B)); cbn [andb negb].
  - destruct (command_active a); cbn [negb].
    + unfold mbind at 1, App_bind at 1. unfold mret at 1, App_ret at 1.
      rewrite Htail, fmap_app, <- !app_assoc. reflexivity.
    + unfold mbind at 1, App_bind at 1.
      destruct (fc phases a s1) as [[[a1 s2] e1]|];
        [|reflexivity].
      rewrite Htail, fmap_app, <- !app_assoc. reflexivity.
  - rewrite andb_false_r.
    unfold mbind at 1, App_bind at 1. unfold mret at 1, App_ret at 1.
    rewrite Htail, fmap_app, <- !app_assoc. reflexivity.
  - destruct (command_active a); cbn [andb].
    + unfold mbind at 1, App_bind at 1. unfold mbind at 1, App_bind at 1.
      unfold vTaskDelay_ms at 1. unfold mret at 1, App_ret at 1.
      rewrite Htail, fmap_app, <- !app_assoc. reflexivity.
    + unfold mbind at 1, App_bind at 1. unfold mret at 1, App_ret at 1.
      rewrite Htail, fmap_app, <- !app_assoc. reflexivity.
  - destruct (command_active a); cbn [andb].
    + unfold mbind at 1, App_bind at 1. unfold mbind at 1, App_bind at 1.
      unfold vTaskDelay_ms at 1. unfold mret at 1, App_ret at 1.
      rewrite Htail, fmap_app, <- !app_assoc. reflexivity.
    + unfold mbind at 1, App_bind at 1. unfold mret at 1, App_ret at 1.
      rewrite Htail, fmap_app, <- !app_assoc. reflexivity.
Qed.

Lemma with_phases_same a : with_phases (last_phases a) a = a.
Proof. destruct a. reflexivity. Qed.

Lemma phase_update phases a :
  (if negb (phases =? last_phases a) then with_phases phases a else a)
  = with_phases phases a.
Proof.
  destruct (Z.eqb_spec phases (last_phases a)) as [->|]; cbn [negb];
    [rewrite with_phases_same|]; reflexivity.
Qed.

(** A pass that detects the enable pattern while no command is active. *)
Lemma app_iter_command_eq hw fuel a s :
  detects hw (tick s) = true -> command_active a = false ->
  app_iter hw fuel a s =
    match fast_capture hw fuel (phases_at hw (tick s)) a
            (after_ticks (enable_ticks hw (4 + tick s)) (after_ticks 4 s)) with
    | Some (a1, s2, e1) =>
        Some (with_phases (phases_at hw (tick s)) a1, after_ticks 1 s2,
              (AHw <$> (phase_events hw (tick s) ++
                        enable_events hw (4 + tick s))) ++
              e1 ++ phase_log (phases_at hw (tick s)) a1 ++ [ATaskDelay 1])
    | None => None
    end.
Proof.
  intros Hd Hi. rewrite app_iter_step. cbv zeta. rewrite Hd, Hi.
  destruct (fast_capture hw fuel _ a _) as [[[a1 s2] e1]|]; [|reflexivity].
  rewrite phase_update. reflexivity.
Qed.

(** A pass that does not detect the enable pattern, no command being
    active. *)
Lemma app_iter_idle_eq hw fuel a s :
  detects hw (tick s) = false -> command_active a = false ->
  app_iter hw fuel a s =
    Some (with_phases (phases_at hw (tick s)) a,
          after_ticks 1 (after_ticks (enable_ticks hw (4 + tick s))
                           (after_ticks 4 s)),
          (AHw <$> (phase_events hw (tick s) ++
                    enable_events hw (4 + tick s))) ++
          phase_log (phases_at hw (tick s)) a ++ [ATaskDelay 1]).
Proof.
  intros Hd Hi. rewrite app_iter_step. cbv zeta. rewrite Hd, Hi.
  generalize (fast_capture hw fuel). intros fc.
  rewrite !phase_update. reflexivity.
Qed.

Lemma observing_app e1 e2 : observing e1 -> observing e2 -> observing (e1 ++ e2).
Proof.
  intros (H1 & H2 & H3 & H4 & H5) (G1 & G2 & G3 & G4 & G5).
  unfold observing.
  rewrite outputs_app, task_delays_app, hw_events_app, prints_app,
    stores_app, loads_app, H1, H3, H4, H5, G1, G3, G4, G5.
  repeat split; try reflexivity. apply Forall_app. auto.
Qed.

Lemma observing_nil : observing [].
Proof. repeat split; constructor. Qed.

Lemma observing_AReport rs : observing (AReport <$> rs).
Proof.
  unfold observing.
  rewrite outputs_AReport, task_delays_AReport, hw_events_AReport.
  repeat split; constructor.
Qed.

Lemma observing_AHw evs :
  prints evs = [] -> stores evs = [] -> loads evs = [] ->
  observing (AHw <$> evs).
Proof.
  intros H1 H2 H3. unfold observing.
  rewrite outputs_AHw, task_delays_AHw, hw_events_AHw.
  repeat split; try assumption. constructor.
Qed.

Lemma observing_delay e :
  e = ATaskDelayMs 10 \/ e = ATaskDelayMs 500 \/ e = ATaskDelay 1 ->
  observing [e].
Proof.
  intros He. unfold observing.
  destruct He as [-> | [-> | ->]]; repeat split; try reflexivity;
    cbv [task_delays omap];
    (constructor; [unfold regular_delay; auto|constructor]).
Qed.

Lemma phase_log_observing phases a : observing (phase_log phases a).
Proof.
  unfold phase_log. destruct (_ && _); [|apply observing_nil].
  apply (observing_AReport [LogPhase phases]).
Qed.

Lemma enable_events_quiet hw t :
  prints (enable_events hw t) = [] /\ stores (enable_events hw t) = [] /\
  loads (enable_events hw t) = [].
Proof.
  unfold enable_events. destruct (level hw PIN_ENBL1 t); repeat split.
Qed.

Lemma pre_observing hw t t' :
  observing (AHw <$> (phase_events hw t ++ enable_events hw t')).
Proof.
  destruct (enable_events_quiet hw t') as (H1 & H2 & H3).
  apply observing_AHw; rewrite ?prints_app, ?stores_app, ?loads_app, ?H1, ?H2, ?H3;
    reflexivity.
Qed.

Lemma Forall_replicate_intro {A} (P : A -> Prop) n x :
  P x -> Forall P (replicate n x).
Proof. intros H. induction n; constructor; assumption. Qed.

Lemma fast_capture_inv hw fuel phases a s a1 s2 e1 :
  wf_app a ->
  fast_capture hw fuel phases a s = Some (a1, s2, e1) ->
  wf_app a1 /\ command_active a1 = false /\ last_phases a1 = last_phases a /\
  observing e1 /\
  capture_buffer s2 = capture_buffer s /\ capture_len s2 = capture_len s /\
  (tick s < tick s2)%nat.
Proof.
  intros [Hsl Hwl] Hrun.
  destruct (rearm_loop hw fuel
              (timer_us hw (7 + 6 * Z.to_nat FAST_SAMPLES + tick s))
              (after_ticks (8 + 6 * Z.to_nat FAST_SAMPLES) s))
    as [[[[] r_s] r_evs]|] eqn:Hrearm.
  - destruct (fast_capture_run hw fuel phases a s r_s r_evs Hsl Hwl Hrearm)
      as (rest & Heq & Hrep & Hhw & Hdel & Hout).
    rewrite Heq in Hrun. clear Heq.
    apply rearm_loop_sound in Hrearm
      as (early & final & _ & Hd & _ & _ & Hr & Ho & Hs & Hl & Hb & Hc & Ht
          & Hpr).
    pose proof (sample_events_log hw
                  (pass_ticks (Z.to_nat FAST_SAMPLES) (1 + tick s))) as Hlog.
    cbv zeta in Hlog.
    destruct Hlog as (_ & _ & _ & _ & _ & _ & Hp & Hst & Hld & _).
    remember (pass_ticks (Z.to_nat FAST_SAMPLES) (1 + tick s)) as ts eqn:Hts.
    assert (Hlts : length ts = Z.to_nat FAST_SAMPLES)
      by (subst ts; unfold pass_ticks; rewrite length_fmap, length_seq;
          reflexivity).
    remember (ts ≫= sample_events hw) as sampling.
    remember (sig_sample hw <$> ts) as sl.
    remember (wrdata_sample hw <$> ts) as wl.
    match type of Hrun with
    | Some (_, _, ?E) = _ => remember E as E0 eqn:HE
    end.
    injection Hrun as <- <- <-. subst E0.
    split; [split; cbn [sig_log wrdata_log]; subst sl wl;
            rewrite length_fmap; exact Hlts|].
    split; [reflexivity|]. split; [reflexivity|].
    split.
    + apply observing_app; [apply (observing_AHw [_]); reflexivity|].
      apply observing_app; [apply observing_AHw; assumption|].
      apply observing_app; [apply (observing_AHw [_]); reflexivity|].
      unfold observing. rewrite Hout, Ho, Hdel, Hd, Hhw.
      destruct (read_events_quiet
                  (state_reads hw (2 + 6 * Z.to_nat FAST_SAMPLES + tick s)))
        as (Hqp & Hqs & Hql & _).
      rewrite !prints_app, !stores_app, !loads_app, Hs, Hl, Hpr, Hqp, Hqs, Hql.
      split; [reflexivity|]. split.
      * apply Forall_app. split.
        -- apply Forall_replicate_intro. unfold regular_delay. auto.
        -- constructor; [unfold regular_delay; auto|constructor].
      * repeat split; reflexivity.
    + cbn [tick after_ticks capture_buffer capture_len] in *.
      repeat split; try assumption. lia.
  - rewrite (fast_capture_stuck hw fuel phases a s Hsl Hwl Hrearm) in Hrun.
    discriminate.
Qed.

Lemma app_iter_inv hw fuel a s a' s' evs :
  wf_app a -> command_active a = false ->
  app_iter hw fuel a s = Some (a', s', evs) ->
  wf_app a' /\ command_active a' = false /\
  last_phases a' = phases_at hw (tick s) /\
  observing evs /\
  capture_buffer s' = capture_buffer s /\ capture_len s' = capture_len s /\
  (tick s < tick s')%nat.
Proof.
  intros Hwf Hidle Hrun.
  pose proof (enable_ticks_bounds hw (4 + tick s)) as Hticks.
  destruct (detects hw (tick s)) eqn:Hd.
  - rewrite (app_iter_command_eq _ _ _ _ Hd Hidle) in Hrun.
    destruct (fast_capture hw fuel _ a _) as [[[a1 s2] e1]|] eqn:Hfc;
      [|discriminate].
    apply fast_capture_inv in Hfc as (Hwf1 & Hid1 & Hlp1 & Hobs1 & Hb & Hc & Ht);
      [|exact Hwf].
    match type of Hrun with
    | Some (_, _, ?E) = _ => remember E as E0 eqn:HE
    end.
    injection Hrun as <- <- <-. subst E0.
    cbn [tick after_ticks capture_buffer capture_len] in Hb, Hc, Ht |- *.
    split; [exact Hwf1|]. split; [exact Hid1|]. split; [reflexivity|].
    split; [|split; [exact Hb|split; [exact Hc|clear -Ht Hticks; lia]]].
    apply observing_app; [apply pre_observing|].
    apply observing_app; [exact Hobs1|].
    apply observing_app; [apply phase_log_observing|].
    apply observing_delay. auto.
  - rewrite (app_iter_idle_eq _ _ _ _ Hd Hidle) in Hrun.
    match type of Hrun with
    | Some (_, _, ?E) = _ => remember E as E0 eqn:HE
    end.
    injection Hrun as <- <- <-. subst E0.
    cbn [tick after_ticks capture_buffer capture_len].
    split; [exact Hwf|]. split; [exact Hidle|]. split; [reflexivity|].
    split; [|split; [reflexivity|split; [reflexivity|clear -Hticks; lia]]].
    apply observing_app; [apply pre_observing|].
    apply observing_app; [apply phase_log_observing|].
    apply observing_delay. auto.
Qed.

Lemma app_loop_inv hw fuel n : forall a s a' s' evs,
  wf_app a -> command_active a = false ->
  app_loop hw n fuel a s = Some (a', s', evs) ->
  wf_app a' /\ command_active a' = false /\
  observing evs /\
  capture_buffer s' = capture_buffer s /\ capture_len s' = capture_len s.
Proof.
  induction n as [|n IH]; intros a s a' s' evs Hwf Hidle Hrun.
  - injection Hrun as <- <- <-.
    split; [exact Hwf|]. split; [exact Hidle|].
    split; [apply observing_nil|]. split; reflexivity.
  - cbn [app_loop] in Hrun.
    apply abind_inv in Hrun as (a1 & s1 & e1 & e2 & H1 & H2 & ->).
    apply app_iter_inv in H1 as (Hwf1 & Hid1 & _ & Hobs1 & Hb1 & Hc1 & _);
      [|assumption..].
    apply IH in H2 as (Hwf2 & Hid2 & Hobs2 & Hb2 & Hc2); [|assumption..].
    split; [exact Hwf2|]. split; [exact Hid2|].
    split; [apply observing_app; assumption|].
    split; congruence.
Qed.

Lemma phase_log_pattern phases a :
  (phases =? 0x0A) || (phases =? 0x0B) = true -> phase_log phases a = [].
Proof.
  intros H. unfold phase_log.
  destruct (phases =? 0x0A), (phases =? 0x0B); try discriminate;
    rewrite ?andb_false_r; reflexivity.
Qed.

Lemma detects_pattern hw t :
  detects hw t = true ->
  enable_condition hw (4 + t) = true /\
  (phases_at hw t =? 0x0A) || (phases_at hw t =? 0x0B) = true.
Proof.
  unfold detects. rewrite phases_at_pattern.
  destruct (enable_condition hw (4 + t)); [|discriminate]. auto.
Qed.

(** X16: a pass of the main loop that finds the enable pattern.  With no
    command active, the pattern on the phase lines and the drive enabled,
    on hardware that releases the drive at some point, the pass ends.  From
    the reads of the detection to the second reading of the clock it does
    nothing but sample: [FAST_SAMPLES] passes of six hardware calls, no
    line printed, no scheduler delay.  The report that follows gives the
    elapsed time between the two clock readings, the first ten signal
    changes, the number of samples with write-request low, with write-data
    high and of changes, the first 32 entries of the write-data log and the
    five levels read for the state line, each line read once, in whatever
    order the arguments are evaluated.  Then the pass waits for the drive to
    be released with 10 ms polls, waits 500 ms and yields; the decoder is
    re-armed, and no pin was driven. *)
Theorem app_iter_command hw fuel a s (t : nat) :
  wf_app a -> command_active a = false ->
  detects hw (tick s) = true ->
  released_from hw t -> (t < fuel)%nat ->
  exists a' s' evs t0 t1 sampling rest state_line polls (k : nat),
    app_iter hw fuel a s = Some (a', s', evs) /\
    evs = (AHw <$> (phase_events hw (tick s) ++ enable_events hw (4 + tick s)
                    ++ [EvTimer t0] ++ sampling ++ [EvTimer t1])) ++ rest /\
    length sampling = (6 * Z.to_nat FAST_SAMPLES)%nat /\
    prints sampling = [] /\
    delays sampling = replicate (Z.to_nat FAST_SAMPLES) 2 /\
    samples_of PIN_WREQ sampling = sig_bit 2 <$> sig_log a' /\
    samples_of PIN_ENBL1 sampling = sig_bit 1 <$> sig_log a' /\
    samples_of PIN_ENBL2 sampling = sig_bit 0 <$> sig_log a' /\
    samples_of PIN_WRDATA sampling =
      mjoin (zip_with (fun g w => [sig_bit 3 g; w])
               (sig_log a') (wrdata_log a')) /\
    wf_app a' /\ command_active a' = false /\
    last_phases a' = phases_at hw (tick s) /\
    reports evs =
      [SpEnable (phases_at hw (tick s));
       FastCaptured FAST_SAMPLES (t1 - t0)] ++
      (sig_line <$>
         take 10 (change_points (default 0 (sig_log a' !! 0%nat)) 0
                    (sig_log a'))) ++
      [SigStats (count_of 0 (samples_of PIN_WREQ sampling))
                (count_of 1 (sig_bit 3 <$> sig_log a'))
                (changes (sig_log a'));
       WrdataHead] ++
      (WrdataBit <$> take 32 (wrdata_log a')) ++
      [WrdataTail; state_line; SpComplete; SpReady] /\
    (exists wrdata enbl1 enbl2 wrreq ack ws reads,
       state_line = SigState wrdata enbl1 enbl2 wrreq ack /\
       hw_events rest = reads ++ [EvTimer ws] ++ polls /\
       reads ≡ₚ [EvGpio PIN_WRDATA wrdata; EvGpio PIN_ENBL1 enbl1;
                 EvGpio PIN_ENBL2 enbl2; EvGpio PIN_WREQ wrreq;
                 EvGpio PIN_ACK ack]) /\
    task_delays evs =
      replicate k (ATaskDelayMs 10) ++ [ATaskDelayMs 500; ATaskDelay 1] /\
    outputs evs = [] /\
    capture_buffer s' = capture_buffer s /\ capture_len s' = capture_len s.
Proof.
  intros [Hsl Hwl] Hidle Hd Hrel Hfuel.
  destruct (detects_pattern _ _ Hd) as [_ Hpat].
  set (s1 := after_ticks (enable_ticks hw (4 + tick s)) (after_ticks 4 s)).
  destruct (rearm_loop_returns hw
              (timer_us hw (7 + 6 * Z.to_nat FAST_SAMPLES + tick s1)) t fuel
              (after_ticks (8 + 6 * Z.to_nat FAST_SAMPLES) s1)
              (or_introl Hrel) ltac:(lia)) as (r_s & r_evs & Hrearm).
  destruct (fast_capture_run hw fuel (phases_at hw (tick s)) a s1 r_s r_evs
              Hsl Hwl Hrearm) as (rest & Heq & Hrep & Hhw & Hdel & Hout).
  apply rearm_loop_sound in Hrearm
    as (early & final & _ & Hrd & _ & _ & Hrr & Hro & _ & _ & Hb & Hc & _).
  pose proof (sample_events_log hw
                (pass_ticks (Z.to_nat FAST_SAMPLES) (1 + tick s1))) as Hlog.
  cbv zeta in Hlog.
  destruct Hlog as (_ & _ & H2 & H1 & H0 & H3 & Hp & _ & _ & Hdl & Hn).
  assert (Hlts : length (pass_ticks (Z.to_nat FAST_SAMPLES) (1 + tick s1))
                 = Z.to_nat FAST_SAMPLES)
    by (unfold pass_ticks; rewrite length_fmap, length_seq; reflexivity).
  rewrite Hlts in Hdl, Hn.
  remember (pass_ticks (Z.to_nat FAST_SAMPLES) (1 + tick s1)) as ts eqn:Hts.
  remember (ts ≫= sample_events hw) as sampling eqn:Hsampling.
  remember (sig_sample hw <$> ts) as sl eqn:Hslq.
  remember (wrdata_sample hw <$> ts) as wl eqn:Hwlq.
  rewrite (app_iter_command_eq _ _ _ _ Hd Hidle). fold s1. rewrite Heq.
  rewrite (phase_log_pattern _ _ Hpat).
  eexists _, _, _, (timer_us hw (tick s1)),
    (timer_us hw (1 + 6 * Z.to_nat FAST_SAMPLES + tick s1)), sampling,
    (rest ++ [ATaskDelay 1]), _, (hw_events r_evs), (length early).
  split; [reflexivity|].
  split; [rewrite !fmap_app, <- !app_assoc; reflexivity|].
  cbn [sig_log wrdata_log command_active last_phases with_phases].
  split; [exact Hn|]. split; [exact Hp|]. split; [exact Hdl|].
  split; [exact H2|]. split; [exact H1|]. split; [exact H0|].
  split; [exact H3|].
  split; [unfold wf_app, with_phases; cbn [sig_log wrdata_log]; subst sl wl;
          rewrite !length_fmap; auto|].
  split; [reflexivity|]. split; [reflexivity|].
  project_events. rewrite Hrep, Hhw, Hdel, Hout, Hrr, Hro, Hrd, H2.
  cbv [reports hw_events task_delays outputs omap].
  rewrite ?app_nil_r.
  split; [reflexivity|].
  split.
  { eexists _, _, _, _, _, _, _. split; [reflexivity|].
    split; [reflexivity|].
    apply (read_events_perm _ [PIN_WRDATA; PIN_ENBL1; PIN_ENBL2; PIN_WREQ;
                               PIN_ACK]).
    - apply level_pins_NoDup.
    - unfold state_reads. rewrite pin_reads_pins. apply arrange_perm. }
  split; [cbn [app]; rewrite <- ?app_assoc; reflexivity|].
  split; [reflexivity|].
  cbn [capture_buffer capture_len after_ticks s1] in Hb, Hc |- *.
  split; assumption.
Qed.

Lemma app_init_wf : wf_app app_init.
Proof. split; apply length_replicate. Qed.

Lemma app_iter_command_witness :
  wf_app app_init /\ command_active app_init = false /\
  detects (release_hw 5) (tick empty_capture) = true /\
  released_from (release_hw 5) 5 /\ (5 < 6)%nat /\
  exists a' s' evs,
    app_iter (release_hw 5) 6 app_init empty_capture = Some (a', s', evs) /\
    command_active a' = false /\ last_phases a' = 0x0B /\
    take 1 (reports evs) = [SpEnable 0x0B] /\
    outputs evs = [].
Proof.
  assert (Hd : detects (release_hw 5) (tick empty_capture) = true)
    by reflexivity.
  assert (Hf : (5 < 6)%nat) by lia.
  split; [exact app_init_wf|]. split; [reflexivity|]. split; [exact Hd|].
  split; [exact (release_hw_released 5)|]. split; [exact Hf|].
  destruct (app_iter_command (release_hw 5) 6 app_init empty_capture 5
              app_init_wf eq_refl Hd (release_hw_released 5) Hf)
    as (a' & s' & evs & t0 & t1 & sampling & rest & st & polls & k & Hrun &
        _ & _ & _ & _ & _ & _ & _ & _ & _ & Hc & Hl & Hr & _ & _ & Ho & _).
  exists a', s', evs. split; [exact Hrun|]. split; [exact Hc|].
  split; [exact Hl|]. split; [rewrite Hr; reflexivity|exact Ho].
Defined.

(** X17: a pass of the main loop that does not find the enable pattern
    with the drive enabled, no command being active.  Whatever the fuel,
    the pass ends after the four reads of the phase lines, the one or two
    reads of the enable lines and one yield.  It prints at most the debug
    line of a phase change, and that only when the phases differ from those
    of the pass before and are neither 0x0A nor 0x0B.  It leaves the logs
    as they are and records the phases. *)
Theorem app_iter_idle hw fuel a s :
  command_active a = false ->
  detects hw (tick s) = false ->
  exists s' evs,
    app_iter hw fuel a s
      = Some (with_phases (phases_at hw (tick s)) a, s', evs) /\
    hw_events evs = phase_events hw (tick s) ++ enable_events hw (4 + tick s) /\
    reports evs =
      (if negb (phases_at hw (tick s) =? last_phases a) &&
          (negb (phases_at hw (tick s) =? 0x0A) &&
           negb (phases_at hw (tick s) =? 0x0B))
       then [LogPhase (phases_at hw (tick s))] else []) /\
    task_delays evs = [ATaskDelay 1] /\
    outputs evs = [] /\
    (6 + tick s <= tick s' <= 7 + tick s)%nat /\
    capture_buffer s' = capture_buffer s /\ capture_len s' = capture_len s.
Proof.
  intros Hidle Hd. rewrite (app_iter_idle_eq _ _ _ _ Hd Hidle).
  pose proof (enable_ticks_bounds hw (4 + tick s)) as Hticks.
  eexists _, _. split; [reflexivity|].
  project_events. unfold phase_log.
  destruct (negb (phases_at hw (tick s) =? last_phases a) &&
            (negb (phases_at hw (tick s) =? 0x0A) &&
             negb (phases_at hw (tick s) =? 0x0B)));
    cbv [reports hw_events task_delays outputs omap list_omap];
    rewrite ?app_nil_r; cbn [tick after_ticks capture_buffer capture_len];
    repeat split; try reflexivity; lia.
Qed.

Lemma app_iter_idle_witness :
  command_active app_init = false /\
  detects idle_hw (tick empty_capture) = false /\
  exists s' evs,
    app_iter idle_hw 0 app_init empty_capture
      = Some (with_phases 0x0F app_init, s', evs) /\
    reports evs = [LogPhase 0x0F] /\
    task_delays evs = [ATaskDelay 1].
Proof.
  assert (Hd : detects idle_hw (tick empty_capture) = false) by reflexivity.
  split; [reflexivity|]. split; [exact Hd|].
  destruct (app_iter_idle idle_hw 0 app_init empty_capture eq_refl Hd)
    as (s' & evs & Hrun & _ & Hr & Ht & _).
  exists s', evs. split; [exact Hrun|]. split; [exact Hr|exact Ht].
Defined.

(** ** The whole main loop *)

Lemma yields_app e1 e2 : yields (e1 ++ e2) = yields e1 ++ yields e2.
Proof. unfold yields. rewrite task_delays_app. apply omap_app. Qed.

Lemma yields_quiet evs ds :
  task_delays evs = ds ->
  Forall (fun d => exists ms, d = ATaskDelayMs ms) ds ->
  yields evs = [].
Proof.
  unfold yields. intros -> H.
  induction H as [|d ds (ms & ->) _ IH]; [reflexivity|exact IH].
Qed.

Lemma yields_AHw evs : yields (AHw <$> evs) = [].
Proof. unfold yields. rewrite task_delays_AHw. reflexivity. Qed.

Lemma app_iter_returns hw fuel a s (t : nat) :
  wf_app a -> command_active a = false ->
  released_from hw t -> (t < fuel)%nat ->
  exists a' s' evs,
    app_iter hw fuel a s = Some (a', s', evs) /\ yields evs = [1].
Proof.
  intros [Hsl Hwl] Hidle Hrel Hfuel.
  destruct (detects hw (tick s)) eqn:Hd.
  - set (s1 := after_ticks (enable_ticks hw (4 + tick s)) (after_ticks 4 s)).
    destruct (rearm_loop_returns hw
                (timer_us hw (7 + 6 * Z.to_nat FAST_SAMPLES + tick s1)) t fuel
                (after_ticks (8 + 6 * Z.to_nat FAST_SAMPLES) s1)
                (or_introl Hrel) ltac:(lia)) as (r_s & r_evs & Hrearm).
    destruct (fast_capture_run hw fuel (phases_at hw (tick s)) a s1 r_s r_evs
                Hsl Hwl Hrearm) as (rest & Heq & _ & _ & Hdel & _).
    apply rearm_loop_sound in Hrearm as (early & final & _ & Hrd & _).
    rewrite (app_iter_command_eq _ _ _ _ Hd Hidle). fold s1. rewrite Heq.
    eexists _, _, _. split; [reflexivity|].
    rewrite !yields_app.
    rewrite !yields_AHw.
    rewrite (yields_quiet rest _ Hdel).
    2:{ rewrite Hrd. apply Forall_app. split.
        - apply Forall_replicate_intro. eauto.
        - constructor; [eauto|constructor]. }
    unfold phase_log. destruct (_ && _); reflexivity.
  - rewrite (app_iter_idle_eq _ _ _ _ Hd Hidle).
    eexists _, _, _. split; [reflexivity|].
    rewrite !yields_app.
    rewrite !yields_AHw.
    unfold phase_log. destruct (_ && _); reflexivity.
Qed.

Lemma app_loop_returns hw fuel (t : nat) n : forall a s,
  wf_app a -> command_active a = false ->
  released_from hw t -> (t < fuel)%nat ->
  exists a' s' evs,
    app_loop hw n fuel a s = Some (a', s', evs) /\
    yields evs = replicate n 1.
Proof.
  induction n as [|n IH]; intros a s Hwf Hidle Hrel Hfuel.
  - eexists _, _, _. split; reflexivity.
  - destruct (app_iter_returns hw fuel a s t Hwf Hidle Hrel Hfuel)
      as (a1 & s1 & e1 & Hrun1 & Hy1).
    destruct (app_iter_inv _ _ _ _ _ _ _ Hwf Hidle Hrun1)
      as (Hwf1 & Hidle1 & _).
    destruct (IH a1 s1 Hwf1 Hidle1 Hrel Hfuel) as (a2 & s2 & e2 & Hrun2 & Hy2).
    exists a2, s2, (e1 ++ e2). split.
    + cbn [app_loop]. eapply abind_run; eassumption.
    + rewrite yields_app, Hy1, Hy2. reflexivity.
Qed.

Lemma configure_gpio_run s :
  configure_gpio s =
    Some (tt, s,
          [AConfig input_pin_mask GPIO_MODE_INPUT;
           AConfig (pin_bit PIN_ACK) GPIO_MODE_INPUT_OUTPUT;
           ASetLevel PIN_ACK 1;
           AConfig (pin_bit PIN_RDDATA) GPIO_MODE_OUTPUT;
           ASetLevel PIN_RDDATA 1]).
Proof. reflexivity. Qed.

Lemma task_delays_elem ms evs :
  ATaskDelayMs ms ∈ evs -> ATaskDelayMs ms ∈ task_delays evs.
Proof.
  induction evs as [|e evs IH]; intros H; [inversion H|].
  apply elem_of_cons in H as [<-|H]; [left|].
  specialize (IH H).
  destruct e; try exact IH; right; exact IH.
Qed.

Lemma app_main_eq hw n fuel s :
  app_main hw n fuel s =
    match app_loop hw n fuel app_init s with
    | Some (a', s', evs) => Some (a', s', startup_events ++ evs)
    | None => None
    end.
Proof.
  unfold app_main. generalize (app_loop hw n fuel app_init). intros loop.
  unfold mbind at 1, App_bind at 1.
  change (report_line Banner s) with (Some (tt, s, [AReport Banner])).
  cbv beta iota.
  unfold mbind at 1, App_bind at 1. rewrite configure_gpio_run.
  unfold mbind at 1, App_bind at 1.
  change (report_line LogConfigured s)
    with (Some (tt, s, [AReport LogConfigured])).
  cbv beta iota.
  destruct (loop s) as [[[a' s'] evs]|]; reflexivity.
Qed.

(** X18: [app_main] drives the bus once and then only observes.  Whenever
    it has run some passes of its loop, its effects are the banner, the
    pin configuration with the acknowledge and read-data lines set high,
    and the effects of the loop; those contain no pin write and no
    configuration, and no scheduler delay other than the 10 ms polls, the
    500 ms debounce and the one-tick yields, so that the 100 ms delay of
    the branch for a command cut short never runs.  No command is left
    active between passes, the two logs keep their size, and the capture
    array and its length are never touched: the capture session and its
    analysis are not reached from [app_main]. *)
Theorem app_main_observes hw n fuel s a' s' evs :
  app_main hw n fuel s = Some (a', s', evs) ->
  exists loop_evs,
    evs = startup_events ++ loop_evs /\
    outputs evs =
      [AConfig input_pin_mask GPIO_MODE_INPUT;
       AConfig (pin_bit PIN_ACK) GPIO_MODE_INPUT_OUTPUT;
       ASetLevel PIN_ACK 1;
       AConfig (pin_bit PIN_RDDATA) GPIO_MODE_OUTPUT;
       ASetLevel PIN_RDDATA 1] /\
    outputs loop_evs = [] /\
    Forall regular_delay (task_delays evs) /\
    (ATaskDelayMs 100 ∉ evs) /\
    prints (hw_events evs) = [] /\
    stores (hw_events evs) = [] /\
    loads (hw_events evs) = [] /\
    command_active a' = false /\ wf_app a' /\
    capture_buffer s' = capture_buffer s /\ capture_len s' = capture_len s.
Proof.
  intros Hrun. rewrite app_main_eq in Hrun.
  destruct (app_loop hw n fuel app_init s) as [[[a1 s1] e1]|] eqn:Hloop;
    [|discriminate].
  remember (startup_events ++ e1) as E eqn:HE.
  injection Hrun as <- <- <-. subst E.
  apply app_loop_inv in Hloop
    as (Hwf & Hidle & (Ho & Hd & Hp & Hs & Hl) & Hb & Hc);
    [|exact app_init_wf|reflexivity].
  exists e1. split; [reflexivity|].
  rewrite outputs_app, task_delays_app, hw_events_app, Ho.
  change (outputs startup_events) with
    [AConfig input_pin_mask GPIO_MODE_INPUT;
     AConfig (pin_bit PIN_ACK) GPIO_MODE_INPUT_OUTPUT;
     ASetLevel PIN_ACK 1;
     AConfig (pin_bit PIN_RDDATA) GPIO_MODE_OUTPUT;
     ASetLevel PIN_RDDATA 1].
  change (task_delays startup_events) with (@nil app_event).
  change (hw_events startup_events) with (@nil event).
  split; [reflexivity|]. split; [reflexivity|]. split; [exact Hd|].
  split.
  { intros Hin. apply elem_of_app in Hin as [Hin|Hin].
    - unfold startup_events in Hin.
      repeat (apply elem_of_cons in Hin as [Hin|Hin]; [discriminate|]).
      inversion Hin.
    - assert (Hin' : ATaskDelayMs 100 ∈ task_delays e1)
        by (apply task_delays_elem; exact Hin).
      rewrite Forall_forall in Hd. apply Hd in Hin'.
      destruct Hin' as [H|[H|H]]; discriminate. }
  split; [exact Hp|]. split; [exact Hs|]. split; [exact Hl|].
  split; [exact Hidle|]. split; [exact Hwf|]. split; assumption.
Qed.

Lemma app_main_observes_witness :
  exists a' s' evs,
    app_main idle_hw 2 0 empty_capture = Some (a', s', evs) /\
    outputs evs =
      [AConfig input_pin_mask GPIO_MODE_INPUT;
       AConfig (pin_bit PIN_ACK) GPIO_MODE_INPUT_OUTPUT;
       ASetLevel PIN_ACK 1;
       AConfig (pin_bit PIN_RDDATA) GPIO_MODE_OUTPUT;
       ASetLevel PIN_RDDATA 1] /\
    (ATaskDelayMs 100 ∉ evs) /\
    capture_len s' = capture_len empty_capture.
Proof.
  destruct (app_main idle_hw 2 0 empty_capture) as [[[a' s'] evs]|] eqn:Hrun;
    [|vm_compute in Hrun; discriminate Hrun].
  destruct (app_main_observes idle_hw 2 0 empty_capture a' s' evs Hrun)
    as (loop_evs & _ & Ho & _ & _ & Hn & _ & _ & _ & _ & _ & _ & Hc).
  exists a', s', evs. auto.
Defined.

(** X19: the main loop does not get stuck.  On hardware on which the drive
    reads as released from some hardware call on, with fuel above that
    call for the wait that re-arms the decoder, [app_main] gets through
    any number of passes of its loop, and each pass yields to the scheduler
    exactly once. *)
Theorem app_main_returns hw n fuel s (t : nat) :
  released_from hw t -> (t < fuel)%nat ->
  exists a' s' evs,
    app_main hw n fuel s = Some (a', s', evs) /\
    yields evs = replicate n 1.
Proof.
  intros Hrel Hfuel. rewrite app_main_eq.
  destruct (app_loop_returns hw fuel t n app_init s app_init_wf eq_refl
              Hrel Hfuel) as (a' & s' & evs & Hrun & Hy).
  rewrite Hrun. eexists _, _, _. split; [reflexivity|].
  rewrite yields_app, Hy. reflexivity.
Qed.

Lemma app_main_returns_witness :
  released_from (release_hw 5) 5 /\ (5 < 6)%nat /\
  exists a' s' evs,
    app_main (release_hw 5) 3 6 empty_capture = Some (a', s', evs) /\
    yields evs = [1; 1; 1].
Proof.
  assert (Hf : (5 < 6)%nat) by lia.
  split; [exact (release_hw_released 5)|]. split; [exact Hf|].
  exact (app_main_returns (release_hw 5) 3 6 empty_capture 5
           (release_hw_released 5) Hf).
Defined.

(** ** Pin configuration *)

Lemma gpio_num_range p : 0 <= gpio_num p < 40.
Proof. destruct p; cbn; lia. Qed.

Lemma pin_bit_testbit p k : Z.testbit (pin_bit p) k = (gpio_num p =? k).
Proof.
  unfold pin_bit. pose proof (gpio_num_range p) as Hp.
  rewrite Z.shiftl_1_l. apply Z.pow2_bits_eqb. lia.
Qed.

Lemma mask_testbit (l : list pin) k :
  Z.testbit (foldr (fun p m => Z.lor (pin_bit p) m) 0 l) k = true <->
  exists p, p ∈ l /\ gpio_num p = k.
Proof.
  induction l as [|q l IH]; cbn [foldr].
  - rewrite Z.bits_0. split; [discriminate|].
    intros (p & Hp & _). inversion Hp.
  - rewrite Z.lor_spec, orb_true_iff, IH, pin_bit_testbit, Z.eqb_eq. split.
    + intros [H|(p & Hp & H)].
      * exists q. split; [left|exact H].
      * exists p. split; [right; exact Hp|exact H].
    + intros (p & Hp & H). apply elem_of_cons in Hp as [->|Hp]; [auto|].
      right. eauto.
Qed.

(** X20: the pin configuration.  [configure_gpio] configures as inputs
    exactly the eight bus lines the decoder reads: a bit of the input mask
    is set if and only if it is the GPIO number of one of them.  The
    acknowledge line becomes an input-output and is set high, the read-data
    line an output and is set high.  The GPIO numbers of the eleven pins
    are pairwise distinct, and the pins left out of the input mask are the
    two outputs and the debug pin, which is not configured at all. *)
Theorem configure_gpio_pins s :
  configure_gpio s =
    Some (tt, s,
          [AConfig input_pin_mask GPIO_MODE_INPUT;
           AConfig (pin_bit PIN_ACK) GPIO_MODE_INPUT_OUTPUT;
           ASetLevel PIN_ACK 1;
           AConfig (pin_bit PIN_RDDATA) GPIO_MODE_OUTPUT;
           ASetLevel PIN_RDDATA 1]) /\
  (forall k, Z.testbit input_pin_mask k = true <->
             exists p, p ∈ input_pins /\ gpio_num p = k) /\
  (forall p q, gpio_num p = gpio_num q -> p = q) /\
  (forall p, Z.testbit input_pin_mask (gpio_num p) = false <->
             p = PIN_RDDATA \/ p = PIN_ACK \/ p = PIN_DBG_Q7) /\
  (forall p k, Z.testbit (pin_bit p) k = true <-> k = gpio_num p).
Proof.
  split; [reflexivity|]. split; [intros k; apply mask_testbit|].
  split; [intros p q; destruct p, q; cbn; intros H; congruence|].
  split.
  - intros p. destruct p; vm_compute; intuition discriminate.
  - intros p k. rewrite pin_bit_testbit, Z.eqb_eq. split; auto.
Qed.
